(** * DeathToll: the stats tracker of [main.py], embedded and verified

    The development follows [main.py] top to bottom: the module's global
    variables become one record [globals] that every function takes and
    returns; Python exceptions become an [option exn] next to the state a
    function leaves behind; the FTP server and the snapshot file are explicit
    values of the environment.

    Data:
    - Python [int] is [Z]; Python [float] is Rocq's primitive binary64
      [float] (the same IEEE 754 format), with [+], [<?] and [=?] of
      [float_scope];
    - [player_stats] is a Python [dict], whose iteration order is insertion
      order and shows in every leaderboard: an association list [odict] with
      the dict's update discipline;
    - the dicts that are only read by key ([skills], [skill_milestones],
      [file_positions]) are [gmap string Z];
    - [last_events] is a Python [set]: a [gset string]; what [list(s)]
      enumerates is the interpreter's hash order, a parameter [set_iter].

    The loop of [monitor_server] runs over a list of [iteration]s, each one
    saying what the world does during a pass: whether the connection comes
    up, what the server holds, what [datetime.now()] returns and how a save
    goes. The builtins [json.load], [json.dump], [str.strip] and [int] are
    parameters of the sections that use them. *)

From stdpp Require Import gmap strings.
From Stdlib Require Import ZArith List String Ascii Bool Lia Floats DecimalString.
From Stdlib Require Import Sorted Permutation.
Import ListNotations.

Local Open Scope string_scope.
Local Open Scope list_scope.
Local Open Scope Z_scope.

Set Default Proof Using "Type".

(** ** Python's insertion-ordered dict with string keys *)

Module OrderedDict.

Section Dict.
Context {V : Type}.

Definition odict : Type := list (string * V).

(** [d.get(k)] *)
Fixpoint od_get (k : string) (d : odict) : option V :=
  match d with
  | [] => None
  | (k', v) :: d' => if String.eqb k k' then Some v else od_get k d'
  end.

(** [k in d] *)
Definition od_mem (k : string) (d : odict) : bool :=
  match od_get k d with Some _ => true | None => false end.

(** [d[k] = v]: an existing key keeps its position, a new key goes last. *)
Fixpoint od_set (k : string) (v : V) (d : odict) : odict :=
  match d with
  | [] => [(k, v)]
  | (k', v') :: d' =>
      if String.eqb k k' then (k', v) :: d' else (k', v') :: od_set k v d'
  end.

Definition od_keys (d : odict) : list string := map fst d.

(** The keys of a dict are pairwise distinct. *)
Definition od_wf (d : odict) : Prop := List.NoDup (od_keys d).

End Dict.

Arguments odict : clear implicits.

End OrderedDict.
Import OrderedDict.

(** ** The data model of [main.py] *)

(** [player_stats[username]['current_character']] *)
Record character := {
  alive : bool;
  spawn_time : option string;
  hours_survived : float;
  last_location : Z * Z * Z;
  skills : gmap string Z
}.

(** [player_stats[username]['lifetime_stats']] *)
Record lifetime := {
  total_hours_survived : float;
  longest_survival : float;
  skill_milestones : gmap string Z
}.

(** [player_stats[username]] *)
Record player := {
  steam_id : string;
  total_deaths : Z;
  total_respawns : Z;
  current_character : character;
  lifetime_stats : lifetime
}.

(** One entry of a [daily_survivors] event. *)
Record survivor := {
  s_username : string;
  s_hours : float;
  s_location : Z * Z * Z
}.

(** The [data] object of an event, after the coercions of the handlers:
    [d_hours_survived] is [float(data.get('hours_survived', 0))], [d_level]
    is [int(data.get('level', 0))], and [d_skills] is the value of
    [parse_skills_string(data.get('skills', ''))], [None] when that call
    raises [ValueError] on a malformed pair. *)
Record event_data := {
  d_username : string;
  d_steam_id : string;
  d_hours_survived : float;
  d_x : Z;
  d_y : Z;
  d_z : Z;
  d_skills : option (gmap string Z);
  d_skill : string;
  d_level : Z;
  d_game_day : Z;
  d_survivors : list survivor;
  d_type : string
}.

(** One decoded line of the log. *)
Record event := {
  e_type : string;
  e_timestamp : string;
  e_data : event_data
}.

(** What [send_discord_notification] posts to the webhook. The text of a
    message ([format_time], ordinals, emoji, colours, the top skills of a
    death) is rendering and is left out; the embed keeps the subject and
    the figures the text is rendered from. What is kept of the rendering
    is the exception it can raise, see [format_time]. A leaderboard row is
    the index [i] of [enumerate], the name and the value shown. *)
Inductive embed :=
| DeathEmbed (username : string) (death_count : Z) (hours longest : float)
| RespawnEmbed (username : string) (character_num death_count : Z)
| SkillEmbed (username skill : string) (level : Z) (hours : float)
| SunriseEmbed (game_day : Z)
| SunsetEmbed (game_day : Z)
| DailyReportEmbed (game_day : Z) (rows : list (nat * survivor)) (online : nat)
| DeathBoard (rows : list (nat * string * Z))
| SurvivalBoard (rows : list (nat * string * float * bool))
| HoursBoard (rows : list (nat * string * float))
| SkillBoard (skill_name : string) (rows : list (nat * string * Z)).

(** The exceptions the modelled code can raise. *)
Inductive exn :=
| ValueError
| KeyError
| AttributeError
| UnboundLocalError
| TransportError
| OverflowError.

(** The module's global variables, the configured notification policy, and
    the posts made to the webhook so far (oldest first). *)
Record globals := {
  file_positions : gmap string Z;
  last_events : gset string;
  player_stats : odict player;
  unsaved_changes : bool;
  SKILL_NOTIFICATIONS : string;
  webhook : list embed
}.

Definition DISCORD_LOG_PATH : string := "/Lua/discord_events.log".
Definition SKILL_MILESTONES : list Z := [5; 10].

(** The state of the module right after import, with the default policy. *)
Definition initial_globals : globals :=
  {| file_positions := ∅;
     last_events := ∅;
     player_stats := [];
     unsaved_changes := false;
     SKILL_NOTIFICATIONS := "milestones";
     webhook := [] |}.

Definition with_player_stats (ps : odict player) (g : globals) : globals :=
  {| file_positions := file_positions g;
     last_events := last_events g;
     player_stats := ps;
     unsaved_changes := unsaved_changes g;
     SKILL_NOTIFICATIONS := SKILL_NOTIFICATIONS g;
     webhook := webhook g |}.

Definition with_unsaved_changes (b : bool) (g : globals) : globals :=
  {| file_positions := file_positions g;
     last_events := last_events g;
     player_stats := player_stats g;
     unsaved_changes := b;
     SKILL_NOTIFICATIONS := SKILL_NOTIFICATIONS g;
     webhook := webhook g |}.

Definition with_file_positions (fp : gmap string Z) (g : globals) : globals :=
  {| file_positions := fp;
     last_events := last_events g;
     player_stats := player_stats g;
     unsaved_changes := unsaved_changes g;
     SKILL_NOTIFICATIONS := SKILL_NOTIFICATIONS g;
     webhook := webhook g |}.

(** [send_discord_notification(embed)]: one POST to the webhook. A failed
    POST is printed and answered [False]; it never raises. *)
Definition send_discord_notification (e : embed) (g : globals) : globals :=
  {| file_positions := file_positions g;
     last_events := last_events g;
     player_stats := player_stats g;
     unsaved_changes := unsaved_changes g;
     SKILL_NOTIFICATIONS := SKILL_NOTIFICATIONS g;
     webhook := webhook g ++ [e] |}.

(** ** [init_player] *)

(** The record [init_player] creates. The integer [0] of the two float
    fields is the float zero: Python compares and adds them alike. *)
Definition new_player (sid : string) : player :=
  {| steam_id := sid;
     total_deaths := 0;
     total_respawns := 0;
     current_character :=
       {| alive := false;
          spawn_time := None;
          hours_survived := 0%float;
          last_location := (0, 0, 0);
          skills := ∅ |};
     lifetime_stats :=
       {| total_hours_survived := 0%float;
          longest_survival := 0%float;
          skill_milestones := ∅ |} |}.

Definition init_player (username sid : string) (g : globals) : globals :=
  if od_mem username (player_stats g) then g
  else with_player_stats (od_set username (new_player sid) (player_stats g)) g.

(** ** [format_time] *)

(** [format_time(hours)] for a float [hours]. The text it returns is
    rendering and is left out; what is kept is whether the call returns.
    [hours // 24] and [hours % 24] are finite when [hours] is finite and nan
    when [hours] is infinite or nan, and [int(nan)] raises [ValueError]:
    the result is the exception raised, [None] when the call returns. *)
Definition format_time (hours : float) : option exn :=
  if is_nan hours || is_infinity hours then Some ValueError else None.

(** The conversion of the [int] operand of [float / int]: the nearest
    binary64 value, ties to even; [None] is the [OverflowError] of an
    [int] too large for a float. *)
Definition float_of_int (n : Z) : option float :=
  let f := SF2Prim (binary_normalize prec emax n 0 false) in
  if is_infinity f then None else Some f.

(** [format_time(total / count)] for a float [total] and an [int] [count]
    other than 0. *)
Definition format_average (total : float) (count : Z) : option exn :=
  match float_of_int count with
  | None => Some OverflowError
  | Some c => format_time (total / c)
  end.

(** The exception that ends a loop whose passes may raise: the first one
    in the order of the passes, [None] when every pass returns. *)
Fixpoint first_raised (passes : list (option exn)) : option exn :=
  match passes with
  | [] => None
  | Some e :: _ => Some e
  | None :: rest => first_raised rest
  end.

(** ** Notifications of the handlers *)

(** [send_death_notification]: reads the record the handler has just
    updated, and renders the hours of the event (line 156) and the longest
    survival on record (line 162) before it posts. *)
Definition send_death_notification (username : string) (hours : float)
    (g : globals) : globals * option exn :=
  match od_get username (player_stats g) with
  | None => (g, Some KeyError)
  | Some p =>
      match format_time hours with
      | Some e => (g, Some e)
      | None =>
          match format_time (longest_survival (lifetime_stats p)) with
          | Some e => (g, Some e)
          | None =>
              (send_discord_notification
                 (DeathEmbed username (total_deaths p) hours
                    (longest_survival (lifetime_stats p))) g, None)
          end
      end
  end.

(** [send_respawn_notification]: the average survival is computed and
    rendered only for a subject with a death on record. *)
Definition send_respawn_notification (username : string) (character_num : Z)
    (g : globals) : globals * option exn :=
  match od_get username (player_stats g) with
  | None => (g, Some KeyError)
  | Some p =>
      match (if 0 <? total_deaths p
             then format_average (total_hours_survived (lifetime_stats p))
                    (total_deaths p)
             else None) with
      | Some e => (g, Some e)
      | None =>
          (send_discord_notification
             (RespawnEmbed username character_num (total_deaths p)) g, None)
      end
  end.

(** [send_skill_notification]: the hours of the event are rendered in the
    description. *)
Definition send_skill_notification (username skill : string) (level : Z)
    (hours : float) (g : globals) : globals * option exn :=
  match format_time hours with
  | Some e => (g, Some e)
  | None => (send_discord_notification (SkillEmbed username skill level hours) g, None)
  end.

(** ** Event handlers *)

(** [dict.get(key, 0)] on a skill dict. *)
Definition get0 (m : gmap string Z) (k : string) : Z := default 0 (m !! k).

(** [handle_death_event]. The counter, the [alive] flag, the hours and the
    location are written before [parse_skills_string] is called: when that
    call raises, they stay written and the lifetime totals are not
    reached. The [print] of line 454 renders the hours of the event after
    every write and before the notification. *)
Definition handle_death_event (data : event_data) (g : globals)
    : globals * option exn :=
  let username := d_username data in
  let hours := d_hours_survived data in
  let g := init_player username (d_steam_id data) g in
  match od_get username (player_stats g) with
  | None => (g, Some KeyError)
  | Some p =>
      let c := current_character p in
      let written (sk : gmap string Z) (lt : lifetime) : player :=
        {| steam_id := steam_id p;
           total_deaths := total_deaths p + 1;
           total_respawns := total_respawns p;
           current_character :=
             {| alive := false;
                spawn_time := spawn_time c;
                hours_survived := hours;
                last_location := (d_x data, d_y data, d_z data);
                skills := sk |};
           lifetime_stats := lt |} in
      match d_skills data with
      | None =>
          (with_player_stats
             (od_set username (written (skills c) (lifetime_stats p))
                (player_stats g)) g,
           Some ValueError)
      | Some sk =>
          let lt := lifetime_stats p in
          let lt' :=
            {| total_hours_survived := (total_hours_survived lt + hours)%float;
               longest_survival :=
                 if (longest_survival lt <? hours)%float then hours
                 else longest_survival lt;
               skill_milestones := skill_milestones lt |} in
          let g := with_player_stats
                     (od_set username (written sk lt') (player_stats g)) g in
          let g := with_unsaved_changes true g in
          match format_time hours with
          | Some e => (g, Some e)
          | None => send_death_notification username hours g
          end
      end
  end.

(** [handle_spawn_event]; [now] is [datetime.now().isoformat()]. *)
Definition handle_spawn_event (now : string) (data : event_data) (g : globals)
    : globals * option exn :=
  let username := d_username data in
  let g := init_player username (d_steam_id data) g in
  match od_get username (player_stats g) with
  | None => (g, Some KeyError)
  | Some p =>
      let p' :=
        {| steam_id := steam_id p;
           total_deaths := total_deaths p;
           total_respawns := total_respawns p + 1;
           current_character :=
             {| alive := true;
                spawn_time := Some now;
                hours_survived := 0%float;
                last_location := (d_x data, d_y data, d_z data);
                skills := ∅ |};
           lifetime_stats := lifetime_stats p |} in
      let g := with_player_stats (od_set username p' (player_stats g)) g in
      let g := with_unsaved_changes true g in
      send_respawn_notification username (total_respawns p') g
  end.

(** [handle_level_up_event] *)
Definition handle_level_up_event (data : event_data) (g : globals)
    : globals * option exn :=
  let username := d_username data in
  let skill := d_skill data in
  let level := d_level data in
  let hours := d_hours_survived data in
  let g := init_player username (d_steam_id data) g in
  match od_get username (player_stats g) with
  | None => (g, Some KeyError)
  | Some p =>
      let c := current_character p in
      let lt := lifetime_stats p in
      let current_milestone := get0 (skill_milestones lt) skill in
      let p' :=
        {| steam_id := steam_id p;
           total_deaths := total_deaths p;
           total_respawns := total_respawns p;
           current_character :=
             {| alive := alive c;
                spawn_time := spawn_time c;
                hours_survived := hours;
                last_location := last_location c;
                skills := <[skill := level]> (skills c) |};
           lifetime_stats :=
             {| total_hours_survived := total_hours_survived lt;
                longest_survival := longest_survival lt;
                skill_milestones :=
                  if current_milestone <? level
                  then <[skill := level]> (skill_milestones lt)
                  else skill_milestones lt |} |} in
      let g := with_player_stats (od_set username p' (player_stats g)) g in
      let g := with_unsaved_changes true g in
      let should_notify :=
        if String.eqb (SKILL_NOTIFICATIONS g) "all" then true
        else if String.eqb (SKILL_NOTIFICATIONS g) "milestones"
                && existsb (Z.eqb level) SKILL_MILESTONES then true
        else false in
      if should_notify
      then send_skill_notification username skill level hours g
      else (g, None)
  end.

(** [handle_login_event]: [parse_skills_string] is the first statement
    after [init_player]; the [print] of line 533 renders the hours of the
    event after every write. *)
Definition handle_login_event (data : event_data) (g : globals)
    : globals * option exn :=
  let username := d_username data in
  let g := init_player username (d_steam_id data) g in
  match od_get username (player_stats g) with
  | None => (g, Some KeyError)
  | Some p =>
      match d_skills data with
      | None => (g, Some ValueError)
      | Some sk =>
          let c := current_character p in
          let p' :=
            {| steam_id := steam_id p;
               total_deaths := total_deaths p;
               total_respawns := total_respawns p;
               current_character :=
                 {| alive := true;
                    spawn_time := spawn_time c;
                    hours_survived := d_hours_survived data;
                    last_location := last_location c;
                    skills := sk |};
               lifetime_stats := lifetime_stats p |} in
          let g := with_player_stats (od_set username p' (player_stats g)) g in
          (with_unsaved_changes true g, format_time (d_hours_survived data))
      end
  end.

(** ** Leaderboards *)

(** [sorted(l, key=..., reverse=True)]: descending by key, and stable (items
    with equal keys keep their order). [lt x y] is [key(x) < key(y)]. This is
    what Python returns for keys that are totally ordered by [<]; every
    property below uses only that the result has the items of [l]. *)
Section Sorted.
Context {A : Type} (lt : A -> A -> bool).

Fixpoint insert_desc (x : A) (l : list A) : list A :=
  match l with
  | [] => [x]
  | y :: l' => if lt x y then y :: insert_desc x l' else x :: y :: l'
  end.

Definition sorted_desc (l : list A) : list A := fold_right insert_desc [] l.

End Sorted.

(** [enumerate(l)] *)
Definition enumerate {A : Type} (l : list A) : list (nat * A) :=
  combine (seq 0 (List.length l)) l.

(** [s.replace(pat, "")] for a non-empty [pat]: every occurrence found from
    left to right is dropped; [skip] counts the characters of the current
    occurrence still to drop. *)
Fixpoint remove_all_from (pat : string) (skip : nat) (s : string) : string :=
  match s with
  | EmptyString => EmptyString
  | String c s' =>
      match skip with
      | S k => remove_all_from pat k s'
      | O =>
          if String.prefix pat s
          then remove_all_from pat (Nat.pred (String.length pat)) s'
          else String c (remove_all_from pat O s')
      end
  end.

Definition remove_all (pat s : string) : string := remove_all_from pat O s.

(** The list [sorted_players] of the "death" board. *)
Definition death_ranking (ps : odict player) : list (string * player) :=
  firstn 10
    (sorted_desc (fun x y => total_deaths (snd x) <? total_deaths (snd y))
       (filter (fun x => 0 <? total_deaths (snd x)) ps)).

(** The list [sorted_players] of the "survival" board: nobody is filtered
    out before the sort. *)
Definition survival_ranking (ps : odict player) : list (string * player) :=
  firstn 10
    (sorted_desc
       (fun x y => (longest_survival (lifetime_stats (snd x))
                    <? longest_survival (lifetime_stats (snd y)))%float)
       ps).

(** The [lines] of the "survival" board: a zero streak is skipped and keeps
    its rank number unused. *)
Definition survival_lines (ranking : list (string * player))
    : list (nat * string * float * bool) :=
  flat_map
    (fun '(i, (name, data)) =>
       let longest := longest_survival (lifetime_stats data) in
       if (longest =? 0)%float then []
       else [(i, name, longest, alive (current_character data))])
    (enumerate ranking).

(** The list [sorted_players] of the "hours" board. *)
Definition hours_ranking (ps : odict player) : list (string * player) :=
  firstn 10
    (sorted_desc
       (fun x y => (total_hours_survived (lifetime_stats (snd x))
                    <? total_hours_survived (lifetime_stats (snd y)))%float)
       (filter
          (fun x => (0 <? total_hours_survived (lifetime_stats (snd x)))%float)
          ps)).

(** The list [players_with_skill] of a skill board, in dict order. *)
Definition players_with_skill (skill_name : string) (ps : odict player)
    : list (string * Z) :=
  flat_map
    (fun '(name, data) =>
       let c := current_character data in
       (if alive c
        then let skill_level := get0 (skills c) skill_name in
             if 0 <? skill_level then [(name, skill_level)] else []
        else [])
       ++
       (let milestone := get0 (skill_milestones (lifetime_stats data)) skill_name in
        if (0 <? milestone) && negb (alive c) then [(name, milestone)] else []))
    ps.

Definition skill_ranking (skill_name : string) (ps : odict player)
    : list (string * Z) :=
  firstn 10
    (sorted_desc (fun x y => snd x <? snd y) (players_with_skill skill_name ps)).

(** The rendering of the rows of the "death" board: the average survival
    of each row, in order (lines 309-310). *)
Definition death_averages (ranking : list (string * player)) : option exn :=
  first_raised
    (map (fun '(name, data) =>
            if 0 <? total_deaths data
            then format_average (total_hours_survived (lifetime_stats data))
                   (total_deaths data)
            else None)
       ranking).

(** The rendering of the rows of the "survival" board: a zero streak is
    skipped before it is rendered (lines 336-339). *)
Definition survival_times (ranking : list (string * player)) : option exn :=
  first_raised
    (map (fun '(name, data) =>
            let longest := longest_survival (lifetime_stats data) in
            if (longest =? 0)%float then None else format_time longest)
       ranking).

(** The rendering of the rows of the "hours" board (line 368). *)
Definition hours_times (ranking : list (string * player)) : option exn :=
  first_raised
    (map (fun '(name, data) => format_time (total_hours_survived (lifetime_stats data)))
       ranking).

(** [send_leaderboard(leaderboard_type)]. A bare [return] leaves the state
    as it is. An exception of [format_time] leaves the loop over the rows
    before anything is posted. A type that matches no branch reaches the
    last line with [embed] never assigned. *)
Definition send_leaderboard (leaderboard_type : string) (g : globals)
    : globals * option exn :=
  let ps := player_stats g in
  match ps with
  | [] => (g, None)
  | _ :: _ =>
      if String.eqb leaderboard_type "death" then
        match death_ranking ps with
        | [] => (g, None)
        | sorted_players =>
            match death_averages sorted_players with
            | Some e => (g, Some e)
            | None =>
                (send_discord_notification
                   (DeathBoard
                      (map (fun '(i, (name, data)) => (i, name, total_deaths data))
                         (enumerate sorted_players))) g, None)
            end
        end
      else if String.eqb leaderboard_type "survival" then
        match survival_ranking ps with
        | [] => (g, None)
        | sorted_players =>
            match survival_times sorted_players with
            | Some e => (g, Some e)
            | None =>
                match survival_lines sorted_players with
                | [] => (g, None)
                | lines => (send_discord_notification (SurvivalBoard lines) g, None)
                end
            end
        end
      else if String.eqb leaderboard_type "hours" then
        match hours_ranking ps with
        | [] => (g, None)
        | sorted_players =>
            match hours_times sorted_players with
            | Some e => (g, Some e)
            | None =>
                (send_discord_notification
                   (HoursBoard
                      (map (fun '(i, (name, data)) =>
                              (i, name, total_hours_survived (lifetime_stats data)))
                         (enumerate sorted_players))) g, None)
            end
        end
      else if String.prefix "skill_" leaderboard_type then
        let skill_name := remove_all "skill_" leaderboard_type in
        match players_with_skill skill_name ps with
        | [] => (g, None)
        | _ :: _ =>
            (send_discord_notification
               (SkillBoard skill_name
                  (map (fun '(i, (name, level)) => (i, name, level))
                     (enumerate (skill_ranking skill_name ps)))) g, None)
        end
      else (g, Some UnboundLocalError)
  end.

(** [send_daily_survivor_report]: nothing is sent for an empty list; the
    hours of each of the first fifteen survivors are rendered, in order
    (line 271), before the report is posted. *)
Definition send_daily_survivor_report (data : event_data) (g : globals)
    : globals * option exn :=
  match d_survivors data with
  | [] => (g, None)
  | _ :: _ =>
      let survivors :=
        sorted_desc (fun x y => (s_hours x <? s_hours y)%float) (d_survivors data) in
      match first_raised (map (fun s => format_time (s_hours s)) (firstn 15 survivors)) with
      | Some e => (g, Some e)
      | None =>
          (send_discord_notification
             (DailyReportEmbed (d_game_day data) (enumerate (firstn 15 survivors))
                (List.length survivors)) g, None)
      end
  end.

(** ** The router *)

(** [handle_discord_event(event)]: a type that matches no branch is
    ignored. *)
Definition handle_discord_event (now : string) (ev : event) (g : globals)
    : globals * option exn :=
  let event_type := e_type ev in
  let data := e_data ev in
  if String.eqb event_type "death" then handle_death_event data g
  else if String.eqb event_type "level_up" then handle_level_up_event data g
  else if String.eqb event_type "character_created" then handle_spawn_event now data g
  else if String.eqb event_type "login" then handle_login_event data g
  else if String.eqb event_type "sunrise"
  then (send_discord_notification (SunriseEmbed (d_game_day data)) g, None)
  else if String.eqb event_type "sunset"
  then (send_discord_notification (SunsetEmbed (d_game_day data)) g, None)
  else if String.eqb event_type "daily_survivors"
  then send_daily_survivor_report data g
  else if String.eqb event_type "leaderboard_request"
  then send_leaderboard (d_type data) g
  else (g, None).

(** A run of the router over a list of decoded events, each event in its
    own call: what an exception leaves written stays written. *)
Definition run_events (now : string) (evs : list event) (g : globals) : globals :=
  fold_left (fun g ev => fst (handle_discord_event now ev g)) evs g.

(** ** The tail read *)

(** What a call on the FTP connection does: it returns or it raises. *)
Inductive answer (A : Type) :=
| Returns (a : A)
| Raises (e : exn).
Arguments Returns {A} a.
Arguments Raises {A} e.

(** The FTP connection seen from [download_log_tail]: [ftp_size] is
    [ftp.size(log_path)] ([None] when the server gives no size), and
    [ftp_retr rest] is the text of the bytes [retrbinary] delivers when it
    is asked to restart at offset [rest], decoded with [errors='ignore']. *)
Record ftp_server := {
  ftp_size : answer (option Z);
  ftp_retr : Z -> answer string
}.

(** The commands a call has put on the wire. *)
Inductive ftp_command :=
| SIZE
| RETR (rest : Z).

(** [download_log_tail(ftp, log_path, from_position)]: the pair it returns
    and the commands it has issued. In the [except] branch [from_position]
    is the local variable, which a detected rotation has already set
    to 0. *)
Definition download_log_tail (ftp : ftp_server) (from_position : Z)
    : option string * Z * list ftp_command :=
  match ftp_size ftp with
  | Raises _ => (None, from_position, [SIZE])
  | Returns None => (None, from_position, [SIZE])
  | Returns (Some file_size) =>
      let from_position :=
        if file_size <? from_position then 0 else from_position in
      if file_size =? from_position then (Some "", from_position, [SIZE])
      else
        match ftp_retr ftp from_position with
        | Raises _ => (None, from_position, [SIZE; RETR from_position])
        | Returns content => (Some content, file_size, [SIZE; RETR from_position])
        end
  end.

(** ** The poll cycle *)

(** [s.split('\n')] and friends: the pieces between separators, an empty
    piece included. *)
Fixpoint split_on (sep : ascii) (s : string) : list string :=
  match s with
  | EmptyString => [EmptyString]
  | String c s' =>
      if Ascii.eqb c sep then EmptyString :: split_on sep s'
      else match split_on sep s' with
           | [] => [String c EmptyString]
           | w :: ws => String c w :: ws
           end
  end.

Definition newline : ascii := "010"%char.

(** [str(n)] of an [int]. *)
Definition str_of_int (n : Z) : string := NilZero.string_of_int (Z.to_int n).

(** The event identity of the dedup test: type and timestamp, and for a
    [level_up] the user, the skill and the level as well. *)
Definition event_id_of (ev : event) : string :=
  let timestamp := e_timestamp ev in
  let event_type := e_type ev in
  if String.eqb event_type "level_up" then
    (event_type ++ "_" ++ d_username (e_data ev) ++ "_" ++ d_skill (e_data ev)
       ++ "_" ++ str_of_int (d_level (e_data ev)) ++ "_" ++ timestamp)%string
  else (event_type ++ "_" ++ timestamp)%string.

(** What becomes of one line of the chunk. *)
Inductive decoded :=
| Blank                 (** [line.strip()] is empty *)
| Malformed             (** [json.loads] raises [JSONDecodeError] *)
| NotAnObject           (** [json.loads] returns a value without [.get] *)
| Decoded (ev : event).

Section Monitor.

(** [json.loads(line.strip())], with the blank test before it. *)
Variable decode_line : string -> decoded.

(** [list(s)] of a Python set: its elements in the order of the
    interpreter's hash table. *)
Variable set_iter : gset string -> list string.

(** [l[-1000:]] *)
Definition last_1000 {A : Type} (l : list A) : list A :=
  skipn (List.length l - 1000)%nat l.

(** Lines 634-635: [if len(s) > 1000: s = set(list(s)[-1000:])]. *)
Definition trim_events (s : gset string) : gset string :=
  if 1000 <? Z.of_nat (size s) then list_to_set (last_1000 (set_iter s)) else s.

(** The [for] loop of [monitor_discord_events_log] over the lines of one
    chunk. The function assigns [last_events] (line 635) and declares no
    [global last_events], so in its body the name is a local variable of
    the call: [local_last_events] is its binding, [None] while it is
    unbound. Reading an unbound local raises [UnboundLocalError]; the
    only [except] of the loop body is for [JSONDecodeError], so the
    exception ends the loop. The result is the state, the local and the
    exception that ended the loop, if any. *)
Fixpoint process_lines (now : string) (lines : list string) (g : globals)
    (local_last_events : option (gset string))
    : globals * option (gset string) * option exn :=
  match lines with
  | [] => (g, local_last_events, None)
  | line :: rest =>
      match decode_line line with
      | Blank => process_lines now rest g local_last_events
      | Malformed => process_lines now rest g local_last_events
      | NotAnObject => (g, local_last_events, Some AttributeError)
      | Decoded ev =>
          let event_id := event_id_of ev in
          match local_last_events with
          | None => (g, None, Some UnboundLocalError)
          | Some seen =>
              if bool_decide (event_id ∈ seen)
              then process_lines now rest g local_last_events
              else
                let seen := {[event_id]} ∪ seen in
                match handle_discord_event now ev g with
                | (g, Some e) => (g, Some seen, Some e)
                | (g, None) => process_lines now rest g (Some (trim_events seen))
                end
          end
      end
  end.

(** [monitor_discord_events_log(ftp)]: every exception that leaves the
    loop is caught and printed by the outer handlers, and the call
    returns. The local [last_events] is unbound when the loop starts. *)
Definition monitor_discord_events_log (now : string) (ftp : ftp_server)
    (g : globals) : globals :=
  let log_path := DISCORD_LOG_PATH in
  let last_pos := default 0 (file_positions g !! log_path) in
  let '(new_content, new_pos, _) := download_log_tail ftp last_pos in
  match new_content with
  | Some (String _ _ as content) =>
      let g := with_file_positions (<[log_path := new_pos]> (file_positions g)) g in
      fst (fst (process_lines now (split_on newline content) g None))
  | _ => g
  end.

End Monitor.

(** ** The snapshot file *)

(** How a save can go wrong: [open(..., 'w')] raises, or a write raises
    after [n] characters have reached the file. *)
Inductive fault :=
| NoFault
| OpenFails
| WriteFailsAfter (n : nat).

Section Snapshot.

(** [json.dump({'player_stats': ..., 'file_positions': ...}, f, indent=2)]:
    the text of the snapshot. *)
Variable json_dump : odict player -> gmap string Z -> string.

(** [save_player_stats()], on the contents of [PLAYER_STATS_FILE] ([None]:
    no such file). Opening with mode ['w'] truncates the file in place;
    the text is then written to that same file. An exception is printed,
    and [unsaved_changes] keeps its value. *)
Definition save_player_stats (f : fault) (g : globals) (file : option string)
    : globals * option string :=
  let text := json_dump (player_stats g) (file_positions g) in
  match f with
  | OpenFails => (g, file)
  | WriteFailsAfter n => (g, Some (substring 0 n text))
  | NoFault => (with_unsaved_changes false g, Some text)
  end.

(** The file after a save is the old file or the whole new snapshot. *)
Definition whole_or_untouched (f : fault) (g : globals) (file : option string) : Prop :=
  let file' := snd (save_player_stats f g file) in
  file' = file \/ file' = Some (json_dump (player_stats g) (file_positions g)).

End Snapshot.

(** ** Rendering of a death count *)

(** The [suffix] of [get_death_ordinal]. Python's [%] with a positive
    divisor is the floor remainder, as [mod] on [Z]. *)
Definition ordinal_suffix (count : Z) : string :=
  if (10 <=? count mod 100) && (count mod 100 <=? 20) then "th"
  else if count mod 10 =? 1 then "st"
  else if count mod 10 =? 2 then "nd"
  else if count mod 10 =? 3 then "rd"
  else "th".

(** [get_death_ordinal(count)] *)
Definition get_death_ordinal (count : Z) : string :=
  (str_of_int count ++ ordinal_suffix count)%string.

(** [get_death_emoji(count)] *)
Definition get_death_emoji (count : Z) : string :=
  if count =? 1 then "💀"
  else if count <=? 3 then "☠️"
  else if count <=? 5 then "⚰️"
  else if count <=? 10 then "👻"
  else "🏴‍☠️".

(** The [color] that [send_death_notification] chooses from the death
    count. *)
Definition death_color (death_count : Z) : Z :=
  if death_count =? 1 then 0xFF0000
  else if death_count <=? 3 then 0xFF6600
  else if death_count <=? 5 then 0xFF9900
  else if death_count <=? 10 then 0xFFCC00
  else 0x990000.

(** The [title] of the death embed. *)
Definition death_title (username : string) (death_count : Z) : string :=
  (get_death_emoji death_count ++ " " ++ username ++ " has died for the "
     ++ get_death_ordinal death_count ++ " time!")%string.

(** ** [parse_skills_string] *)

(** [c in s] for a one-character [c]. *)
Fixpoint contains_char (c : ascii) (s : string) : bool :=
  match s with
  | EmptyString => false
  | String c' s' => Ascii.eqb c' c || contains_char c s'
  end.

Section ParseSkills.

(** The builtins [str.strip()] and [int(str)]; [int] answers [None] where
    Python raises [ValueError]. *)
Variable py_strip : string -> string.
Variable py_int : string -> option Z.

(** The [for] loop of [parse_skills_string] over the pairs, with the dict
    built so far. A pair without ['='] is passed over; unpacking
    [pair.split('=')] into [skill, level] raises [ValueError] unless the
    split has exactly two pieces; a later pair for the same skill
    overwrites an earlier one. [None] is the [ValueError]. *)
Fixpoint parse_skill_pairs (skill_pairs : list string) (skills : gmap string Z)
    : option (gmap string Z) :=
  match skill_pairs with
  | [] => Some skills
  | pair_str :: rest =>
      if contains_char "=" pair_str then
        match split_on "=" pair_str with
        | [skill; level] =>
            match py_int (py_strip level) with
            | Some n => parse_skill_pairs rest (<[py_strip skill := n]> skills)
            | None => None
            end
        | _ => None
        end
      else parse_skill_pairs rest skills
  end.

(** [parse_skills_string(skills_str)] *)
Definition parse_skills_string (skills_str : string) : option (gmap string Z) :=
  match skills_str with
  | EmptyString => Some ∅
  | _ => parse_skill_pairs (split_on "," skills_str) ∅
  end.

End ParseSkills.

(** ** [load_player_stats] *)

Section Load.

(** [json.load(f)] followed by the two [data.get(...)]: [None] when
    [json.load] raises or the value read has no [.get]; otherwise the value
    under ['player_stats'] and the value under ['file_positions'], each
    [None] when the key is missing. *)
Variable json_load : string -> option (option (odict player) * option (gmap string Z)).

(** [load_player_stats()], on the contents of [PLAYER_STATS_FILE] ([None]:
    [os.path.exists] is false); [read_fails]: [open] raises. When the file
    is absent both variables keep their values. Any exception is printed
    and both variables become empty dicts. *)
Definition load_player_stats (read_fails : bool) (file : option string)
    (g : globals) : globals :=
  match file with
  | None => g
  | Some text =>
      match (if read_fails then None else json_load text) with
      | Some (ps, fp) =>
          with_file_positions (default ∅ fp) (with_player_stats (default [] ps) g)
      | None => with_file_positions ∅ (with_player_stats [] g)
      end
  end.

End Load.

(** ** The main loop *)

(** [datetime.now()] as the loop reads it: the date (its [toordinal()]),
    the hour and the minute. *)
Record clock := {
  c_date : Z;
  c_hour : Z;
  c_minute : Z
}.

(** [date.weekday()]: Monday is 0, Sunday is 6. *)
Definition weekday (date : Z) : Z := (date + 6) mod 7.

(** The local variables of [monitor_server] that live across iterations. *)
Record loop_state := {
  consecutive_errors : Z;
  check_count : Z;
  last_daily_leaderboard_date : option Z;
  last_weekly_leaderboard_date : option Z
}.

Definition max_errors : Z := 5.

(** The skills of the weekly boards. *)
Definition top_skills : list string :=
  ["Aiming"; "Fitness"; "Strength"; "Cooking"; "Mechanics"].

(** What the world does during one iteration: whether [ftp.connect] or
    [ftp.login] raises, the server the connection reaches, whether
    [ftp.quit] raises, the time [datetime.now()] returns, and how a save
    goes if one is made. *)
Record iteration := {
  it_connect : option exn;
  it_ftp : ftp_server;
  it_quit : option exn;
  it_now : clock;
  it_stamp : string;
  it_save : fault
}.

(** Lines 694-703: the daily boards. The result is the marker, the state,
    the seconds slept, and the exception that ended the block, if any. *)
Definition daily_leaderboards (now : clock) (last_daily : option Z) (g : globals)
    : option Z * globals * list Z * option exn :=
  if (c_minute now =? 0) && negb (bool_decide (last_daily = Some (c_date now))) then
    if (c_hour now =? 12) || (c_hour now =? 0) then
      match player_stats g with
      | [] => (last_daily, g, [], None)
      | _ :: _ =>
          match send_leaderboard "death" g with
          | (g, Some e) => (last_daily, g, [], Some e)
          | (g, None) =>
              match send_leaderboard "survival" g with
              | (g, Some e) => (last_daily, g, [2], Some e)
              | (g, None) =>
                  match send_leaderboard "hours" g with
                  | (g, Some e) => (last_daily, g, [2; 2], Some e)
                  | (g, None) => (Some (c_date now), g, [2; 2], None)
                  end
              end
          end
      end
    else (last_daily, g, [], None)
  else (last_daily, g, [], None).

(** The [for skill in top_skills] loop of the weekly boards: a board and a
    sleep of two seconds per skill. *)
Fixpoint weekly_boards (skills : list string) (g : globals)
    : globals * list Z * option exn :=
  match skills with
  | [] => (g, [], None)
  | skill :: rest =>
      match send_leaderboard ("skill_" ++ skill)%string g with
      | (g, Some e) => (g, [], Some e)
      | (g, None) =>
          let '(g, slept, e) := weekly_boards rest g in
          (g, 2 :: slept, e)
      end
  end.

(** Lines 706-713: the weekly skill boards, on Sunday at midnight. *)
Definition weekly_leaderboards (now : clock) (last_weekly : option Z) (g : globals)
    : option Z * globals * list Z * option exn :=
  if (weekday (c_date now) =? 6) && (c_hour now =? 0) && (c_minute now =? 0) then
    match player_stats g with
    | [] => (last_weekly, g, [], None)
    | _ :: _ =>
        if bool_decide (last_weekly = Some (c_date now)) then (last_weekly, g, [], None)
        else
          match weekly_boards top_skills g with
          | (g, slept, Some e) => (last_weekly, g, slept, Some e)
          | (g, slept, None) => (Some (c_date now), g, slept, None)
          end
    end
  else (last_weekly, g, [], None).

Section MainLoop.

Variable decode_line : string -> decoded.
Variable set_iter : gset string -> list string.
Variable json_dump : odict player -> gmap string Z -> string.

(** [CHECK_INTERVAL], in seconds. *)
Variable CHECK_INTERVAL : Z.

(** The [except Exception] branch of the loop: the counter goes up, and at
    [max_errors] the loop sleeps three intervals and starts counting
    again. *)
Definition on_error (st : loop_state) : loop_state * list Z :=
  let n := consecutive_errors st + 1 in
  if max_errors <=? n then
    ({| consecutive_errors := 0;
        check_count := check_count st;
        last_daily_leaderboard_date := last_daily_leaderboard_date st;
        last_weekly_leaderboard_date := last_weekly_leaderboard_date st |},
     [CHECK_INTERVAL * 3])
  else
    ({| consecutive_errors := n;
        check_count := check_count st;
        last_daily_leaderboard_date := last_daily_leaderboard_date st;
        last_weekly_leaderboard_date := last_weekly_leaderboard_date st |},
     [CHECK_INTERVAL]).

(** One pass through the body of [while True] in [monitor_server], without
    a [KeyboardInterrupt]: the loop state, the module state, the snapshot
    file and the seconds slept, in order. The counter of errors is reset
    right after [ftp.quit()]; the markers of the boards are local variables
    and keep what was assigned before an exception. *)
Definition loop_body (it : iteration) (st : loop_state) (g : globals)
    (file : option string)
    : loop_state * globals * option string * list Z :=
  let failed (st : loop_state) (g : globals) (slept : list Z) :=
    let '(st, pause) := on_error st in (st, g, file, slept ++ pause) in
  match it_connect it with
  | Some _ => failed st g []
  | None =>
      let g := monitor_discord_events_log decode_line set_iter (it_stamp it) (it_ftp it) g in
      match it_quit it with
      | Some _ => failed st g []
      | None =>
          let now := it_now it in
          let '(daily, g, slept1, e1) :=
            daily_leaderboards now (last_daily_leaderboard_date st) g in
          let st1 := {| consecutive_errors := 0;
                        check_count := check_count st;
                        last_daily_leaderboard_date := daily;
                        last_weekly_leaderboard_date := last_weekly_leaderboard_date st |} in
          match e1 with
          | Some _ => failed st1 g slept1
          | None =>
              let '(weekly, g, slept2, e2) :=
                weekly_leaderboards now (last_weekly_leaderboard_date st) g in
              let st2 := {| consecutive_errors := 0;
                            check_count := check_count st;
                            last_daily_leaderboard_date := daily;
                            last_weekly_leaderboard_date := weekly |} in
              match e2 with
              | Some _ => failed st2 g (slept1 ++ slept2)
              | None =>
                  let st3 := {| consecutive_errors := 0;
                                check_count := check_count st + 1;
                                last_daily_leaderboard_date := daily;
                                last_weekly_leaderboard_date := weekly |} in
                  let '(g, file) :=
                    if (check_count st3 mod 20 =? 0) && unsaved_changes g
                    then save_player_stats json_dump (it_save it) g file
                    else (g, file) in
                  (st3, g, file, slept1 ++ slept2 ++ [CHECK_INTERVAL])
              end
          end
      end
  end.

(** The loop over the iterations the world provides. *)
Fixpoint run_loop (its : list iteration) (st : loop_state) (g : globals)
    (file : option string)
    : loop_state * globals * option string * list Z :=
  match its with
  | [] => (st, g, file, [])
  | it :: rest =>
      let '(st, g, file, slept) := loop_body it st g file in
      let '(st, g, file, slept') := run_loop rest st g file in
      (st, g, file, slept ++ slept')
  end.

(** The loop state [monitor_server] starts with. *)
Definition initial_loop_state : loop_state :=
  {| consecutive_errors := 0;
     check_count := 0;
     last_daily_leaderboard_date := None;
     last_weekly_leaderboard_date := None |}.

(** [monitor_server()] up to a [KeyboardInterrupt]: the snapshot is loaded,
    then the loop runs. *)
Definition monitor_server
    (json_load : string -> option (option (odict player) * option (gmap string Z)))
    (read_fails : bool) (its : list iteration) (g : globals) (file : option string)
    : loop_state * globals * option string * list Z :=
  run_loop its initial_loop_state (load_player_stats json_load read_fails file g) file.

End MainLoop.

(** * Notions the properties are stated with *)

(** ** The tail read *)

(** A transport failure of the tail read at stored offset [F]: [ftp.size]
    raises, or the transfer the call goes on to request raises. *)
Definition transport_fails (ftp : ftp_server) (F : Z) : Prop :=
  (exists e, ftp_size ftp = Raises e) \/
  (exists S e,
      ftp_size ftp = Returns (Some S) /\
      S <> (if S <? F then 0 else F) /\
      ftp_retr ftp (if S <? F then 0 else F) = Raises e).

(** A server that holds [content] and honours the restart offset. *)
Definition serving (content : string) : ftp_server :=
  {| ftp_size := Returns (Some (Z.of_nat (String.length content)));
     ftp_retr := fun rest =>
       Returns (substring (Z.to_nat rest) (String.length content - Z.to_nat rest) content) |}.

(** The event identities of the lines of a chunk that decode to events, in
    the order of the chunk. *)
Definition identities (decode_line : string -> decoded) (lines : list string)
    : list string :=
  flat_map (fun line => match decode_line line with
                        | Decoded ev => [event_id_of ev]
                        | _ => []
                        end) lines.

(** The strings of a list are pairwise distinct. *)
Fixpoint distinctb (l : list string) : bool :=
  match l with
  | [] => true
  | x :: r => negb (existsb (String.eqb x) r) && distinctb r
  end.

(** ** Lifetime figures *)

(** [a <= b] on floats, as Python evaluates it: false when either side is
    a NaN. *)
Definition fle (a b : float) : Prop := (a <=? b)%float = true.

(** The update of [longest_survival] by one more duration [h]. *)
Definition fmax (a h : float) : float := if (a <? h)%float then h else a.

(** The lifetime figures of a subject, read off the record if there is
    one; a subject without a record has the figures of a new record. *)
Definition deaths_view (o : option player) : Z :=
  match o with Some p => total_deaths p | None => 0 end.

Definition hours_view (o : option player) : float :=
  match o with Some p => total_hours_survived (lifetime_stats p) | None => 0%float end.

Definition longest_view (o : option player) : float :=
  match o with Some p => longest_survival (lifetime_stats p) | None => 0%float end.

(** [skill_milestones.get(s, 0)] *)
Definition milestone_view (s : string) (o : option player) : Z :=
  match o with Some p => get0 (skill_milestones (lifetime_stats p)) s | None => 0 end.

Definition lifetime_same (o o' : option player) : Prop :=
  deaths_view o' = deaths_view o /\
  hours_view o' = hours_view o /\
  longest_view o' = longest_view o.

Definition milestones_same (o o' : option player) : Prop :=
  forall s, milestone_view s o' = milestone_view s o.

(** ** Runs of events *)

(** [ev] is a death of subject [u]. *)
Definition is_death_of (u : string) (ev : event) : bool :=
  String.eqb (e_type ev) "death" && String.eqb (d_username (e_data ev)) u.

(** The durations of the deaths of [u] in a run, in the order of the run. *)
Definition death_durations (u : string) (evs : list event) : list float :=
  map (fun ev => d_hours_survived (e_data ev)) (filter (is_death_of u) evs).

(** A death event is accepted when its handler reaches the lifetime
    totals, that is when its skills string parses. *)
Definition accepted_death (ev : event) : Prop :=
  e_type ev = "death" -> d_skills (e_data ev) <> None.

(** [ev] is a level-up of subject [u] in skill [s]. *)
Definition is_level_up_of (u s : string) (ev : event) : bool :=
  String.eqb (e_type ev) "level_up"
  && String.eqb (d_username (e_data ev)) u
  && String.eqb (d_skill (e_data ev)) s.

(** The levels of skill [s] observed for [u] in a run, in order. *)
Definition observed_levels (u s : string) (evs : list event) : list Z :=
  map (fun ev => d_level (e_data ev)) (filter (is_level_up_of u s) evs).

(** * Scenarios *)

(** A player with five deaths on record, as in the repository's test
    [test_init_player_existing]. *)
Definition veteran : player :=
  {| steam_id := "12345";
     total_deaths := 5;
     total_respawns := 6;
     current_character :=
       {| alive := true;
          spawn_time := None;
          hours_survived := 10.5%float;
          last_location := (100, 200, 0);
          skills := {["Aiming" := 5]} |};
     lifetime_stats :=
       {| total_hours_survived := 50%float;
          longest_survival := 15%float;
          skill_milestones := {["Aiming" := 8]} |} |}.

(** The server of the repository's test [test_download_log_tail_file_rotated]:
    512 bytes on the server, one line delivered for any restart offset. *)
Definition rotated_server : ftp_server :=
  {| ftp_size := Returns (Some 512);
     ftp_retr := fun _ => Returns "{}" |}.

(** A server whose transfer breaks, after a cursor of 1024 has been stored
    and the file has grown to 2048 bytes. *)
Definition broken_server : ftp_server :=
  {| ftp_size := Returns (Some 2048);
     ftp_retr := fun _ => Raises TransportError |}.

(** The [data] of an event that carries none. *)
Definition no_data : event_data :=
  {| d_username := ""; d_steam_id := ""; d_hours_survived := 0%float;
     d_x := 0; d_y := 0; d_z := 0; d_skills := Some ∅; d_skill := "";
     d_level := 0; d_game_day := 0; d_survivors := []; d_type := "death" |}.

(** A decoder for a log of sunrise events, one timestamp per line. *)
Definition tick_decoder (line : string) : decoded :=
  match line with
  | EmptyString => Blank
  | _ => Decoded {| e_type := "sunrise"; e_timestamp := line; e_data := no_data |}
  end.

(** The lines ["1"] to [n]. *)
Definition ticks (n : nat) : list string :=
  map (fun i => str_of_int (Z.of_nat i)) (seq 1 n).

(** Bob dies after 10 hours. *)
Definition bob_dies : event :=
  {| e_type := "death";
     e_timestamp := "2025-01-01T10:00:00";
     e_data :=
       {| d_username := "Bob"; d_steam_id := "7656"; d_hours_survived := 10%float;
          d_x := 100; d_y := 200; d_z := 0; d_skills := Some {["Aiming" := 5]};
          d_skill := ""; d_level := 0; d_game_day := 0; d_survivors := [];
          d_type := "death" |} |}.

(** The line of the log that stands for [bob_dies]. *)
Definition death_line : string := "death Bob 10.0 2025-01-01T10:00:00".

(** A decoder that reads [death_line] as [bob_dies]. *)
Definition overlap_decoder (line : string) : decoded :=
  if String.eqb line death_line then Decoded bob_dies
  else match line with
       | EmptyString => Blank
       | _ => Malformed
       end.

(** A serializer for the snapshot: the number of players and the cursor of
    the log, in braces. *)
Definition tiny_dump (ps : odict player) (fp : gmap string Z) : string :=
  ("{players: " ++ str_of_int (Z.of_nat (List.length ps)) ++ ", cursor: "
     ++ str_of_int (default 0 (fp !! DISCORD_LOG_PATH)) ++ "}")%string.

(** A death of [u] after [hours], with an empty skills string. *)
Definition death_of (u : string) (hours : float) (timestamp : string) : event :=
  {| e_type := "death";
     e_timestamp := timestamp;
     e_data :=
       {| d_username := u; d_steam_id := "12345"; d_hours_survived := hours;
          d_x := 100; d_y := 200; d_z := 0; d_skills := Some ∅;
          d_skill := ""; d_level := 0; d_game_day := 0; d_survivors := [];
          d_type := "death" |} |}.

(** The two deaths of the repository's test
    [test_handle_death_event_updates_longest_survival]. *)
Definition two_deaths : list event :=
  [death_of "TestPlayer" 10%float "day 1"; death_of "TestPlayer" 25%float "day 3"].

(** A death of [u] after [hours] whose skills string does not parse (a
    pair such as [Aiming=high]). *)
Definition garbled_death_of (u : string) (hours : float) (timestamp : string) : event :=
  {| e_type := "death";
     e_timestamp := timestamp;
     e_data :=
       {| d_username := u; d_steam_id := "12345"; d_hours_survived := hours;
          d_x := 100; d_y := 200; d_z := 0; d_skills := None;
          d_skill := ""; d_level := 0; d_game_day := 0; d_survivors := [];
          d_type := "death" |} |}.

(** The two deaths of the test with a death of 100 hours between them
    whose skills string does not parse. *)
Definition three_deaths : list event :=
  [death_of "TestPlayer" 10%float "day 1";
   garbled_death_of "TestPlayer" 100%float "day 2";
   death_of "TestPlayer" 25%float "day 3"].

(** [u] reaches [level] in [skill]. *)
Definition level_up_of (u skill : string) (level : Z) (timestamp : string) : event :=
  {| e_type := "level_up";
     e_timestamp := timestamp;
     e_data :=
       {| d_username := u; d_steam_id := "12345"; d_hours_survived := 10%float;
          d_x := 0; d_y := 0; d_z := 0; d_skills := Some ∅;
          d_skill := skill; d_level := level; d_game_day := 0; d_survivors := [];
          d_type := "death" |} |}.

(** [u] creates a new character. *)
Definition respawn_of (u : string) (timestamp : string) : event :=
  {| e_type := "character_created";
     e_timestamp := timestamp;
     e_data :=
       {| d_username := u; d_steam_id := "12345"; d_hours_survived := 0%float;
          d_x := 0; d_y := 0; d_z := 0; d_skills := Some ∅;
          d_skill := ""; d_level := 0; d_game_day := 0; d_survivors := [];
          d_type := "death" |} |}.

(** Level 8, a death, a respawn, then level 3 with the new character. *)
Definition two_lives : list event :=
  [level_up_of "TestPlayer" "Aiming" 8 "day 1";
   death_of "TestPlayer" 24%float "day 2";
   respawn_of "TestPlayer" "day 2";
   level_up_of "TestPlayer" "Aiming" 3 "day 3"].

(** Ann is alive at level 3 of Aiming, with a milestone of 8 from an
    earlier character. *)
Definition ann : player :=
  {| steam_id := "1"; total_deaths := 2; total_respawns := 3;
     current_character :=
       {| alive := true; spawn_time := None; hours_survived := 4%float;
          last_location := (0, 0, 0); skills := {["Aiming" := 3]} |};
     lifetime_stats :=
       {| total_hours_survived := 40%float; longest_survival := 30%float;
          skill_milestones := {["Aiming" := 8]} |} |}.

(** Bob's character is dead. Its live skill map still says level 9 of
    Aiming; the stored milestone is 5. *)
Definition bob : player :=
  {| steam_id := "2"; total_deaths := 1; total_respawns := 1;
     current_character :=
       {| alive := false; spawn_time := None; hours_survived := 12%float;
          last_location := (0, 0, 0); skills := {["Aiming" := 9]} |};
     lifetime_stats :=
       {| total_hours_survived := 12%float; longest_survival := 12%float;
          skill_milestones := {["Aiming" := 5]} |} |}.

Definition two_players : globals :=
  with_player_stats [("Ann", ann); ("Bob", bob)] initial_globals.

(** Ann and Bob, and Cy, who has a fresh record: no death, no hours. *)
Definition three_players : globals :=
  with_player_stats [("Cy", new_player "3"); ("Bob", bob); ("Ann", ann)] initial_globals.

(** * Notions for the handlers, the boards and the loop *)

(** The rows of the "death" board, as [send_leaderboard] builds them. *)
Definition death_rows (ps : odict player) : list (nat * string * Z) :=
  map (fun '(i, (name, data)) => (i, name, total_deaths data))
    (enumerate (death_ranking ps)).

(** A pair of [parse_skills_string] that makes the call raise
    [ValueError]: it holds ['='] and does not split at ['='] into exactly
    two pieces, or its second piece is no [int]. *)
Definition bad_pair (py_strip : string -> string) (py_int : string -> option Z)
    (pair_str : string) : Prop :=
  contains_char "=" pair_str = true /\
  forall skill level,
    split_on "=" pair_str = [skill; level] -> py_int (py_strip level) = None.

(** [sep.join(l)] for a one-character [sep]. *)
Fixpoint join_with (sep : ascii) (l : list string) : string :=
  match l with
  | [] => EmptyString
  | [x] => x
  | x :: rest => (x ++ String sep (join_with sep rest))%string
  end.

(** The text the mod writes for a list of skills: [Skill1=5,Skill2=3]. *)
Definition skills_text (pairs : list (string * string)) : string :=
  join_with "," (map (fun '(skill, level) => (skill ++ String "=" level)%string) pairs).

(** [g'] is [g] with at most [n] more messages posted. *)
Definition posts_up_to (n : nat) (g g' : globals) : Prop :=
  player_stats g' = player_stats g /\
  unsaved_changes g' = unsaved_changes g /\
  file_positions g' = file_positions g /\
  last_events g' = last_events g /\
  SKILL_NOTIFICATIONS g' = SKILL_NOTIFICATIONS g /\
  exists posted, webhook g' = webhook g ++ posted /\ (List.length posted <= n)%nat.

(** The parts of what the loop returns. *)
Definition r_state (r : loop_state * globals * option string * list Z) : loop_state :=
  fst (fst (fst r)).
Definition r_globals (r : loop_state * globals * option string * list Z) : globals :=
  snd (fst (fst r)).
Definition r_file (r : loop_state * globals * option string * list Z) : option string :=
  snd (fst r).
Definition r_slept (r : loop_state * globals * option string * list Z) : list Z :=
  snd r.

(** The parts of what a block of scheduled boards returns. *)
Definition b_marker (r : option Z * globals * list Z * option exn) : option Z :=
  fst (fst (fst r)).
Definition b_globals (r : option Z * globals * list Z * option exn) : globals :=
  snd (fst (fst r)).
Definition b_slept (r : option Z * globals * list Z * option exn) : list Z :=
  snd (fst r).
Definition b_raised (r : option Z * globals * list Z * option exn) : option exn :=
  snd r.

(** ** Events and the records of the subjects *)

(** The four event types whose handlers write a record. *)
Definition is_subject_event (ev : event) : bool :=
  String.eqb (e_type ev) "death" || String.eqb (e_type ev) "level_up"
  || String.eqb (e_type ev) "character_created" || String.eqb (e_type ev) "login".

(** [g'] is [g] with at most one more message posted. *)
Definition posts_only (g g' : globals) : Prop :=
  player_stats g' = player_stats g /\
  unsaved_changes g' = unsaved_changes g /\
  file_positions g' = file_positions g /\
  last_events g' = last_events g /\
  SKILL_NOTIFICATIONS g' = SKILL_NOTIFICATIONS g /\
  exists posted, webhook g' = webhook g ++ posted /\ (List.length posted <= 1)%nat.

(** The condition under which a level-up is announced. *)
Definition announces (policy : string) (level : Z) : bool :=
  String.eqb policy "all"
  || (String.eqb policy "milestones" && ((level =? 5) || (level =? 10))).

(** What a notification posts: its message when the rendering returned,
    nothing when it raised. *)
Definition posts_if (raised : option exn) (e : embed) : list embed :=
  match raised with None => [e] | Some _ => [] end.

(** The renderings of an accepted death of a subject with record [o]
    before the event: the hours of the event, then the longest survival
    after the event. *)
Definition death_rendered (o : option player) (h : float) : option exn :=
  match format_time h with
  | Some e => Some e
  | None => format_time (fmax (longest_view o) h)
  end.

(** The rendering of a respawn of a subject with record [o] before the
    event: the average survival, when the subject has a death on record. *)
Definition respawn_rendered (o : option player) : option exn :=
  if 0 <? deaths_view o then format_average (hours_view o) (deaths_view o) else None.

(** A death is announced when its skills string parses and its renderings
    return; a respawn when its rendering returns. *)
Definition death_announced (o : option player) (ev : event) : bool :=
  match d_skills (e_data ev) with
  | Some _ =>
      match death_rendered o (d_hours_survived (e_data ev)) with
      | None => true
      | Some _ => false
      end
  | None => false
  end.

Definition respawn_announced (o : option player) : bool :=
  match respawn_rendered o with None => true | Some _ => false end.

(** The figures of a record that the daily boards render all render: the
    average survival of a subject with a death on record, the longest
    survival and the total of hours. *)
Definition record_renders (p : player) : bool :=
  match (if 0 <? total_deaths p
         then format_average (total_hours_survived (lifetime_stats p)) (total_deaths p)
         else None),
        format_time (longest_survival (lifetime_stats p)),
        format_time (total_hours_survived (lifetime_stats p)) with
  | None, None, None => true
  | _, _, _ => false
  end.

(** ** Counters and the messages that report them *)

(** [total_respawns] of a subject, 0 without a record. *)
Definition respawns_view (o : option player) : Z :=
  match o with Some p => total_respawns p | None => 0 end.

(** [ev] is a character creation of subject [u]. *)
Definition is_respawn_of (u : string) (ev : event) : bool :=
  String.eqb (e_type ev) "character_created" && String.eqb (d_username (e_data ev)) u.

(** The death counts that the death messages for [u] in a list of posts
    carry, in order. *)
Definition death_counts_of (u : string) (posts : list embed) : list Z :=
  flat_map (fun e => match e with
                     | DeathEmbed u' count _ _ => if String.eqb u' u then [count] else []
                     | _ => []
                     end) posts.

(** The character numbers that the respawn messages for [u] carry. *)
Definition character_nums_of (u : string) (posts : list embed) : list Z :=
  flat_map (fun e => match e with
                     | RespawnEmbed u' num _ => if String.eqb u' u then [num] else []
                     | _ => []
                     end) posts.

(** [a+1; a+2; ...; a+n] *)
Fixpoint count_from (a : Z) (n : nat) : list Z :=
  match n with
  | O => []
  | S n' => (a + 1) :: count_from (a + 1) n'
  end.

(** ** The current character *)

(** The [alive] flag of a subject, false without a record. *)
Definition alive_view (o : option player) : bool :=
  match o with Some p => alive (current_character p) | None => false end.

(** The live level of a skill, [None] without a record or without the
    skill in the current character's map. *)
Definition live_level (s : string) (o : option player) : option Z :=
  match o with Some p => skills (current_character p) !! s | None => None end.

(** What an event does to the [alive] flag of [u]: a death clears it
    (whether or not its skills string parses), a character creation and a
    login whose skills string parses set it. *)
Definition life_step (u : string) (a : bool) (ev : event) : bool :=
  if negb (String.eqb (d_username (e_data ev)) u) then a
  else if String.eqb (e_type ev) "death" then false
  else if String.eqb (e_type ev) "character_created" then true
  else if String.eqb (e_type ev) "login"
  then match d_skills (e_data ev) with Some _ => true | None => a end
  else a.

(** ** More scenarios *)

(** The state after a cycle has read the 512 bytes of [rotated_server]. *)
Definition caught_up : globals :=
  with_file_positions {[DISCORD_LOG_PATH := 512]} initial_globals.

(** A sunrise of day 3. *)
Definition dawn : event :=
  {| e_type := "sunrise"; e_timestamp := "2025-01-03T06:00:00"; e_data := no_data |}.

(** The payload of a daily report with two survivors, the later one
    longer alive. *)
Definition two_survivors : event_data :=
  {| d_username := ""; d_steam_id := ""; d_hours_survived := 0%float;
     d_x := 0; d_y := 0; d_z := 0; d_skills := Some ∅; d_skill := "";
     d_level := 0; d_game_day := 2;
     d_survivors :=
       [{| s_username := "Ann"; s_hours := 5%float; s_location := (1, 2, 0) |};
        {| s_username := "Bob"; s_hours := 30%float; s_location := (3, 4, 0) |}];
     d_type := "death" |}.

(** [int] on decimal numerals. *)
Definition read_int (s : string) : option Z :=
  option_map Z.of_int (NilZero.int_of_string s).

(** A reader for the snapshot of [two_players] as [tiny_dump] writes it;
    any other text is refused. *)
Definition tiny_load (text : string)
    : option (option (odict player) * option (gmap string Z)) :=
  if String.eqb text (tiny_dump (player_stats two_players) (file_positions two_players))
  then Some (Some (player_stats two_players), Some (file_positions two_players))
  else None.

(** Midnight and noon of one date. *)
Definition midnight : clock := {| c_date := 739252; c_hour := 0; c_minute := 0 |}.
Definition noon : clock := {| c_date := 739252; c_hour := 12; c_minute := 0 |}.

(** A pass of the loop in which the server cannot be reached. *)
Definition offline : iteration :=
  {| it_connect := Some TransportError;
     it_ftp := broken_server;
     it_quit := None;
     it_now := noon;
     it_stamp := "12:00";
     it_save := NoFault |}.

(** A pass of the loop at 03:07 against [rotated_server], with a save
    that goes through if one is made. *)
Definition quiet_pass : iteration :=
  {| it_connect := None;
     it_ftp := rotated_server;
     it_quit := None;
     it_now := {| c_date := 739252; c_hour := 3; c_minute := 7 |};
     it_stamp := "03:07";
     it_save := NoFault |}.

(** The loop state after nineteen checks. *)
Definition nineteen_checks : loop_state :=
  {| consecutive_errors := 0;
     check_count := 19;
     last_daily_leaderboard_date := None;
     last_weekly_leaderboard_date := None |}.

(** * Properties *)

(** ** The ordered dict *)

Section DictFacts.
Context {V : Type}.
Implicit Types (d : odict V) (k : string) (v : V).

Lemma od_get_set_eq k v d : od_get k (od_set k v d) = Some v.
Proof.
  induction d as [|[k' v'] d IH]; simpl.
  - now rewrite String.eqb_refl.
  - destruct (String.eqb k k') eqn:E; simpl; rewrite E; auto.
Qed.

Lemma od_get_set_ne k k' v d : k <> k' -> od_get k' (od_set k v d) = od_get k' d.
Proof.
  intros Hne. induction d as [|[k0 v0] d IH]; simpl.
  - destruct (String.eqb k' k) eqn:E; auto.
    apply String.eqb_eq in E. congruence.
  - destruct (String.eqb k k0) eqn:E; simpl.
    + apply String.eqb_eq in E. subst k0.
      destruct (String.eqb k' k) eqn:E'; auto.
      apply String.eqb_eq in E'. congruence.
    + now rewrite IH.
Qed.

Lemma od_get_In k v d : od_get k d = Some v -> In (k, v) d.
Proof.
  induction d as [|[k' v'] d IH]; simpl; [discriminate|].
  destruct (String.eqb k k') eqn:E.
  - apply String.eqb_eq in E. intros [= ->]. subst. now left.
  - intros H. right. auto.
Qed.

Lemma od_In_get k v d : od_wf d -> In (k, v) d -> od_get k d = Some v.
Proof.
  unfold od_wf, od_keys.
  induction d as [|[k' v'] d IH]; simpl; [tauto|].
  intros Hnd [Heq|Hin].
  - injection Heq as -> ->. now rewrite String.eqb_refl.
  - apply List.NoDup_cons_iff in Hnd as [Hni Hnd].
    destruct (String.eqb k k') eqn:E.
    + apply String.eqb_eq in E. subst k'. exfalso. apply Hni.
      change k with (fst (k, v)). now apply in_map.
    + auto.
Qed.

Lemma od_keys_set k v d :
  od_keys (od_set k v d) = if od_mem k d then od_keys d else (od_keys d ++ [k])%list.
Proof.
  unfold od_mem. induction d as [|[k' v'] d IH]; simpl; auto.
  destruct (String.eqb k k') eqn:E; simpl; auto.
  rewrite IH. now destruct (od_get k d).
Qed.

Lemma od_mem_keys k d : od_mem k d = true <-> In k (od_keys d).
Proof.
  unfold od_mem. induction d as [|[k' v'] d IH]; simpl.
  - split; [discriminate | tauto].
  - destruct (String.eqb k k') eqn:E.
    + apply String.eqb_eq in E. subst. split; auto.
    + rewrite IH. split; auto. intros [->|H]; auto.
      rewrite String.eqb_refl in E. discriminate.
Qed.

Lemma od_wf_set k v d : od_wf d -> od_wf (od_set k v d).
Proof.
  unfold od_wf. intros Hwf. rewrite od_keys_set.
  destruct (od_mem k d) eqn:E; auto.
  apply List.NoDup_app; repeat split; auto.
  - constructor; [simpl; tauto | constructor].
  - intros x Hx [<-|[]]. apply od_mem_keys in Hx. congruence.
Qed.

End DictFacts.

(** ** Sorting and enumeration *)

Section SortedFacts.
Context {A : Type} (lt : A -> A -> bool).

Lemma insert_desc_In x y l : In y (insert_desc lt x l) <-> y = x \/ In y l.
Proof.
  induction l as [|z l IH]; simpl.
  - intuition.
  - destruct (lt x z); simpl; rewrite ?IH; intuition.
Qed.

Lemma sorted_desc_In y l : In y (sorted_desc lt l) <-> In y l.
Proof.
  induction l as [|x l IH]; simpl; [tauto|].
  rewrite insert_desc_In, IH. intuition.
Qed.

Lemma sorted_desc_nil l : sorted_desc lt l = [] -> l = [].
Proof.
  destruct l as [|x l]; auto. unfold sorted_desc. simpl.
  destruct (fold_right (insert_desc lt) [] l) as [|z r]; simpl.
  - intros H. inversion H.
  - destruct (lt x z); intros H; inversion H.
Qed.

End SortedFacts.

Lemma enumerate_In {A : Type} (i : nat) (x : A) l :
  In (i, x) (enumerate l) -> In x l.
Proof. unfold enumerate. apply in_combine_r. Qed.

(** ** [init_player] *)

(** C9. [init_player] is idempotent: for a subject that already has a
    record, a call with any steam id leaves the whole state as it is, so
    the record (counters, current character, lifetime stats) is the one
    that was there; and a second call after a first changes nothing
    more. *)
Theorem init_player_idempotent (username sid : string) (g : globals) (p : player) :
  od_get username (player_stats g) = Some p ->
  init_player username sid g = g /\
  od_get username (player_stats (init_player username sid g)) = Some p /\
  forall sid', init_player username sid' (init_player username sid g)
               = init_player username sid g.
Proof.
  intros Hp.
  assert (Hg : init_player username sid g = g).
  { unfold init_player, od_mem. now rewrite Hp. }
  rewrite Hg. repeat split; auto.
  intros sid'. unfold init_player, od_mem. now rewrite Hp.
Qed.

Lemma init_player_idempotent_witness :
  let g := with_player_stats [("TestPlayer", veteran)] initial_globals in
  od_get "TestPlayer" (player_stats g) = Some veteran /\
  init_player "TestPlayer" "99999" g = g.
Proof.
  split; [reflexivity|].
  apply (init_player_idempotent "TestPlayer" "99999" _ veteran).
  reflexivity.
Defined.

(** After [init_player] the subject has a record. *)
Lemma init_player_get username sid g :
  exists p, od_get username (player_stats (init_player username sid g)) = Some p.
Proof.
  unfold init_player, od_mem.
  destruct (od_get username (player_stats g)) as [p|] eqn:E.
  - exists p. exact E.
  - exists (new_player sid). simpl. apply od_get_set_eq.
Qed.

Lemma init_player_get_other username sid g u :
  u <> username ->
  od_get u (player_stats (init_player username sid g)) = od_get u (player_stats g).
Proof.
  intros Hne. unfold init_player.
  destruct (od_mem username (player_stats g)); auto.
  simpl. apply od_get_set_ne. congruence.
Qed.

Lemma init_player_get_new username sid g :
  od_get username (player_stats g) = None ->
  od_get username (player_stats (init_player username sid g)) = Some (new_player sid).
Proof.
  intros E. unfold init_player, od_mem. rewrite E. simpl. apply od_get_set_eq.
Qed.

Lemma init_player_get_old username sid g p :
  od_get username (player_stats g) = Some p ->
  od_get username (player_stats (init_player username sid g)) = Some p.
Proof.
  intros E. unfold init_player, od_mem. now rewrite E.
Qed.

Lemma init_player_file_positions username sid g :
  file_positions (init_player username sid g) = file_positions g.
Proof. unfold init_player. now destruct (od_mem username (player_stats g)). Qed.

(** ** The tail read *)

(** C3. Rotation: when the server reports a size [S] below the stored
    offset [F], the call puts [RETR] with restart offset 0 on the wire
    (nothing at all when [S] is 0) and none at [F]; the transfer from 0
    decides what it returns: the content with the new offset [S], so that
    every content returned comes with [S]; and a call outside rotation
    ([F <= S]) never restarts anywhere but at [F]. *)
Theorem rotation_restarts_from_zero (ftp : ftp_server) (F S : Z) :
  ftp_size ftp = Returns (Some S) ->
  S < F ->
  snd (download_log_tail ftp F) = (if S =? 0 then [SIZE] else [SIZE; RETR 0]) /\
  (0 <= S -> ~ In (RETR F) (snd (download_log_tail ftp F))) /\
  fst (download_log_tail ftp F) =
    (if S =? 0 then (Some "", S)
     else match ftp_retr ftp 0 with
          | Returns content => (Some content, S)
          | Raises _ => (None, 0)
          end) /\
  (forall content,
      fst (fst (download_log_tail ftp F)) = Some content ->
      snd (fst (download_log_tail ftp F)) = S) /\
  (forall ftp' F' S' rest,
      ftp_size ftp' = Returns (Some S') ->
      F' <= S' ->
      In (RETR rest) (snd (download_log_tail ftp' F')) -> rest = F').
Proof.
  intros Hsize Hlt. unfold download_log_tail. rewrite Hsize.
  assert (E : (S <? F) = true) by now apply Z.ltb_lt.
  rewrite E. split; [|split; [|split; [|split]]].
  - destruct (S =? 0); auto. now destruct (ftp_retr ftp 0).
  - intros Hpos Hin.
    assert (Hno : ~ In (RETR F) [SIZE; RETR 0]).
    { intros [H|[H|[]]]; inversion H. lia. }
    destruct (S =? 0); [destruct Hin as [H|[]]; inversion H|].
    destruct (ftp_retr ftp 0); now apply Hno.
  - destruct (S =? 0) eqn:E0.
    + apply Z.eqb_eq in E0. now subst.
    + now destruct (ftp_retr ftp 0).
  - intros content. destruct (S =? 0) eqn:E0; simpl.
    + apply Z.eqb_eq in E0. intros _. lia.
    + destruct (ftp_retr ftp 0) as [c|e]; simpl; [auto|intros H; inversion H].
  - intros ftp' F' S' rest Hsize' Hle. rewrite Hsize'.
    assert (E' : (S' <? F') = false) by now apply Z.ltb_ge.
    rewrite E'. destruct (S' =? F'); simpl.
    + intros [H|[]]. inversion H.
    + destruct (ftp_retr ftp' F'); simpl; intros [H|[H|[]]]; inversion H; auto.
Qed.

Lemma rotation_restarts_from_zero_witness :
  ftp_size rotated_server = Returns (Some 512) /\
  512 < 1024 /\
  snd (download_log_tail rotated_server 1024) = [SIZE; RETR 0] /\
  fst (download_log_tail rotated_server 1024) = (Some "{}", 512).
Proof.
  split; [reflexivity|]. split; [reflexivity|].
  destruct (rotation_restarts_from_zero rotated_server 1024 512 eq_refl eq_refl)
    as (Hcmd & _ & Hret & _).
  split; [exact Hcmd | exact Hret].
Defined.

(** ** The cursor is written by the poll cycle only *)

Ltac break_match :=
  match goal with
  | |- context [match ?x with _ => _ end] => destruct x eqn:?
  end.

(** Both outcomes of every rendering in the goal. *)
Ltac render_once :=
  match goal with
  | |- context [format_time ?h] => destruct (format_time h)
  | |- context [if ?b then format_average ?t ?c else None] => destruct b
  | |- context [format_average ?t ?c] => destruct (format_average t c)
  end.

Ltac renders :=
  repeat (progress (simpl; rewrite ?od_get_set_eq; repeat render_once)).

Lemma send_leaderboard_file_positions t g :
  file_positions (fst (send_leaderboard t g)) = file_positions g.
Proof. unfold send_leaderboard. repeat break_match; reflexivity. Qed.

Lemma handle_death_event_file_positions data g :
  file_positions (fst (handle_death_event data g)) = file_positions g.
Proof.
  unfold handle_death_event, send_death_notification.
  repeat break_match; simpl; apply init_player_file_positions.
Qed.

Lemma handle_spawn_event_file_positions now data g :
  file_positions (fst (handle_spawn_event now data g)) = file_positions g.
Proof.
  unfold handle_spawn_event, send_respawn_notification.
  repeat break_match; simpl; apply init_player_file_positions.
Qed.

Lemma handle_level_up_event_file_positions data g :
  file_positions (fst (handle_level_up_event data g)) = file_positions g.
Proof.
  unfold handle_level_up_event, send_skill_notification.
  repeat break_match; simpl; apply init_player_file_positions.
Qed.

Lemma handle_login_event_file_positions data g :
  file_positions (fst (handle_login_event data g)) = file_positions g.
Proof.
  unfold handle_login_event.
  repeat break_match; simpl; apply init_player_file_positions.
Qed.

Lemma handle_discord_event_file_positions now ev g :
  file_positions (fst (handle_discord_event now ev g)) = file_positions g.
Proof.
  unfold handle_discord_event.
  repeat break_match;
    auto using handle_death_event_file_positions, handle_spawn_event_file_positions,
      handle_level_up_event_file_positions, handle_login_event_file_positions,
      send_leaderboard_file_positions.
  unfold send_daily_survivor_report. repeat break_match; reflexivity.
Qed.

Section MonitorFacts.

Variable decode_line : string -> decoded.
Variable set_iter : gset string -> list string.

Lemma process_lines_file_positions now lines : forall g loc,
  file_positions (fst (fst (process_lines decode_line set_iter now lines g loc)))
  = file_positions g.
Proof.
  induction lines as [|line rest IH]; intros g loc; simpl; auto.
  destruct (decode_line line) as [| | |ev]; auto.
  destruct loc as [seen|]; auto.
  destruct (bool_decide _); auto.
  destruct (handle_discord_event now ev g) as [g' [e|]] eqn:E; simpl.
  - change g' with (fst (g', Some e)). rewrite <- E.
    apply handle_discord_event_file_positions.
  - rewrite IH. change g' with (fst (g', @None exn)). rewrite <- E.
    apply handle_discord_event_file_positions.
Qed.

(** With the local unbound the loop stops at the first decoded event and
    has changed nothing; blank and malformed lines before it are passed
    over. *)
Lemma process_lines_unbound now lines g :
  fst (process_lines decode_line set_iter now lines g None) = (g, None).
Proof.
  induction lines as [|line rest IH]; simpl; auto.
  destruct (decode_line line); auto.
Qed.

(** What lines 629-631 would do on a bound set: a line whose identity is
    in the set is passed over, and a line whose identity is not in it is
    handed to the router once. *)
Lemma process_lines_bound now line ev seen g :
  decode_line line = Decoded ev ->
  process_lines decode_line set_iter now [line] g (Some seen) =
    if bool_decide (event_id_of ev ∈ seen) then (g, Some seen, None)
    else match handle_discord_event now ev g with
         | (g', Some e) => (g', Some ({[event_id_of ev]} ∪ seen), Some e)
         | (g', None) => (g', Some (trim_events set_iter ({[event_id_of ev]} ∪ seen)), None)
         end.
Proof.
  intros Hd. simpl. rewrite Hd.
  destruct (bool_decide _); [reflexivity|].
  destruct (handle_discord_event now ev g) as [g' [e|]]; reflexivity.
Qed.

(** The loop never binds the local before it reads it: a cycle moves the
    cursor and does nothing else. *)
Lemma monitor_discord_events_log_eq now ftp g :
  monitor_discord_events_log decode_line set_iter now ftp g =
  match download_log_tail ftp (default 0 (file_positions g !! DISCORD_LOG_PATH)) with
  | (Some (String _ _), new_pos, _) =>
      with_file_positions (<[DISCORD_LOG_PATH := new_pos]> (file_positions g)) g
  | _ => g
  end.
Proof.
  unfold monitor_discord_events_log.
  destruct (download_log_tail ftp _) as [[[[|c s]|] new_pos] cmds]; auto.
  now rewrite process_lines_unbound.
Qed.

End MonitorFacts.

(** C5. A transport failure during the tail read comes back as a null
    content, and the poll cycle then leaves the stored offset (indeed the
    whole state) unchanged, so the next cycle asks for the same range; and
    whenever a cycle does change the stored offsets, the read has returned
    non-empty content and the new offset is the one it returned. *)
Theorem transport_failure_keeps_offset
    (decode_line : string -> decoded) (set_iter : gset string -> list string)
    (now : string) (ftp : ftp_server) (g : globals) :
  let F := default 0 (file_positions g !! DISCORD_LOG_PATH) in
  let g' := monitor_discord_events_log decode_line set_iter now ftp g in
  (transport_fails ftp F ->
     fst (fst (download_log_tail ftp F)) = None /\
     g' = g /\
     file_positions g' !! DISCORD_LOG_PATH = file_positions g !! DISCORD_LOG_PATH) /\
  (file_positions g' <> file_positions g ->
     exists c s new_pos cmds,
       download_log_tail ftp F = (Some (String c s), new_pos, cmds) /\
       file_positions g' = <[DISCORD_LOG_PATH := new_pos]> (file_positions g)).
Proof.
  intros F g'. split.
  - intros Hfail.
    assert (Hnone : fst (fst (download_log_tail ftp F)) = None).
    { unfold download_log_tail.
      destruct Hfail as [[e He]|(S & e & Hs & Hne & Hr)].
      - now rewrite He.
      - rewrite Hs. apply Z.eqb_neq in Hne. rewrite Hne. now rewrite Hr. }
    assert (Hg : g' = g).
    { subst g'. unfold monitor_discord_events_log. fold F.
      destruct (download_log_tail ftp F) as [[content new_pos] cmds].
      simpl in Hnone. now subst content. }
    now rewrite Hg.
  - subst g'. unfold monitor_discord_events_log. fold F.
    destruct (download_log_tail ftp F) as [[[[|c s]|] new_pos] cmds];
      try (intros H; now contradiction H).
    intros _. exists c, s, new_pos, cmds. split; auto.
    now rewrite process_lines_file_positions.
Qed.

Lemma transport_failure_keeps_offset_witness :
  let g := with_file_positions {[DISCORD_LOG_PATH := 1024]} initial_globals in
  transport_fails broken_server 1024 /\
  monitor_discord_events_log (fun _ => Malformed) elements "12:00" broken_server g = g.
Proof.
  intros g.
  assert (Hfail : transport_fails broken_server 1024).
  { right. exists 2048, TransportError. repeat split. discriminate. }
  split; [exact Hfail|].
  apply (transport_failure_keeps_offset (fun _ => Malformed) elements "12:00"
           broken_server g).
  exact Hfail.
Defined.

(** ** The dedup window *)

Section WindowFacts.

Variable decode_line : string -> decoded.
Variable set_iter : gset string -> list string.

(** A poll cycle changes the cursor and nothing else: no identity enters
    the module's [last_events], no player record is touched, nothing is
    posted. *)
Lemma monitor_discord_events_log_frame now ftp g :
  let g' := monitor_discord_events_log decode_line set_iter now ftp g in
  last_events g' = last_events g /\
  player_stats g' = player_stats g /\
  unsaved_changes g' = unsaved_changes g /\
  webhook g' = webhook g.
Proof.
  intros g'. subst g'. rewrite monitor_discord_events_log_eq.
  destruct (download_log_tail ftp _) as [[[[|c s]|] new_pos] cmds]; auto.
Qed.

End WindowFacts.

(** Had the local been bound, what survives the trim of lines 634-635 is
    decided by the order [list(s)] enumerates the set in, not by the order
    of insertion: for each element of an overfull set, the newest
    included, there is an enumeration of sets under which the trim drops
    it. *)
Lemma trim_events_order_dependent (s : gset string) (x : string) :
  x ∈ s ->
  (1000 < size s)%nat ->
  exists set_iter : gset string -> list string,
    (forall t, set_iter t ≡ₚ elements t) /\
    x ∉ trim_events set_iter s.
Proof.
  intros Hx Hsize.
  set (it := fun t : gset string =>
               if decide (x ∈ t) then x :: elements (t ∖ {[x]}) else elements t).
  assert (Hperm : forall t, it t ≡ₚ elements t).
  { intros t. unfold it. destruct (decide (x ∈ t)) as [Hin|Hin]; auto.
    assert (Hni : x ∉ t ∖ {[x]}).
    { rewrite elem_of_difference, elem_of_singleton. tauto. }
    rewrite <- (elements_union_singleton _ _ Hni).
    f_equiv. intros y. rewrite elem_of_union, elem_of_singleton,
      elem_of_difference, elem_of_singleton.
    destruct (decide (y = x)); subst; tauto. }
  exists it. split; auto.
  unfold trim_events.
  assert (Hlen : List.length (it s) = size s).
  { rewrite (Permutation_length (Hperm s)). reflexivity. }
  replace (1000 <? Z.of_nat (size s)) with true by (symmetry; apply Z.ltb_lt; lia).
  rewrite elem_of_list_to_set. unfold last_1000. rewrite Hlen.
  unfold it. destruct (decide (x ∈ s)); [|contradiction].
  destruct (size s - 1000)%nat as [|k] eqn:Ek; [lia|].
  simpl. intros Hin. apply subseteq_drop in Hin.
  apply elem_of_elements, elem_of_difference in Hin.
  destruct Hin as [_ Hn]. apply Hn. now apply elem_of_singleton.
Qed.

(** *** 1500 distinct identities *)

(** C1, on the code. A chunk of 1500 lines that decode to events with
    1500 pairwise distinct identities is read in one poll cycle starting
    from the state after import. The loop raises [UnboundLocalError] at the
    first membership test and has handled nothing; the module's
    [last_events] holds no identity after the cycle, where the specification has
    the last 1000 of them. *)
Theorem dedup_window_never_filled :
  let content := String.concat (String newline "") (ticks 1500) in
  let lines := split_on newline content in
  let g' := monitor_discord_events_log tick_decoder elements "12:00"
              (serving content) initial_globals in
  List.length (identities tick_decoder lines) = 1500%nat /\
  distinctb (identities tick_decoder lines) = true /\
  snd (process_lines tick_decoder elements "12:00" lines initial_globals None)
    = Some UnboundLocalError /\
  last_events g' = ∅ /\
  size (last_events g') = 0%nat /\
  webhook g' = [] /\
  file_positions g' !! DISCORD_LOG_PATH = Some (Z.of_nat (String.length content)).
Proof.
  intros content lines g'.
  split; [vm_compute; reflexivity|].
  split; [vm_compute; reflexivity|].
  split; [vm_compute; reflexivity|].
  destruct (monitor_discord_events_log_frame tick_decoder elements "12:00"
              (serving content) initial_globals) as (Hle & _ & _ & Hw).
  fold g' in Hle, Hw. rewrite Hle, Hw.
  repeat split.
Qed.

(** *** The same line in two consecutive cycles *)

(** C2, on the code. The log holds one death line when the first cycle
    runs, and the same line a second time when the next cycle runs; each
    cycle reads the one line beyond its cursor. Handling the event once
    would leave Bob with one death on record and one post; after the two
    cycles the code has no record of Bob and has posted nothing, and the
    cursor stands behind both copies: each cycle ends in
    [UnboundLocalError] at the membership test, before the handler. *)
Theorem duplicate_line_never_handled :
  let chunk := (death_line ++ String newline "")%string in
  let g1 := monitor_discord_events_log overlap_decoder elements "12:00"
              (serving chunk) initial_globals in
  let g2 := monitor_discord_events_log overlap_decoder elements "12:00"
              (serving (chunk ++ chunk)%string) g1 in
  fst (fst (download_log_tail (serving chunk) 0)) = Some chunk /\
  fst (fst (download_log_tail (serving (chunk ++ chunk)%string)
              (default 0 (file_positions g1 !! DISCORD_LOG_PATH)))) = Some chunk /\
  identities overlap_decoder (split_on newline chunk) = [event_id_of bob_dies] /\
  snd (process_lines overlap_decoder elements "12:00" (split_on newline chunk)
         initial_globals None) = Some UnboundLocalError /\
  player_stats g1 = [] /\
  player_stats g2 = [] /\
  webhook g2 = [] /\
  unsaved_changes g2 = false /\
  file_positions g2 !! DISCORD_LOG_PATH
    = Some (Z.of_nat (String.length (chunk ++ chunk)%string)) /\
  (let handled := fst (handle_discord_event "12:00" bob_dies initial_globals) in
   option_map total_deaths (od_get "Bob" (player_stats handled)) = Some 1 /\
   List.length (webhook handled) = 1%nat).
Proof.
  intros chunk g1 g2.
  destruct (monitor_discord_events_log_frame overlap_decoder elements "12:00"
              (serving chunk) initial_globals) as (_ & Hps1 & Hu1 & Hw1).
  destruct (monitor_discord_events_log_frame overlap_decoder elements "12:00"
              (serving (chunk ++ chunk)%string) g1) as (_ & Hps2 & Hu2 & Hw2).
  fold g1 in Hps1, Hu1, Hw1. fold g2 in Hps2, Hu2, Hw2.
  rewrite Hps2, Hw2, Hu2, Hps1, Hw1, Hu1.
  repeat split; vm_compute; reflexivity.
Qed.

(** ** The snapshot file *)

Section SnapshotFacts.

Variable json_dump : odict player -> gmap string Z -> string.

Lemma substring_prefix (n : nat) (s : string) :
  String.prefix (substring 0 n s) s = true.
Proof.
  revert n. induction s as [|c s IH]; intros [|n]; simpl; auto.
  rewrite IH. now destruct (ascii_dec c c).
Qed.

(** C4, as the code has it. [save_player_stats] rewrites the snapshot in
    place: a save that completes leaves the whole text in the file and
    clears [unsaved_changes]; a save that fails changes no variable
    ([unsaved_changes] keeps its value), and leaves the file as it was
    when opening failed, or holding a prefix of the text when a write
    failed. The stats and the cursors are never changed by a save. *)
Theorem save_player_stats_in_place (f : fault) (g : globals) (file : option string) :
  let text := json_dump (player_stats g) (file_positions g) in
  let '(g', file') := save_player_stats json_dump f g file in
  player_stats g' = player_stats g /\
  file_positions g' = file_positions g /\
  match f with
  | NoFault => file' = Some text /\ unsaved_changes g' = false
  | OpenFails => file' = file /\ g' = g
  | WriteFailsAfter n =>
      g' = g /\
      exists part, file' = Some part /\ String.prefix part text = true /\
                   part = substring 0 n text
  end.
Proof.
  destruct f as [| |n]; simpl; repeat split; auto.
  exists (substring 0 n (json_dump (player_stats g) (file_positions g))).
  repeat split. apply substring_prefix.
Qed.

(** A write that fails at once leaves an empty file where the old
    snapshot was. *)
Lemma save_can_lose_the_snapshot (g : globals) (old : string) :
  old <> "" ->
  json_dump (player_stats g) (file_positions g) <> "" ->
  ~ whole_or_untouched json_dump (WriteFailsAfter 0) g (Some old).
Proof.
  intros Hold Htext [H|H]; simpl in H.
  - destruct (json_dump _ _); simpl in H; inversion H; congruence.
  - destruct (json_dump _ _); simpl in H; inversion H; congruence.
Qed.

End SnapshotFacts.

(** C4, as the specification has it, fails: a save of Bob's first death that
    breaks after 10 characters leaves the file holding ["{players: "],
    which is neither the old snapshot nor the new one. *)
Lemma save_player_stats_not_atomic :
  let g := fst (handle_discord_event "12:00" bob_dies initial_globals) in
  snd (save_player_stats tiny_dump (WriteFailsAfter 10) g (Some "{players: 0, cursor: 0}"))
    = Some "{players: " /\
  tiny_dump (player_stats g) (file_positions g) = "{players: 1, cursor: 0}" /\
  ~ whole_or_untouched tiny_dump (WriteFailsAfter 10) g (Some "{players: 0, cursor: 0}").
Proof.
  intros g. split; [reflexivity|]. split; [reflexivity|].
  intros [H|H]; vm_compute in H; inversion H.
Qed.

(** ** Order on binary64 values *)

(** The comparisons of [float_scope] are specified on [spec_float] by
    [ltb_spec], [leb_spec] and [eqb_spec]; the order facts are proved
    there by cases on the two or three values. *)

Ltac sf_cases :=
  repeat match goal with
  | |- context [Z.compare ?a ?b] => destruct (Z.compare_spec a b)
  | |- context [Pos.compare ?a ?b] => destruct (Pos.compare_spec a b)
  | H : context [Z.compare ?a ?b] |- _ => destruct (Z.compare_spec a b)
  | H : context [Pos.compare ?a ?b] |- _ => destruct (Pos.compare_spec a b)
  end.

Lemma SFleb_trans x y z :
  SFleb x y = true -> SFleb y z = true -> SFleb x z = true.
Proof.
  unfold SFleb, SFcompare.
  destruct x as [[]|[]| |[] mx ex], y as [[]|[]| |[] my ey], z as [[]|[]| |[] mz ez];
    try reflexivity; try discriminate; intros H1 H2;
    change (Pos.compare_cont Eq) with Pos.compare in *;
    sf_cases; simpl in *; try reflexivity; try discriminate; try lia.
Qed.

Lemma SFleb_total x y :
  x <> S754_nan -> y <> S754_nan -> SFltb x y = false -> SFleb y x = true.
Proof.
  unfold SFleb, SFltb, SFcompare.
  destruct x as [[]|[]| |[] mx ex], y as [[]|[]| |[] my ey];
    try reflexivity; try discriminate; try congruence; intros _ _ H1;
    change (Pos.compare_cont Eq) with Pos.compare in *;
    sf_cases; simpl in *; try reflexivity; try discriminate; try lia.
Qed.

Lemma SFleb_antisym x y :
  SFleb x y = true -> SFleb y x = true -> SFeqb x y = true.
Proof.
  unfold SFleb, SFeqb, SFcompare.
  destruct x as [[]|[]| |[] mx ex], y as [[]|[]| |[] my ey];
    try reflexivity; try discriminate; intros H1 H2;
    change (Pos.compare_cont Eq) with Pos.compare in *;
    sf_cases; simpl in *; try reflexivity; try discriminate; try lia.
Qed.

Lemma SFltb_leb x y : SFltb x y = true -> SFleb x y = true.
Proof. unfold SFleb, SFltb. now destruct (SFcompare x y) as [[]|]. Qed.

Lemma SFleb_refl x : x <> S754_nan -> SFleb x x = true.
Proof.
  unfold SFleb, SFcompare.
  destruct x as [[]|[]| |[] mx ex]; try reflexivity; try congruence; intros _;
    rewrite Z.compare_refl; change (Pos.compare_cont Eq) with Pos.compare;
    now rewrite Pos.compare_refl.
Qed.

Lemma SFleb_not_nan x y : SFleb x y = true -> x <> S754_nan /\ y <> S754_nan.
Proof.
  unfold SFleb, SFcompare.
  destruct x as [[]|[]| |[] mx ex], y as [[]|[]| |[] my ey];
    try discriminate; split; congruence.
Qed.

Lemma fle_trans a b c : fle a b -> fle b c -> fle a c.
Proof. unfold fle. rewrite !leb_spec. apply SFleb_trans. Qed.

Lemma fle_refl_l a b : fle a b -> fle a a.
Proof.
  unfold fle. rewrite !leb_spec. intros H.
  apply SFleb_refl. now apply SFleb_not_nan in H.
Qed.

Lemma fle_refl_r a b : fle a b -> fle b b.
Proof.
  unfold fle. rewrite !leb_spec. intros H.
  apply SFleb_refl. now apply SFleb_not_nan in H.
Qed.

Lemma fle_antisym a b : fle a b -> fle b a -> (a =? b)%float = true.
Proof. unfold fle. rewrite !leb_spec, eqb_spec. apply SFleb_antisym. Qed.

Lemma fmax_upper a h :
  fle 0 a -> fle 0 h -> fle a (fmax a h) /\ fle h (fmax a h) /\ fle 0 (fmax a h).
Proof.
  intros Ha Hh. unfold fmax. destruct (a <? h)%float eqn:E.
  - repeat split; auto.
    + unfold fle. rewrite leb_spec. apply SFltb_leb. now rewrite <- ltb_spec.
    + now apply fle_refl_r in Hh.
  - repeat split; auto.
    + now apply fle_refl_r in Ha.
    + unfold fle in *. rewrite leb_spec in *. rewrite ltb_spec in E.
      apply SFleb_total; auto.
      * now apply SFleb_not_nan in Ha.
      * now apply SFleb_not_nan in Hh.
Qed.

(** The running maximum of non-negative durations bounds its start and
    every duration, and is the start or one of the durations. *)
Lemma fold_fmax_upper ds : forall a,
  fle 0 a -> Forall (fle 0) ds ->
  let m := fold_left fmax ds a in
  fle 0 m /\ fle a m /\ Forall (fun d => fle d m) ds /\ (m = a \/ In m ds).
Proof.
  induction ds as [|d ds IH]; intros a Ha Hds; simpl.
  - repeat split; auto. now apply fle_refl_r in Ha.
  - apply Forall_cons_iff in Hds as [Hd Hds].
    destruct (fmax_upper a d Ha Hd) as (Ham & Hdm & H0m).
    destruct (IH (fmax a d) H0m Hds) as (H0 & Hm & Hall & Hin).
    repeat split; auto.
    + eapply fle_trans; eauto.
    + constructor; auto. eapply fle_trans; eauto.
    + destruct Hin as [Hin|Hin]; [|now right; right].
      rewrite Hin. unfold fmax. destruct (a <? d)%float; auto.
Qed.

(** From a start of zero, the running maximum of a non-empty list of
    non-negative durations is attained by one of them. *)
Lemma fold_fmax_attained ds :
  ds <> [] -> Forall (fle 0) ds ->
  Exists (fun d => (d =? fold_left fmax ds 0)%float = true) ds.
Proof.
  intros Hne Hds.
  assert (H00 : fle 0 0) by reflexivity.
  destruct (fold_fmax_upper ds 0%float H00 Hds) as (H0 & _ & Hall & [Hm|Hin]).
  - destruct ds as [|d ds]; [contradiction|].
    apply Exists_cons_hd.
    apply Forall_cons_iff in Hall as [Hd _].
    apply Forall_cons_iff in Hds as [Hd0 _].
    rewrite Hm in *. now apply fle_antisym.
  - apply Exists_exists. exists (fold_left fmax ds 0%float). split; auto.
    apply fle_antisym; now apply fle_refl_r in H0.
Qed.

(** ** What the handlers do to a subject's record *)

Lemma init_player_get_eq username sid g :
  od_get username (player_stats (init_player username sid g))
  = Some (default (new_player sid) (od_get username (player_stats g))).
Proof.
  destruct (od_get username (player_stats g)) as [p|] eqn:E; simpl.
  - now apply init_player_get_old.
  - now apply init_player_get_new.
Qed.

Lemma lifetime_same_refl o : lifetime_same o o.
Proof. now repeat split. Qed.

Lemma milestones_same_refl o : milestones_same o o.
Proof. now intros s. Qed.

#[local] Hint Resolve lifetime_same_refl milestones_same_refl : core.

Ltac enter_handler :=
  cbv zeta; rewrite ?init_player_get_eq; simpl.

Ltac other_subject Hne :=
  simpl; rewrite ?od_get_set_eq; simpl;
  rewrite ?od_get_set_ne by congruence;
  rewrite ?init_player_get_other by congruence; auto.

Lemma handle_death_event_get_other data g u :
  u <> d_username data ->
  od_get u (player_stats (fst (handle_death_event data g))) = od_get u (player_stats g).
Proof.
  intros Hne. unfold handle_death_event, send_death_notification. enter_handler.
  destruct (d_skills data); renders; other_subject Hne.
Qed.

Lemma handle_spawn_event_get_other now data g u :
  u <> d_username data ->
  od_get u (player_stats (fst (handle_spawn_event now data g))) = od_get u (player_stats g).
Proof.
  intros Hne. unfold handle_spawn_event, send_respawn_notification. enter_handler.
  rewrite od_get_set_eq. renders; other_subject Hne.
Qed.

Lemma handle_level_up_event_get_other data g u :
  u <> d_username data ->
  od_get u (player_stats (fst (handle_level_up_event data g))) = od_get u (player_stats g).
Proof.
  intros Hne. unfold handle_level_up_event, send_skill_notification. enter_handler.
  renders; repeat break_match; other_subject Hne.
Qed.

Lemma handle_login_event_get_other data g u :
  u <> d_username data ->
  od_get u (player_stats (fst (handle_login_event data g))) = od_get u (player_stats g).
Proof.
  intros Hne. unfold handle_login_event. enter_handler.
  destruct (d_skills data); other_subject Hne.
Qed.

Lemma send_leaderboard_player_stats t g :
  player_stats (fst (send_leaderboard t g)) = player_stats g.
Proof. unfold send_leaderboard. repeat break_match; simpl; congruence. Qed.

Lemma send_daily_survivor_report_player_stats data g :
  player_stats (fst (send_daily_survivor_report data g)) = player_stats g.
Proof. unfold send_daily_survivor_report. repeat break_match; reflexivity. Qed.

(** An accepted death: one more death, the duration added to the total,
    the longest survival raised to the duration if it is longer; the
    milestones are as they were. *)
Lemma handle_death_event_get_self data g sk :
  d_skills data = Some sk ->
  let o := od_get (d_username data) (player_stats g) in
  let o' := od_get (d_username data) (player_stats (fst (handle_death_event data g))) in
  deaths_view o' = deaths_view o + 1 /\
  hours_view o' = (hours_view o + d_hours_survived data)%float /\
  longest_view o' = fmax (longest_view o) (d_hours_survived data) /\
  milestones_same o o'.
Proof.
  intros Hsk o o'. subst o'.
  unfold handle_death_event, send_death_notification. enter_handler.
  rewrite Hsk. renders; fold o; unfold milestones_same; destruct o; simpl; auto.
Qed.

(** A death whose skills string does not parse: the counter has been
    incremented when [parse_skills_string] raises, and the lifetime totals
    are not reached. *)
Lemma handle_death_event_rejected data g :
  d_skills data = None ->
  let o := od_get (d_username data) (player_stats g) in
  let o' := od_get (d_username data) (player_stats (fst (handle_death_event data g))) in
  snd (handle_death_event data g) = Some ValueError /\
  deaths_view o' = deaths_view o + 1 /\
  hours_view o' = hours_view o /\
  longest_view o' = longest_view o.
Proof.
  intros Hsk o o'. subst o'. unfold handle_death_event. enter_handler.
  rewrite Hsk. simpl. rewrite od_get_set_eq.
  fold o. destruct o; simpl; auto.
Qed.

Lemma handle_death_event_milestones data g u :
  milestones_same (od_get u (player_stats g))
    (od_get u (player_stats (fst (handle_death_event data g)))).
Proof.
  destruct (String.eqb_spec u (d_username data)) as [->|Hne].
  - destruct (d_skills data) as [sk|] eqn:Hsk.
    + now apply (handle_death_event_get_self data g sk).
    + unfold handle_death_event. enter_handler. rewrite Hsk. simpl.
      rewrite od_get_set_eq. intros s.
      destruct (od_get (d_username data) (player_stats g)); reflexivity.
  - now rewrite handle_death_event_get_other.
Qed.

Lemma handle_spawn_event_same now data g u :
  let o := od_get u (player_stats g) in
  let o' := od_get u (player_stats (fst (handle_spawn_event now data g))) in
  lifetime_same o o' /\ milestones_same o o'.
Proof.
  intros o o'. subst o o'.
  destruct (String.eqb_spec u (d_username data)) as [->|Hne].
  - unfold handle_spawn_event, send_respawn_notification. enter_handler.
    unfold lifetime_same, milestones_same.
    renders; destruct (od_get (d_username data) (player_stats g)); simpl; auto.
  - rewrite handle_spawn_event_get_other; auto.
Qed.

Lemma handle_login_event_same data g u :
  let o := od_get u (player_stats g) in
  let o' := od_get u (player_stats (fst (handle_login_event data g))) in
  lifetime_same o o' /\ milestones_same o o'.
Proof.
  intros o o'. subst o o'.
  destruct (String.eqb_spec u (d_username data)) as [->|Hne].
  - unfold handle_login_event. enter_handler.
    unfold lifetime_same, milestones_same.
    destruct (d_skills data); simpl; rewrite ?od_get_set_eq, ?init_player_get_eq;
      destruct (od_get (d_username data) (player_stats g)); simpl; auto.
  - rewrite handle_login_event_get_other; auto.
Qed.

Lemma handle_level_up_event_lifetime data g u :
  lifetime_same (od_get u (player_stats g))
    (od_get u (player_stats (fst (handle_level_up_event data g)))).
Proof.
  destruct (String.eqb_spec u (d_username data)) as [->|Hne].
  - unfold handle_level_up_event, send_skill_notification. enter_handler.
    unfold lifetime_same.
    repeat break_match; simpl; rewrite od_get_set_eq;
      destruct (od_get (d_username data) (player_stats g)); simpl; auto.
  - rewrite handle_level_up_event_get_other; auto.
Qed.

(** A level-up raises the milestone of its skill to the level if the
    level is higher, whatever the state of the current character. *)
Lemma handle_level_up_event_milestone data g s :
  let o := od_get (d_username data) (player_stats g) in
  let o' := od_get (d_username data) (player_stats (fst (handle_level_up_event data g))) in
  milestone_view s o' =
    if String.eqb (d_skill data) s then Z.max (milestone_view s o) (d_level data)
    else milestone_view s o.
Proof.
  intros o o'. subst o'.
  assert (Hget : od_get (d_username data)
                   (player_stats (fst (handle_level_up_event data g)))
                 = Some (let p := default (new_player (d_steam_id data)) o in
                         let lt := lifetime_stats p in
                         {| steam_id := steam_id p;
                            total_deaths := total_deaths p;
                            total_respawns := total_respawns p;
                            current_character :=
                              {| alive := alive (current_character p);
                                 spawn_time := spawn_time (current_character p);
                                 hours_survived := d_hours_survived data;
                                 last_location := last_location (current_character p);
                                 skills := <[d_skill data := d_level data]>
                                             (skills (current_character p)) |};
                            lifetime_stats :=
                              {| total_hours_survived := total_hours_survived lt;
                                 longest_survival := longest_survival lt;
                                 skill_milestones :=
                                   if get0 (skill_milestones lt) (d_skill data) <? d_level data
                                   then <[d_skill data := d_level data]> (skill_milestones lt)
                                   else skill_milestones lt |} |})).
  { unfold handle_level_up_event, send_skill_notification. enter_handler.
    fold o. repeat break_match; simpl; now rewrite od_get_set_eq. }
  rewrite Hget. cbv zeta. simpl.
  assert (Hm : milestone_view s o
               = get0 (skill_milestones (lifetime_stats
                         (default (new_player (d_steam_id data)) o))) s).
  { destruct o; reflexivity. }
  rewrite Hm.
  set (ms := skill_milestones (lifetime_stats (default (new_player (d_steam_id data)) o))).
  destruct (String.eqb_spec (d_skill data) s) as [<-|Hne].
  - destruct (get0 ms (d_skill data) <? d_level data) eqn:E.
    + apply Z.ltb_lt in E. unfold get0 at 1. rewrite lookup_insert_eq. simpl. lia.
    + apply Z.ltb_ge in E. lia.
  - destruct (get0 ms (d_skill data) <? d_level data); auto.
    unfold get0. now rewrite lookup_insert_ne.
Qed.

(** A respawn empties the skill map of the current character and keeps
    the milestones. *)
Lemma handle_spawn_event_resets now data g :
  exists p',
    od_get (d_username data)
      (player_stats (fst (handle_spawn_event now data g))) = Some p' /\
    alive (current_character p') = true /\
    skills (current_character p') = ∅ /\
    forall s, milestone_view s (Some p')
              = milestone_view s (od_get (d_username data) (player_stats g)).
Proof.
  unfold handle_spawn_event, send_respawn_notification. enter_handler.
  renders; (eexists; split; [reflexivity|]; repeat split;
    intros s; destruct (od_get (d_username data) (player_stats g)); reflexivity).
Qed.

(** ** Runs of events *)

Lemma handle_discord_event_lifetime now ev g u :
  accepted_death ev ->
  let o := od_get u (player_stats g) in
  let o' := od_get u (player_stats (fst (handle_discord_event now ev g))) in
  if is_death_of u ev
  then deaths_view o' = deaths_view o + 1 /\
       hours_view o' = (hours_view o + d_hours_survived (e_data ev))%float /\
       longest_view o' = fmax (longest_view o) (d_hours_survived (e_data ev))
  else lifetime_same o o'.
Proof.
  intros Hacc o o'. subst o o'. unfold handle_discord_event, is_death_of.
  destruct (String.eqb_spec (e_type ev) "death") as [Ht|Ht]; simpl.
  { destruct (String.eqb_spec (d_username (e_data ev)) u) as [<-|Hne].
    - destruct (d_skills (e_data ev)) as [sk|] eqn:Hsk; [|now elim (Hacc Ht)].
      destruct (handle_death_event_get_self _ g sk Hsk) as (H1 & H2 & H3 & _).
      auto.
    - rewrite handle_death_event_get_other by congruence. auto. }
  destruct (String.eqb (e_type ev) "level_up").
  { apply handle_level_up_event_lifetime. }
  destruct (String.eqb (e_type ev) "character_created").
  { apply handle_spawn_event_same. }
  destruct (String.eqb (e_type ev) "login").
  { apply handle_login_event_same. }
  destruct (String.eqb (e_type ev) "sunrise"); [simpl; auto|].
  destruct (String.eqb (e_type ev) "sunset"); [simpl; auto|].
  destruct (String.eqb (e_type ev) "daily_survivors").
  { simpl. rewrite send_daily_survivor_report_player_stats. auto. }
  destruct (String.eqb (e_type ev) "leaderboard_request").
  { rewrite send_leaderboard_player_stats. auto. }
  simpl. auto.
Qed.

Lemma handle_discord_event_milestone now ev g u s :
  let o := od_get u (player_stats g) in
  let o' := od_get u (player_stats (fst (handle_discord_event now ev g))) in
  milestone_view s o' =
    if is_level_up_of u s ev then Z.max (milestone_view s o) (d_level (e_data ev))
    else milestone_view s o.
Proof.
  intros o o'. subst o o'. unfold handle_discord_event, is_level_up_of.
  destruct (String.eqb_spec (e_type ev) "death") as [Ht|Ht].
  { rewrite Ht. simpl. apply handle_death_event_milestones. }
  destruct (String.eqb (e_type ev) "level_up"); simpl.
  { destruct (String.eqb_spec (d_username (e_data ev)) u) as [<-|Hne]; simpl.
    - apply handle_level_up_event_milestone.
    - rewrite handle_level_up_event_get_other by congruence. auto. }
  destruct (String.eqb (e_type ev) "character_created").
  { apply handle_spawn_event_same. }
  destruct (String.eqb (e_type ev) "login").
  { apply handle_login_event_same. }
  destruct (String.eqb (e_type ev) "sunrise"); [simpl; auto|].
  destruct (String.eqb (e_type ev) "sunset"); [simpl; auto|].
  destruct (String.eqb (e_type ev) "daily_survivors").
  { simpl. rewrite send_daily_survivor_report_player_stats. auto. }
  destruct (String.eqb (e_type ev) "leaderboard_request").
  { rewrite send_leaderboard_player_stats. auto. }
  simpl. auto.
Qed.

Lemma run_events_lifetime now u evs : forall g,
  Forall accepted_death evs ->
  let o := od_get u (player_stats g) in
  let o' := od_get u (player_stats (run_events now evs g)) in
  let ds := death_durations u evs in
  deaths_view o' = deaths_view o + Z.of_nat (List.length ds) /\
  hours_view o' = fold_left PrimFloat.add ds (hours_view o) /\
  longest_view o' = fold_left fmax ds (longest_view o).
Proof.
  induction evs as [|ev evs IH]; intros g Hacc; simpl.
  - repeat split; lia.
  - apply Forall_cons_iff in Hacc as [Hev Hacc].
    specialize (IH (fst (handle_discord_event now ev g)) Hacc).
    destruct IH as (Hd & Hh & Hl).
    pose proof (handle_discord_event_lifetime now ev g u Hev) as Hstep.
    unfold run_events in *. simpl.
    unfold death_durations in *. simpl.
    destruct (is_death_of u ev); simpl.
    + destruct Hstep as (S1 & S2 & S3).
      rewrite Hd, Hh, Hl, S1, S2, S3. repeat split; auto. lia.
    + destruct Hstep as (S1 & S2 & S3).
      rewrite Hd, Hh, Hl, S1, S2, S3. repeat split; auto.
Qed.

Lemma run_events_milestone now u s evs : forall g,
  milestone_view s (od_get u (player_stats (run_events now evs g)))
  = fold_left Z.max (observed_levels u s evs)
      (milestone_view s (od_get u (player_stats g))).
Proof.
  induction evs as [|ev evs IH]; intros g; simpl; auto.
  unfold run_events in *. simpl. rewrite IH.
  rewrite handle_discord_event_milestone.
  unfold observed_levels. simpl.
  destruct (is_level_up_of u s ev); reflexivity.
Qed.

Lemma fold_max_upper ls : forall a,
  let m := fold_left Z.max ls a in
  a <= m /\ Forall (fun l => l <= m) ls /\ (m = a \/ In m ls).
Proof.
  induction ls as [|l ls IH]; intros a; simpl.
  - repeat split; auto. lia.
  - destruct (IH (Z.max a l)) as (Ha & Hall & Hin).
    repeat split.
    + lia.
    + constructor; auto. lia.
    + destruct Hin as [Hin|Hin]; [|now right; right].
      rewrite Hin. destruct (Z.max_spec a l) as [[_ ->]|[_ ->]]; auto.
Qed.

(** ** Lifetime statistics over a run *)

(** X30. Aggregation over deaths whose skills strings parse. Over any run
    of events in which every death has a skills string that parses, from
    any state, and for every subject [u]: [total_deaths] grows by the
    number of deaths of [u] in the run, one per death;
    [total_hours_survived] is the old total with the durations of these
    deaths added one after the other; and [longest_survival] is the
    running maximum of the old value and the durations. For non-negative
    durations that maximum bounds every recorded duration and is the old
    value or one of the durations; for a subject with no record before the
    run it is attained by a recorded duration. *)
Theorem death_aggregation (now : string) (evs : list event) (g : globals) (u : string) :
  Forall accepted_death evs ->
  let o := od_get u (player_stats g) in
  let o' := od_get u (player_stats (run_events now evs g)) in
  let ds := death_durations u evs in
  deaths_view o' = deaths_view o + Z.of_nat (List.length ds) /\
  hours_view o' = fold_left PrimFloat.add ds (hours_view o) /\
  longest_view o' = fold_left fmax ds (longest_view o) /\
  (fle 0 (longest_view o) -> Forall (fle 0) ds ->
     fle (longest_view o) (longest_view o') /\
     Forall (fun d => fle d (longest_view o')) ds /\
     (longest_view o' = longest_view o \/ In (longest_view o') ds)) /\
  (o = None -> ds <> [] -> Forall (fle 0) ds ->
     Forall (fun d => fle d (longest_view o')) ds /\
     Exists (fun d => (d =? longest_view o')%float = true) ds).
Proof.
  intros Hacc o o' ds.
  destruct (run_events_lifetime now u evs g Hacc) as (Hd & Hh & Hl).
  fold o o' ds in Hd, Hh, Hl.
  split; [exact Hd|]. split; [exact Hh|]. split; [exact Hl|]. split.
  - intros H0 Hds.
    destruct (fold_fmax_upper ds (longest_view o) H0 Hds) as (_ & Hle & Hall & Hin).
    rewrite Hl. auto.
  - intros Hnone Hne Hds. rewrite Hl, Hnone. simpl. split.
    + now apply (fold_fmax_upper ds 0%float).
    + now apply fold_fmax_attained.
Qed.

Lemma two_deaths_accepted : Forall accepted_death two_deaths.
Proof. repeat constructor; intros _ H; discriminate H. Qed.

Lemma death_aggregation_witness :
  let o' := od_get "TestPlayer"
              (player_stats (run_events "12:00" two_deaths initial_globals)) in
  Forall accepted_death two_deaths /\
  deaths_view o' = 2 /\
  hours_view o' = 35%float /\
  longest_view o' = 25%float.
Proof.
  intros o'. split; [exact two_deaths_accepted|].
  destruct (death_aggregation "12:00" two_deaths initial_globals "TestPlayer"
              two_deaths_accepted) as (Hd & Hh & Hl & _).
  split; [exact Hd|]. split; [exact Hh | exact Hl].
Defined.

(** C6. Death aggregation, as the specification has it, is not what the
    handler does for every death it counts. A death whose skills string
    does not parse is counted: [total_deaths] has been incremented (line
    439) when [parse_skills_string] raises [ValueError] (line 445); its
    duration is neither added to [total_hours_survived] nor compared with
    [longest_survival] (lines 448-450 are not reached), and
    [unsaved_changes] keeps its value (line 452 is not reached). So after
    deaths of 10, 100 and 25 hours, the second with such a skills string,
    the record counts 3 deaths with 35 hours in total and a longest
    survival of 25 hours, where the three durations sum to 135 and their
    maximum is 100. *)
Theorem death_counted_without_its_hours :
  (forall (data : event_data) (g : globals),
      d_skills data = None ->
      let o := od_get (d_username data) (player_stats g) in
      let r := handle_death_event data g in
      let o' := od_get (d_username data) (player_stats (fst r)) in
      snd r = Some ValueError /\
      deaths_view o' = deaths_view o + 1 /\
      hours_view o' = hours_view o /\
      longest_view o' = longest_view o /\
      unsaved_changes (fst r) = unsaved_changes g) /\
  let o' := od_get "TestPlayer"
              (player_stats (run_events "12:00" three_deaths initial_globals)) in
  death_durations "TestPlayer" three_deaths = [10%float; 100%float; 25%float] /\
  deaths_view o' = 3 /\
  hours_view o' = 35%float /\
  longest_view o' = 25%float /\
  fold_left PrimFloat.add (death_durations "TestPlayer" three_deaths) 0%float
  = 135%float /\
  fold_left fmax (death_durations "TestPlayer" three_deaths) 0%float = 100%float.
Proof.
  split.
  - intros data g Hsk o r o'. subst o r o'.
    destruct (handle_death_event_rejected data g Hsk) as (Hr & Hd & Hh & Hl).
    repeat (split; [assumption|]).
    unfold handle_death_event. cbv zeta. rewrite init_player_get_eq, Hsk. simpl.
    unfold init_player. now destruct (od_mem _ _).
  - repeat split; reflexivity.
Qed.

(** C7. For every subject [u] and skill [s], over any run of events from
    any state: the milestone of [s] after the run is the running maximum
    of the milestone before it and the levels of [s] observed for [u] in
    level-up events; it is at least every observed level, never below the
    milestone before the run, and is that milestone or an observed level.
    Deaths, respawns and logins in the run, accepted or not, take no part
    in it. From a milestone of 0 before the run (the state after import)
    and levels that are not negative, the milestone is one of the observed
    levels: it is their maximum. A respawn by itself leaves the subject
    with an alive character whose skill map is empty, and with every
    milestone as it was. *)
Theorem skill_milestone_is_max (now : string) (evs : list event) (g : globals)
    (u s : string) :
  let m := milestone_view s (od_get u (player_stats g)) in
  let m' := milestone_view s (od_get u (player_stats (run_events now evs g))) in
  let ls := observed_levels u s evs in
  m' = fold_left Z.max ls m /\
  m <= m' /\
  Forall (fun l => l <= m') ls /\
  (m' = m \/ In m' ls) /\
  (m = 0 -> ls <> [] -> Forall (fun l => 0 <= l) ls -> In m' ls) /\
  (forall data g0,
      exists p',
        od_get (d_username data)
          (player_stats (fst (handle_spawn_event now data g0))) = Some p' /\
        alive (current_character p') = true /\
        skills (current_character p') = ∅ /\
        forall s', milestone_view s' (Some p')
                   = milestone_view s' (od_get (d_username data) (player_stats g0))).
Proof.
  intros m m' ls. subst m'. rewrite run_events_milestone. fold m ls.
  split; [reflexivity|].
  destruct (fold_max_upper ls m) as (H1 & H2 & H3).
  split; [exact H1|]. split; [exact H2|]. split; [exact H3|]. split.
  - intros Hm Hne Hpos. destruct H3 as [H3|H3]; [|exact H3].
    destruct ls as [|l ls']; [contradiction|].
    apply Forall_cons_iff in H2 as [Hl _].
    apply Forall_cons_iff in Hpos as [Hl0 _].
    left. lia.
  - intros data g0. apply handle_spawn_event_resets.
Qed.

Lemma skill_milestone_is_max_witness :
  let g := run_events "12:00" two_lives initial_globals in
  milestone_view "Aiming" (od_get "TestPlayer" (player_stats g)) = 8 /\
  option_map (fun p => skills (current_character p) !! "Aiming")
    (od_get "TestPlayer" (player_stats g)) = Some (Some 3).
Proof.
  intros g. split; [|reflexivity].
  destruct (skill_milestone_is_max "12:00" two_lives initial_globals
              "TestPlayer" "Aiming") as (Hm & _).
  exact Hm.
Defined.

(** ** Leaderboards *)

Lemma firstn_In {A : Type} (n : nat) (x : A) : forall l, In x (firstn n l) -> In x l.
Proof.
  induction n as [|n IH]; intros [|y l]; simpl; try tauto.
  intros [H|H]; auto.
Qed.

Lemma not_appended {A : Type} (l : list A) (x : A) : l <> l ++ [x].
Proof.
  intros H. apply (f_equal (@List.length A)) in H.
  rewrite length_app in H. simpl in H. lia.
Qed.

Lemma appended_inv (g : globals) (e e' : embed) :
  webhook (send_discord_notification e g) = webhook g ++ [e'] -> e = e'.
Proof. simpl. intros H. apply app_inv_head in H. now inversion H. Qed.

(** A type that starts with "skill_" is none of the three fixed types. *)
Lemma skill_type_dispatch (t : string) :
  String.prefix "skill_" t = true ->
  String.eqb t "death" = false /\
  String.eqb t "survival" = false /\
  String.eqb t "hours" = false.
Proof.
  destruct t as [|c1 [|c2 t]]; cbn [String.prefix]; try (intros H; discriminate H).
  - destruct (ascii_dec "s" c1); intros H; discriminate H.
  - destruct (ascii_dec "s" c1) as [<-|]; [|intros H; discriminate H].
    destruct (ascii_dec "k" c2) as [<-|]; [|intros H; discriminate H].
    intros _. repeat split.
Qed.

(** Every entry of [players_with_skill] is a positive level of a player of
    the dict: the live level of an alive player, the milestone of a dead
    one. *)
Lemma players_with_skill_In skill_name ps name level :
  In (name, level) (players_with_skill skill_name ps) ->
  exists p, In (name, p) ps /\ 0 < level /\
    (alive (current_character p) = true ->
       level = get0 (skills (current_character p)) skill_name) /\
    (alive (current_character p) = false ->
       level = get0 (skill_milestones (lifetime_stats p)) skill_name).
Proof.
  unfold players_with_skill. rewrite in_flat_map.
  intros ([n p] & Hin & Hrow). exists p.
  destruct (alive (current_character p)) eqn:Ea.
  - rewrite andb_false_r, app_nil_r in Hrow.
    destruct (0 <? get0 (skills (current_character p)) skill_name) eqn:E;
      [|contradiction].
    destruct Hrow as [Hrow|[]]. inversion Hrow. subst.
    apply Z.ltb_lt in E. repeat split; auto. discriminate.
  - rewrite andb_true_r in Hrow. simpl in Hrow.
    destruct (0 <? get0 (skill_milestones (lifetime_stats p)) skill_name) eqn:E;
      [|contradiction].
    destruct Hrow as [Hrow|[]]. inversion Hrow. subst.
    apply Z.ltb_lt in E. repeat split; auto. discriminate.
Qed.

(** C8. Skill leaderboard fallback: whatever a request of type
    "skill_..." posts is the board of that skill, and every row of it
    names a subject of the dict and shows, if the subject's current
    character is dead, the stored lifetime milestone of the skill, and if
    it is alive, the level in the live skill map; so the live map of a dead
    character is never what is shown. Every value shown is positive. *)
Theorem skill_board_fallback (g : globals) (leaderboard_type : string) (e : embed) :
  od_wf (player_stats g) ->
  String.prefix "skill_" leaderboard_type = true ->
  webhook (fst (send_leaderboard leaderboard_type g)) = webhook g ++ [e] ->
  exists rows,
    e = SkillBoard (remove_all "skill_" leaderboard_type) rows /\
    forall i name level, In (i, name, level) rows ->
      exists p,
        od_get name (player_stats g) = Some p /\
        0 < level /\
        (alive (current_character p) = false ->
           level = get0 (skill_milestones (lifetime_stats p))
                     (remove_all "skill_" leaderboard_type)) /\
        (alive (current_character p) = true ->
           level = get0 (skills (current_character p))
                     (remove_all "skill_" leaderboard_type)).
Proof.
  intros Hwf Hpre. destruct (skill_type_dispatch _ Hpre) as (E1 & E2 & E3).
  unfold send_leaderboard. rewrite E1, E2, E3, Hpre.
  set (skill_name := remove_all "skill_" leaderboard_type).
  destruct (player_stats g) as [|kv ps] eqn:Eps.
  { intros H. now apply not_appended in H. }
  rewrite <- Eps in *.
  destruct (players_with_skill skill_name (player_stats g)) as [|row0 rows0] eqn:Ew.
  { intros H. now apply not_appended in H. }
  intros H. apply appended_inv in H. subst e.
  eexists. split; [reflexivity|].
  intros i name level Hin.
  apply in_map_iff in Hin as ([i' [name' level']] & Heq & Hin).
  inversion Heq. subst. apply enumerate_In in Hin.
  unfold skill_ranking in Hin. apply firstn_In, sorted_desc_In in Hin.
  apply players_with_skill_In in Hin as (p & Hp & Hpos & Hal & Hde).
  exists p. repeat split; auto. now apply od_In_get.
Qed.

Lemma two_players_wf : od_wf (player_stats two_players).
Proof.
  unfold od_wf. simpl. constructor.
  - simpl. intros [H|[]]. discriminate.
  - constructor; [simpl; tauto | constructor].
Qed.

Lemma skill_board_fallback_witness :
  webhook (fst (send_leaderboard "skill_Aiming" two_players))
    = webhook two_players ++ [SkillBoard "Aiming" [(0%nat, "Bob", 5); (1%nat, "Ann", 3)]] /\
  exists p, od_get "Bob" (player_stats two_players) = Some p /\
            (alive (current_character p) = false ->
               5 = get0 (skill_milestones (lifetime_stats p)) "Aiming").
Proof.
  assert (Hpost : webhook (fst (send_leaderboard "skill_Aiming" two_players))
            = webhook two_players
              ++ [SkillBoard "Aiming" [(0%nat, "Bob", 5); (1%nat, "Ann", 3)]])
    by reflexivity.
  split; [exact Hpost|].
  destruct (skill_board_fallback two_players "skill_Aiming" _ two_players_wf
              eq_refl Hpost) as (rows & Hrows & Hall).
  inversion Hrows. subst rows.
  destruct (Hall 0%nat "Bob" 5 (or_introl eq_refl)) as (p & Hp & _ & Hdead & _).
  exists p. split; [exact Hp | exact Hdead].
Defined.

Lemma death_ranking_In ps name p :
  In (name, p) (death_ranking ps) -> In (name, p) ps /\ 0 < total_deaths p.
Proof.
  unfold death_ranking. intros H.
  apply firstn_In, sorted_desc_In, filter_In in H as [Hin Hpos].
  split; auto. now apply Z.ltb_lt in Hpos.
Qed.

Lemma hours_ranking_In ps name p :
  In (name, p) (hours_ranking ps) ->
  In (name, p) ps /\ (0 <? total_hours_survived (lifetime_stats p))%float = true.
Proof.
  unfold hours_ranking. intros H.
  now apply firstn_In, sorted_desc_In, filter_In in H.
Qed.

Lemma survival_ranking_In ps name p :
  In (name, p) (survival_ranking ps) -> In (name, p) ps.
Proof.
  unfold survival_ranking. intros H. now apply firstn_In, sorted_desc_In in H.
Qed.

Lemma survival_lines_In ranking i name v a :
  In (i, name, v, a) (survival_lines ranking) ->
  exists p, In (name, p) ranking /\
            v = longest_survival (lifetime_stats p) /\
            (v =? 0)%float = false /\
            a = alive (current_character p).
Proof.
  unfold survival_lines. rewrite in_flat_map.
  intros ([i' [name' p]] & Hin & Hrow).
  destruct (longest_survival (lifetime_stats p) =? 0)%float eqn:E; [contradiction|].
  destruct Hrow as [Hrow|[]]. inversion Hrow. subst.
  exists p. repeat split; auto. now apply enumerate_In in Hin.
Qed.

Lemma survival_lines_all_zero ranking :
  (forall name p, In (name, p) ranking ->
                  (longest_survival (lifetime_stats p) =? 0)%float = true) ->
  survival_lines ranking = [].
Proof.
  intros Hzero. unfold survival_lines.
  assert (Hsub : forall i name p,
             In (i, (name, p)) (enumerate ranking) -> In (name, p) ranking).
  { intros i name p H. now apply enumerate_In in H. }
  revert Hsub. generalize (enumerate ranking) as l.
  induction l as [|[i [name p]] l IH]; intros Hl; simpl; auto.
  rewrite (Hzero name p) by (apply (Hl i); now left).
  simpl. apply IH. intros i' name' p' H. apply (Hl i'). now right.
Qed.

Lemma survival_times_all_zero ranking :
  (forall name p, In (name, p) ranking ->
                  (longest_survival (lifetime_stats p) =? 0)%float = true) ->
  survival_times ranking = None.
Proof.
  unfold survival_times.
  induction ranking as [|[name p] l IH]; intros Hzero; simpl; auto.
  rewrite (Hzero name p) by now left.
  apply IH. intros name' p' H. apply (Hzero name'). now right.
Qed.

(** C10. Whatever the "death" board posts, each of its rows names a
    subject of the dict and shows that subject's death count, which is
    positive: no subject with [total_deaths = 0] is listed. The same holds
    for the "hours" board and [total_hours_survived]. Each row of the
    "survival" board shows a longest survival that is not zero; and when
    every subject's longest survival is zero the call posts nothing. *)
Theorem boards_list_positive_metrics (g : globals) :
  od_wf (player_stats g) ->
  (forall e,
      webhook (fst (send_leaderboard "death" g)) = webhook g ++ [e] ->
      exists rows, e = DeathBoard rows /\
        forall i name v, In (i, name, v) rows ->
          exists p, od_get name (player_stats g) = Some p /\
                    v = total_deaths p /\ 0 < total_deaths p) /\
  (forall e,
      webhook (fst (send_leaderboard "hours" g)) = webhook g ++ [e] ->
      exists rows, e = HoursBoard rows /\
        forall i name v, In (i, name, v) rows ->
          exists p, od_get name (player_stats g) = Some p /\
                    v = total_hours_survived (lifetime_stats p) /\
                    (0 <? total_hours_survived (lifetime_stats p))%float = true) /\
  (forall e,
      webhook (fst (send_leaderboard "survival" g)) = webhook g ++ [e] ->
      exists rows, e = SurvivalBoard rows /\
        forall i name v a, In (i, name, v, a) rows ->
          exists p, od_get name (player_stats g) = Some p /\
                    v = longest_survival (lifetime_stats p) /\
                    (longest_survival (lifetime_stats p) =? 0)%float = false) /\
  ((forall name p, od_get name (player_stats g) = Some p ->
                   (longest_survival (lifetime_stats p) =? 0)%float = true) ->
   send_leaderboard "survival" g = (g, None)).
Proof.
  intros Hwf. unfold send_leaderboard.
  change (String.eqb "death" "death") with true.
  change (String.eqb "hours" "death") with false.
  change (String.eqb "hours" "survival") with false.
  change (String.eqb "hours" "hours") with true.
  change (String.eqb "survival" "death") with false.
  change (String.eqb "survival" "survival") with true.
  cbv iota.
  destruct (player_stats g) as [|kv ps] eqn:Eps.
  { repeat split; try (intros e H; now apply not_appended in H). }
  rewrite <- Eps in *. clear Eps kv ps.
  split; [|split; [|split]].
  - intros e. destruct (death_ranking (player_stats g)) as [|r0 rs] eqn:Er.
    { intros H. now apply not_appended in H. }
    rewrite <- Er. clear Er.
    destruct (death_averages (death_ranking (player_stats g))).
    { intros H. now apply not_appended in H. }
    intros H. apply appended_inv in H. subst e.
    eexists. split; [reflexivity|].
    intros i name v Hin.
    apply in_map_iff in Hin as ([i' [name' p]] & Heq & Hin).
    inversion Heq. subst. apply enumerate_In, death_ranking_In in Hin as [Hin Hpos].
    exists p. repeat split; auto. now apply od_In_get.
  - intros e. destruct (hours_ranking (player_stats g)) as [|r0 rs] eqn:Er.
    { intros H. now apply not_appended in H. }
    rewrite <- Er. clear Er.
    destruct (hours_times (hours_ranking (player_stats g))).
    { intros H. now apply not_appended in H. }
    intros H. apply appended_inv in H. subst e.
    eexists. split; [reflexivity|].
    intros i name v Hin.
    apply in_map_iff in Hin as ([i' [name' p]] & Heq & Hin).
    inversion Heq. subst. apply enumerate_In, hours_ranking_In in Hin as [Hin Hpos].
    exists p. repeat split; auto. now apply od_In_get.
  - intros e. destruct (survival_ranking (player_stats g)) as [|r0 rs] eqn:Er.
    { intros H. now apply not_appended in H. }
    rewrite <- Er.
    destruct (survival_times (survival_ranking (player_stats g))).
    { intros H. now apply not_appended in H. }
    destruct (survival_lines (survival_ranking (player_stats g))) as [|l0 ls] eqn:El.
    { intros H. now apply not_appended in H. }
    rewrite <- El. clear Er El. intros H. apply appended_inv in H. subst e.
    eexists. split; [reflexivity|].
    intros i name v a Hin.
    apply survival_lines_In in Hin as (p & Hin & -> & Hnz & _).
    apply survival_ranking_In in Hin.
    exists p. repeat split; auto. now apply od_In_get.
  - intros Hzero.
    destruct (survival_ranking (player_stats g)) as [|r0 rs] eqn:Er; auto.
    rewrite <- Er.
    assert (Hall : forall name p, In (name, p) (survival_ranking (player_stats g)) ->
                     (longest_survival (lifetime_stats p) =? 0)%float = true).
    { intros name p Hin. apply (Hzero name).
      apply od_In_get; auto. now apply survival_ranking_In in Hin. }
    rewrite survival_times_all_zero, survival_lines_all_zero; auto.
Qed.

Lemma three_players_wf : od_wf (player_stats three_players).
Proof.
  unfold od_wf. simpl. repeat constructor; simpl; intuition discriminate.
Qed.

Lemma boards_list_positive_metrics_witness :
  od_wf (player_stats three_players) /\
  webhook (fst (send_leaderboard "death" three_players))
    = webhook three_players ++ [DeathBoard [(0%nat, "Ann", 2); (1%nat, "Bob", 1)]] /\
  webhook (fst (send_leaderboard "survival" three_players))
    = webhook three_players
      ++ [SurvivalBoard [(0%nat, "Ann", 30%float, true); (1%nat, "Bob", 12%float, false)]] /\
  exists p, od_get "Bob" (player_stats three_players) = Some p /\ 0 < total_deaths p.
Proof.
  split; [exact three_players_wf|].
  assert (Hpost : webhook (fst (send_leaderboard "death" three_players))
            = webhook three_players ++ [DeathBoard [(0%nat, "Ann", 2); (1%nat, "Bob", 1)]])
    by reflexivity.
  split; [exact Hpost|]. split; [reflexivity|].
  destruct (boards_list_positive_metrics three_players three_players_wf)
    as (Hdeath & _).
  destruct (Hdeath _ Hpost) as (rows & Hrows & Hall).
  inversion Hrows. subst rows.
  destruct (Hall 1%nat "Bob" 1 (or_intror (or_introl eq_refl))) as (p & Hp & _ & Hpos).
  exists p. split; [exact Hp | exact Hpos].
Defined.

(** * The cursor, the handlers, the boards and the loop *)

(** ** The cursor over poll cycles *)

Lemma download_log_tail_content ftp F c s new_pos cmds :
  download_log_tail ftp F = (Some (String c s), new_pos, cmds) ->
  ftp_size ftp = Returns (Some new_pos) /\ new_pos <> F.
Proof.
  unfold download_log_tail.
  destruct (ftp_size ftp) as [[S|]|e]; try (intros H; inversion H; fail).
  destruct (S <? F) eqn:Elt.
  - destruct (S =? 0) eqn:E0; [intros H; inversion H|].
    destruct (ftp_retr ftp 0); intros H; inversion H; subst.
    split; auto. apply Z.ltb_lt in Elt. lia.
  - destruct (S =? F) eqn:E0; [intros H; inversion H|].
    destruct (ftp_retr ftp F); intros H; inversion H; subst.
    split; auto. now apply Z.eqb_neq in E0.
Qed.

Section CursorFacts.

Variable decode_line : string -> decoded.
Variable set_iter : gset string -> list string.

Lemma monitor_file_positions now ftp g :
  file_positions (monitor_discord_events_log decode_line set_iter now ftp g) =
  match download_log_tail ftp (default 0 (file_positions g !! DISCORD_LOG_PATH)) with
  | (Some (String _ _), new_pos, _) =>
      <[DISCORD_LOG_PATH := new_pos]> (file_positions g)
  | _ => file_positions g
  end.
Proof.
  unfold monitor_discord_events_log.
  destruct (download_log_tail ftp _) as [[[[|c s]|] new_pos] cmds]; auto.
  now rewrite process_lines_file_positions.
Qed.

(** X1. Nothing to read: when the server gives no size for the log, or a
    size equal to the stored offset, the tail read sends [SIZE] and no
    [RETR], returns the stored offset with null content (no size) or empty
    content (same size), and the poll cycle leaves the whole state as it
    was. *)
Theorem nothing_new_to_read (now : string) (ftp : ftp_server) (g : globals) :
  let F := default 0 (file_positions g !! DISCORD_LOG_PATH) in
  ftp_size ftp = Returns None \/ ftp_size ftp = Returns (Some F) ->
  download_log_tail ftp F =
    (match ftp_size ftp with Returns (Some _) => Some "" | _ => None end, F, [SIZE]) /\
  monitor_discord_events_log decode_line set_iter now ftp g = g.
Proof.
  intros F Hsize.
  assert (Hd : download_log_tail ftp F =
               (match ftp_size ftp with Returns (Some _) => Some "" | _ => None end,
                F, [SIZE])).
  { unfold download_log_tail. destruct Hsize as [-> | ->]; auto.
    rewrite Z.ltb_irrefl, Z.eqb_refl. reflexivity. }
  split; [exact Hd|].
  unfold monitor_discord_events_log. fold F. rewrite Hd.
  destruct Hsize as [-> | ->]; reflexivity.
Qed.

(** X2. After a poll cycle the cursor of the log is the one before, or it
    is the size the server reported, which then differs from the one
    before; it is lower than before only when that size was below it
    (rotation); and the cursors of other paths are never touched. *)
Theorem cursor_follows_the_size (now : string) (ftp : ftp_server) (g : globals) :
  let g' := monitor_discord_events_log decode_line set_iter now ftp g in
  let F := default 0 (file_positions g !! DISCORD_LOG_PATH) in
  let F' := default 0 (file_positions g' !! DISCORD_LOG_PATH) in
  (file_positions g' = file_positions g \/
   exists S, ftp_size ftp = Returns (Some S) /\ S <> F /\
             file_positions g' !! DISCORD_LOG_PATH = Some S) /\
  (F' < F -> exists S, ftp_size ftp = Returns (Some S) /\ S < F /\ F' = S) /\
  (forall path, path <> DISCORD_LOG_PATH ->
                file_positions g' !! path = file_positions g !! path).
Proof.
  intros g' F F'. subst g' F'. rewrite monitor_file_positions. fold F.
  destruct (download_log_tail ftp F) as [[[[|c s]|] new_pos] cmds] eqn:Hd;
    try (split; [now left|split; [lia|reflexivity]]).
  apply download_log_tail_content in Hd as [Hsize Hne].
  split; [|split].
  - right. exists new_pos. repeat split; auto. apply lookup_insert_eq.
  - rewrite lookup_insert_eq. simpl. intros Hlt.
    exists new_pos. repeat split; auto.
  - intros path Hne'. now rewrite lookup_insert_ne.
Qed.

(** X3. A second poll cycle against a server that has not changed does
    nothing: after any cycle, another cycle against the same sizes and
    contents returns the state it was given, cursor included. *)
Theorem second_cycle_reads_nothing (now now' : string) (ftp : ftp_server)
    (g : globals) :
  let g' := monitor_discord_events_log decode_line set_iter now ftp g in
  monitor_discord_events_log decode_line set_iter now' ftp g' = g'.
Proof.
  intros g'. unfold monitor_discord_events_log at 1.
  destruct (download_log_tail ftp (default 0 (file_positions g' !! DISCORD_LOG_PATH)))
    as [[[[|c s]|] new_pos] cmds] eqn:Hd'; auto.
  exfalso. subst g'. rewrite monitor_file_positions in Hd'.
  destruct (download_log_tail ftp (default 0 (file_positions g !! DISCORD_LOG_PATH)))
    as [[[[|c0 s0]|] new_pos0] cmds0] eqn:Hd;
    try (rewrite Hd in Hd'; inversion Hd'; fail).
  apply download_log_tail_content in Hd as [Hsize Hne].
  rewrite lookup_insert_eq in Hd'. simpl in Hd'.
  apply download_log_tail_content in Hd' as [Hsize' Hne'].
  rewrite Hsize in Hsize'. inversion Hsize'. congruence.
Qed.

End CursorFacts.

Lemma posts_only_refl g : posts_only g g.
Proof.
  unfold posts_only. do 5 (split; [reflexivity|]).
  exists []. split; [now rewrite app_nil_r | simpl; lia].
Qed.

Lemma posts_only_send e g : posts_only g (send_discord_notification e g).
Proof.
  unfold posts_only. do 5 (split; [reflexivity|]).
  exists [e]. split; [reflexivity | simpl; lia].
Qed.

Lemma send_leaderboard_posts_only t g : posts_only g (fst (send_leaderboard t g)).
Proof.
  unfold send_leaderboard.
  repeat break_match; simpl; auto using posts_only_refl, posts_only_send.
Qed.

Lemma handle_discord_event_other_kinds now ev g :
  is_subject_event ev = false ->
  posts_only g (fst (handle_discord_event now ev g)).
Proof.
  unfold is_subject_event, handle_discord_event. intros H.
  apply orb_false_elim in H as [H E4]. apply orb_false_elim in H as [H E3].
  apply orb_false_elim in H as [E1 E2]. rewrite E1, E2, E3, E4.
  destruct (String.eqb (e_type ev) "sunrise"); [apply posts_only_send|].
  destruct (String.eqb (e_type ev) "sunset"); [apply posts_only_send|].
  destruct (String.eqb (e_type ev) "daily_survivors").
  { unfold send_daily_survivor_report.
    repeat break_match; simpl; auto using posts_only_refl, posts_only_send. }
  destruct (String.eqb (e_type ev) "leaderboard_request");
    [apply send_leaderboard_posts_only | apply posts_only_refl].
Qed.

Lemma handle_discord_event_get_other (now : string) (ev : event) (g : globals)
    (u : string) :
  u <> d_username (e_data ev) ->
  od_get u (player_stats (fst (handle_discord_event now ev g)))
  = od_get u (player_stats g).
Proof.
  intros Hne.
  destruct (is_subject_event ev) eqn:Hk.
  - unfold is_subject_event in Hk. unfold handle_discord_event.
    destruct (String.eqb (e_type ev) "death");
      [now apply handle_death_event_get_other|].
    destruct (String.eqb (e_type ev) "level_up");
      [now apply handle_level_up_event_get_other|].
    destruct (String.eqb (e_type ev) "character_created");
      [now apply handle_spawn_event_get_other|].
    destruct (String.eqb (e_type ev) "login");
      [now apply handle_login_event_get_other|].
    simpl in Hk. inversion Hk.
  - destruct (handle_discord_event_other_kinds now ev g Hk) as (-> & _).
    reflexivity.
Qed.

(** X4. An event never touches the record of a subject other than the
    one it names: for every event and every other subject, the record
    after the event is the record before it (or still absent). *)
Theorem event_touches_its_subject_only (now : string) (ev : event) (g : globals)
    (u : string) :
  u <> d_username (e_data ev) ->
  od_get u (player_stats (fst (handle_discord_event now ev g)))
  = od_get u (player_stats g).
Proof.
  intros Hne.
  destruct (is_subject_event ev) eqn:Hk.
  - unfold is_subject_event in Hk. unfold handle_discord_event.
    destruct (String.eqb (e_type ev) "death");
      [now apply handle_death_event_get_other|].
    destruct (String.eqb (e_type ev) "level_up");
      [now apply handle_level_up_event_get_other|].
    destruct (String.eqb (e_type ev) "character_created");
      [now apply handle_spawn_event_get_other|].
    destruct (String.eqb (e_type ev) "login");
      [now apply handle_login_event_get_other|].
    simpl in Hk. inversion Hk.
  - destruct (handle_discord_event_other_kinds now ev g Hk) as (-> & _).
    reflexivity.
Qed.

(** X5. Only deaths, level-ups, character creations and logins write to
    the state: an event of any other type (sunrise, sunset, daily
    survivors, a leaderboard request, an unknown type) leaves the player
    records, the unsaved flag, the cursors and the dedup set as they
    were, and posts at most one message. *)
Theorem other_events_write_nothing (now : string) (ev : event) (g : globals) :
  is_subject_event ev = false ->
  let g' := fst (handle_discord_event now ev g) in
  player_stats g' = player_stats g /\
  unsaved_changes g' = unsaved_changes g /\
  file_positions g' = file_positions g /\
  last_events g' = last_events g /\
  exists posted, webhook g' = webhook g ++ posted /\ (List.length posted <= 1)%nat.
Proof.
  intros Hk g'. subst g'.
  destruct (handle_discord_event_other_kinds now ev g Hk)
    as (H1 & H2 & H3 & H4 & _ & H5).
  auto.
Qed.

(** ** What each handler leaves behind *)

Lemma init_player_frame username sid g :
  let g' := init_player username sid g in
  webhook g' = webhook g /\
  unsaved_changes g' = unsaved_changes g /\
  SKILL_NOTIFICATIONS g' = SKILL_NOTIFICATIONS g /\
  last_events g' = last_events g.
Proof. unfold init_player. now destruct (od_mem username (player_stats g)). Qed.

Lemma init_player_keys username sid g :
  od_keys (player_stats (init_player username sid g)) =
  if od_mem username (player_stats g) then od_keys (player_stats g)
  else od_keys (player_stats g) ++ [username].
Proof.
  unfold init_player. destruct (od_mem username (player_stats g)) eqn:E; auto.
  simpl. now rewrite od_keys_set, E.
Qed.

Lemma init_player_mem username sid g :
  od_mem username (player_stats (init_player username sid g)) = true.
Proof. unfold od_mem. now rewrite init_player_get_eq. Qed.

Lemma od_keys_set_mem {V : Type} (k : string) (v : V) (d : odict V) :
  od_mem k d = true -> od_keys (od_set k v d) = od_keys d.
Proof. intros H. now rewrite od_keys_set, H. Qed.

Lemma posts_if_length raised e : (List.length (posts_if raised e) <= 1)%nat.
Proof. destruct raised; simpl; lia. Qed.

Lemma handle_death_event_effect data g :
  let u := d_username data in
  let h := d_hours_survived data in
  let o := od_get u (player_stats g) in
  let r := handle_death_event data g in
  od_keys (player_stats (fst r))
    = od_keys (player_stats (init_player u (d_steam_id data) g)) /\
  match d_skills data with
  | Some sk =>
      snd r = death_rendered o h /\ unsaved_changes (fst r) = true /\
      webhook (fst r)
        = webhook g ++ posts_if (death_rendered o h)
                         (DeathEmbed u (deaths_view o + 1) h (fmax (longest_view o) h))
  | None =>
      snd r = Some ValueError /\ unsaved_changes (fst r) = unsaved_changes g /\
      webhook (fst r) = webhook g
  end.
Proof.
  intros u h o r. subst r.
  destruct (init_player_frame u (d_steam_id data) g) as (Hw & Hu & _).
  pose proof (init_player_mem u (d_steam_id data) g) as Hmem.
  unfold handle_death_event, send_death_notification, death_rendered. enter_handler.
  fold u h o.
  assert (Hl : longest_survival (lifetime_stats (default (new_player (d_steam_id data)) o))
               = longest_view o) by (destruct o; reflexivity).
  rewrite Hl. fold (fmax (longest_view o) h).
  destruct (d_skills data); simpl.
  - destruct (format_time h); simpl.
    + rewrite od_keys_set_mem by exact Hmem. rewrite Hw, app_nil_r. auto.
    + rewrite od_get_set_eq. simpl.
      destruct (format_time (fmax (longest_view o) h)); simpl;
        rewrite od_keys_set_mem by exact Hmem; rewrite Hw, ?app_nil_r; repeat split.
      destruct o; reflexivity.
  - rewrite od_keys_set_mem by exact Hmem. auto.
Qed.

Lemma handle_spawn_event_effect now data g :
  let u := d_username data in
  let o := od_get u (player_stats g) in
  let r := handle_spawn_event now data g in
  od_keys (player_stats (fst r))
    = od_keys (player_stats (init_player u (d_steam_id data) g)) /\
  snd r = respawn_rendered o /\ unsaved_changes (fst r) = true /\
  webhook (fst r)
    = webhook g ++ posts_if (respawn_rendered o)
                     (RespawnEmbed u
                        (match o with Some p => total_respawns p | None => 0 end + 1)
                        (deaths_view o)).
Proof.
  intros u o r. subst r.
  destruct (init_player_frame u (d_steam_id data) g) as (Hw & Hu & _).
  pose proof (init_player_mem u (d_steam_id data) g) as Hmem.
  unfold handle_spawn_event, send_respawn_notification, respawn_rendered. enter_handler.
  fold u o. rewrite od_get_set_eq. simpl.
  assert (Hd : total_deaths (default (new_player (d_steam_id data)) o) = deaths_view o)
    by (destruct o; reflexivity).
  assert (Hh : total_hours_survived (lifetime_stats (default (new_player (d_steam_id data)) o))
               = hours_view o) by (destruct o; reflexivity).
  rewrite Hd, Hh.
  destruct (if 0 <? deaths_view o then format_average (hours_view o) (deaths_view o) else None);
    simpl; rewrite od_keys_set_mem by exact Hmem; rewrite Hw, ?app_nil_r; repeat split.
  destruct o; reflexivity.
Qed.

Lemma handle_level_up_event_effect data g :
  let u := d_username data in
  let r := handle_level_up_event data g in
  let raised := if announces (SKILL_NOTIFICATIONS g) (d_level data)
                then format_time (d_hours_survived data) else None in
  od_keys (player_stats (fst r))
    = od_keys (player_stats (init_player u (d_steam_id data) g)) /\
  snd r = raised /\ unsaved_changes (fst r) = true /\
  webhook (fst r)
    = webhook g ++
      (if announces (SKILL_NOTIFICATIONS g) (d_level data)
       then posts_if raised
              (SkillEmbed u (d_skill data) (d_level data) (d_hours_survived data))
       else []).
Proof.
  intros u r raised. subst r raised.
  destruct (init_player_frame u (d_steam_id data) g) as (Hw & Hu & Hp & _).
  pose proof (init_player_mem u (d_steam_id data) g) as Hmem.
  unfold handle_level_up_event, send_skill_notification, announces. enter_handler.
  fold u. rewrite Hp, ?orb_false_r.
  destruct (String.eqb (SKILL_NOTIFICATIONS g) "all"); simpl.
  - destruct (format_time (d_hours_survived data)); simpl;
      rewrite od_keys_set_mem by exact Hmem; rewrite Hw, ?app_nil_r; auto.
  - destruct (String.eqb (SKILL_NOTIFICATIONS g) "milestones"); simpl.
    + destruct ((d_level data =? 5) || (d_level data =? 10)); simpl;
        [destruct (format_time (d_hours_survived data)); simpl|];
        rewrite od_keys_set_mem by exact Hmem; rewrite Hw, ?app_nil_r; auto.
    + rewrite od_keys_set_mem by exact Hmem. rewrite Hw, app_nil_r. auto.
Qed.

Lemma handle_login_event_effect data g :
  let u := d_username data in
  let r := handle_login_event data g in
  od_keys (player_stats (fst r))
    = od_keys (player_stats (init_player u (d_steam_id data) g)) /\
  webhook (fst r) = webhook g /\
  match d_skills data with
  | Some sk => snd r = format_time (d_hours_survived data) /\ unsaved_changes (fst r) = true
  | None => snd r = Some ValueError /\ unsaved_changes (fst r) = unsaved_changes g
  end.
Proof.
  intros u r. subst r.
  destruct (init_player_frame u (d_steam_id data) g) as (Hw & Hu & _).
  pose proof (init_player_mem u (d_steam_id data) g) as Hmem.
  unfold handle_login_event. enter_handler. fold u.
  destruct (d_skills data); simpl; auto.
  rewrite od_keys_set_mem by exact Hmem. auto.
Qed.

(** ** Records over a run of events *)

Lemma handle_discord_event_keys now ev g :
  od_keys (player_stats (fst (handle_discord_event now ev g))) =
  if is_subject_event ev && negb (od_mem (d_username (e_data ev)) (player_stats g))
  then od_keys (player_stats g) ++ [d_username (e_data ev)]
  else od_keys (player_stats g).
Proof.
  destruct (is_subject_event ev) eqn:Hk; simpl.
  - assert (Hinit : od_keys (player_stats
                       (init_player (d_username (e_data ev)) (d_steam_id (e_data ev)) g))
             = if negb (od_mem (d_username (e_data ev)) (player_stats g))
               then od_keys (player_stats g) ++ [d_username (e_data ev)]
               else od_keys (player_stats g)).
    { rewrite init_player_keys. now destruct (od_mem _ _). }
    rewrite <- Hinit. unfold is_subject_event in Hk. unfold handle_discord_event.
    destruct (String.eqb (e_type ev) "death");
      [apply handle_death_event_effect|].
    destruct (String.eqb (e_type ev) "level_up");
      [apply handle_level_up_event_effect|].
    destruct (String.eqb (e_type ev) "character_created");
      [apply handle_spawn_event_effect|].
    destruct (String.eqb (e_type ev) "login");
      [apply handle_login_event_effect|].
    simpl in Hk. inversion Hk.
  - now destruct (handle_discord_event_other_kinds now ev g Hk) as (-> & _).
Qed.

Lemma od_wf_snoc (keys : list string) (k : string) :
  List.NoDup keys -> ~ In k keys -> List.NoDup (keys ++ [k]).
Proof.
  intros Hnd Hni. apply List.NoDup_app; repeat split; auto.
  - constructor; [simpl; tauto | constructor].
  - intros x Hx [<-|[]]. contradiction.
Qed.

(** X6. Records are created on the first event that names a subject and
    are never deleted or reordered: over any run of events the dict keeps
    distinct keys, its keys before the run are a prefix of its keys after
    it, in the same order, and after the run every subject named by a
    death, level-up, character creation or login of the run has a
    record. *)
Theorem records_are_never_deleted (now : string) (evs : list event) (g : globals) :
  od_wf (player_stats g) ->
  let g' := run_events now evs g in
  od_wf (player_stats g') /\
  (exists added, od_keys (player_stats g') = od_keys (player_stats g) ++ added) /\
  (forall ev, In ev evs -> is_subject_event ev = true ->
              od_mem (d_username (e_data ev)) (player_stats g') = true).
Proof.
  revert g. induction evs as [|ev evs IH]; intros g Hwf; simpl.
  - repeat split; auto. exists []. now rewrite app_nil_r.
  - set (g1 := fst (handle_discord_event now ev g)).
    assert (Hkeys := handle_discord_event_keys now ev g). fold g1 in Hkeys.
    assert (Hwf1 : od_wf (player_stats g1)).
    { unfold od_wf in *. rewrite Hkeys.
      destruct (is_subject_event ev && negb (od_mem _ _)) eqn:E; auto.
      apply od_wf_snoc; auto.
      apply andb_true_iff in E as [_ E]. apply negb_true_iff in E.
      intros Hin. apply od_mem_keys in Hin. congruence. }
    destruct (IH g1 Hwf1) as (Hwf' & (added & Hadd) & Hsub).
    unfold run_events in *. simpl. fold g1.
    split; [exact Hwf'|]. split.
    + rewrite Hadd, Hkeys.
      destruct (is_subject_event ev && negb (od_mem _ _)).
      * exists ([d_username (e_data ev)] ++ added). now rewrite app_assoc.
      * now exists added.
    + intros ev' [<-|Hin] Hk; [|now apply Hsub].
      apply od_mem_keys. rewrite Hadd. apply in_or_app. left.
      rewrite Hkeys, Hk. simpl.
      destruct (od_mem (d_username (e_data ev)) (player_stats g)) eqn:E; simpl.
      * now apply od_mem_keys.
      * apply in_or_app. right. now left.
Qed.

(** X7. The unsaved flag: an event whose handler returns without an
    exception and has changed the player records leaves
    [unsaved_changes] set, and no event ever clears the flag. A death
    whose skills string does not parse is the other case: the record has
    one more death and the flag is as it was. *)
Theorem changes_are_flagged (now : string) (ev : event) (g : globals) :
  let r := handle_discord_event now ev g in
  (snd r = None -> player_stats (fst r) <> player_stats g ->
   unsaved_changes (fst r) = true) /\
  (unsaved_changes g = true -> unsaved_changes (fst r) = true) /\
  (e_type ev = "death" -> d_skills (e_data ev) = None ->
   snd r = Some ValueError /\
   unsaved_changes (fst r) = unsaved_changes g /\
   deaths_view (od_get (d_username (e_data ev)) (player_stats (fst r)))
   = deaths_view (od_get (d_username (e_data ev)) (player_stats g)) + 1).
Proof.
  intros r. subst r.
  destruct (is_subject_event ev) eqn:Hk.
  - unfold is_subject_event in Hk. unfold handle_discord_event.
    destruct (String.eqb_spec (e_type ev) "death") as [Ht|Ht].
    { destruct (handle_death_event_effect (e_data ev) g) as (_ & H).
      destruct (d_skills (e_data ev)) eqn:Hsk.
      - destruct H as (H1 & H2 & _). split; [auto|]. split; [auto|].
        intros _ Habs. inversion Habs.
      - destruct H as (H1 & H2 & _). rewrite H1, H2. split; [|split].
        + intros Habs. inversion Habs.
        + auto.
        + intros _ _. split; [reflexivity|]. split; [reflexivity|].
          now apply (handle_death_event_rejected (e_data ev) g). }
    destruct (String.eqb (e_type ev) "level_up").
    { destruct (handle_level_up_event_effect (e_data ev) g) as (_ & _ & H & _).
      split; [auto|]. split; [auto|]. intros Habs; contradiction. }
    destruct (String.eqb (e_type ev) "character_created").
    { destruct (handle_spawn_event_effect now (e_data ev) g) as (_ & _ & H & _).
      split; [auto|]. split; [auto|]. intros Habs; contradiction. }
    destruct (String.eqb (e_type ev) "login").
    { destruct (handle_login_event_effect (e_data ev) g) as (_ & _ & H).
      destruct (d_skills (e_data ev)); destruct H as (H1 & H2); rewrite H1, H2.
      - split; [auto|]. split; [auto|]. intros Habs; contradiction.
      - split; [intros Habs; inversion Habs|]. split; [auto|]. intros Habs; contradiction. }
    simpl in Hk. inversion Hk.
  - destruct (handle_discord_event_other_kinds now ev g Hk) as (Hps & Hu & _).
    rewrite Hps, Hu. split; [|split].
    + intros _ Habs. contradiction.
    + auto.
    + intros Ht. unfold is_subject_event in Hk. rewrite Ht in Hk. inversion Hk.
Qed.

(** X9. No event posts more than one message: whatever the type and the
    payload, the webhook after the event is the webhook before it with at
    most one message appended; a login posts none, and so does an event
    of a type the router does not know. *)
Theorem at_most_one_post_per_event (now : string) (ev : event) (g : globals) :
  exists posted,
    webhook (fst (handle_discord_event now ev g)) = webhook g ++ posted /\
    (List.length posted <= 1)%nat /\
    (e_type ev = "login" -> posted = []) /\
    (~ In (e_type ev)
         ["death"; "level_up"; "character_created"; "login"; "sunrise"; "sunset";
          "daily_survivors"; "leaderboard_request"] -> posted = []).
Proof.
  destruct (is_subject_event ev) eqn:Hk.
  - unfold is_subject_event in Hk. unfold handle_discord_event.
    destruct (String.eqb_spec (e_type ev) "death") as [Ht|Ht].
    { destruct (handle_death_event_effect (e_data ev) g) as (_ & H).
      destruct (d_skills (e_data ev)).
      - destruct H as (_ & _ & ->). eexists. split; [reflexivity|].
        split; [apply posts_if_length|]. split.
        + rewrite Ht. intros Habs. inversion Habs.
        + intros Hni. exfalso. apply Hni. now left.
      - destruct H as (_ & _ & ->). exists []. rewrite app_nil_r. repeat split; simpl; lia. }
    destruct (String.eqb_spec (e_type ev) "level_up") as [Ht2|Ht2].
    { destruct (handle_level_up_event_effect (e_data ev) g) as (_ & _ & _ & ->).
      eexists. split; [reflexivity|]. split; [|split].
      - destruct (announces _ _); [apply posts_if_length | simpl; lia].
      - rewrite Ht2. intros Habs. inversion Habs.
      - intros Hni. exfalso. apply Hni. right. now left. }
    destruct (String.eqb_spec (e_type ev) "character_created") as [Ht3|Ht3].
    { destruct (handle_spawn_event_effect now (e_data ev) g) as (_ & _ & _ & ->).
      eexists. split; [reflexivity|]. split; [apply posts_if_length|]. split.
      - rewrite Ht3. intros Habs. inversion Habs.
      - intros Hni. exfalso. apply Hni. right. right. now left. }
    destruct (String.eqb (e_type ev) "login").
    { destruct (handle_login_event_effect (e_data ev) g) as (_ & -> & _).
      exists []. rewrite app_nil_r. repeat split; simpl; lia. }
    simpl in Hk. inversion Hk.
  - destruct (handle_discord_event_other_kinds now ev g Hk)
      as (_ & _ & _ & _ & _ & (posted & Hw & Hlen)).
    exists posted. split; [exact Hw|]. split; [exact Hlen|]. split.
    + intros Ht. unfold is_subject_event in Hk. rewrite Ht in Hk. inversion Hk.
    + intros Hni.
      assert (Hg : fst (handle_discord_event now ev g) = g).
      { unfold handle_discord_event.
        repeat match goal with
        | |- context [String.eqb (e_type ev) ?s] =>
            let Heq := fresh "Heq" in
            destruct (String.eqb_spec (e_type ev) s) as [Heq|Heq];
            [exfalso; apply Hni; rewrite Heq; simpl; tauto|]
        end.
        reflexivity. }
      rewrite Hg in Hw. apply (f_equal (@List.length embed)) in Hw.
      rewrite length_app in Hw. destruct posted; auto. simpl in Hw. lia.
Qed.


Lemma handle_discord_event_deaths now ev g u :
  let o := od_get u (player_stats g) in
  let o' := od_get u (player_stats (fst (handle_discord_event now ev g))) in
  deaths_view o' = deaths_view o + (if is_death_of u ev then 1 else 0).
Proof.
  intros o o'. subst o o'. unfold is_death_of.
  destruct (String.eqb_spec (d_username (e_data ev)) u) as [<-|Hne].
  2: { rewrite handle_discord_event_get_other by congruence.
       rewrite andb_false_r. lia. }
  rewrite andb_true_r.
  destruct (is_subject_event ev) eqn:Hk.
  - unfold is_subject_event in Hk. unfold handle_discord_event.
    destruct (String.eqb_spec (e_type ev) "death") as [Ht|Ht].
    { unfold handle_death_event, send_death_notification.
      enter_handler.
      destruct (d_skills (e_data ev)); renders;
        destruct (od_get (d_username (e_data ev)) (player_stats g)); simpl; lia. }
    destruct (String.eqb_spec (e_type ev) "level_up") as [Ht2|Ht2].
    { unfold handle_level_up_event, send_skill_notification.
      enter_handler.
      repeat break_match; simpl; rewrite od_get_set_eq;
        destruct (od_get (d_username (e_data ev)) (player_stats g)); simpl; lia. }
    destruct (String.eqb (e_type ev) "character_created").
    { unfold handle_spawn_event, send_respawn_notification. enter_handler.
      renders; destruct (od_get (d_username (e_data ev)) (player_stats g)); simpl; lia. }
    destruct (String.eqb (e_type ev) "login").
    { unfold handle_login_event. enter_handler.
      destruct (d_skills (e_data ev)); simpl;
        rewrite ?od_get_set_eq, ?init_player_get_eq;
        destruct (od_get (d_username (e_data ev)) (player_stats g)); simpl; lia. }
    simpl in Hk. inversion Hk.
  - destruct (handle_discord_event_other_kinds now ev g Hk) as (-> & _).
    unfold is_subject_event in Hk.
    destruct (String.eqb (e_type ev) "death"); [|lia].
    simpl in Hk. inversion Hk.
Qed.

Lemma death_counts_of_app u l1 l2 :
  death_counts_of u (l1 ++ l2) = death_counts_of u l1 ++ death_counts_of u l2.
Proof. unfold death_counts_of. apply flat_map_app. Qed.

Lemma character_nums_of_app u l1 l2 :
  character_nums_of u (l1 ++ l2) = character_nums_of u l1 ++ character_nums_of u l2.
Proof. unfold character_nums_of. apply flat_map_app. Qed.

(** The messages of a leaderboard request are boards. *)
Lemma send_leaderboard_no_counts t g u :
  death_counts_of u (webhook (fst (send_leaderboard t g))) = death_counts_of u (webhook g) /\
  character_nums_of u (webhook (fst (send_leaderboard t g)))
  = character_nums_of u (webhook g).
Proof.
  unfold send_leaderboard.
  repeat break_match; simpl; rewrite ?death_counts_of_app, ?character_nums_of_app;
    simpl; rewrite ?app_nil_r; auto.
Qed.

Lemma handle_discord_event_posts now ev g u :
  let o := od_get u (player_stats g) in
  let g' := fst (handle_discord_event now ev g) in
  death_counts_of u (webhook g')
    = death_counts_of u (webhook g)
      ++ (if is_death_of u ev && death_announced o ev then [deaths_view o + 1] else []) /\
  character_nums_of u (webhook g')
    = character_nums_of u (webhook g)
      ++ (if is_respawn_of u ev && respawn_announced o then [respawns_view o + 1] else []).
Proof.
  intros o g'. subst o g'. unfold is_death_of, is_respawn_of.
  destruct (is_subject_event ev) eqn:Hk.
  - unfold is_subject_event in Hk. unfold handle_discord_event.
    destruct (String.eqb_spec (e_type ev) "death") as [Ht|Ht].
    { rewrite Ht. simpl.
      destruct (handle_death_event_effect (e_data ev) g) as (_ & H).
      unfold death_announced.
      destruct (d_skills (e_data ev)) eqn:Hsk.
      - destruct H as (_ & _ & ->).
        rewrite death_counts_of_app, character_nums_of_app.
        destruct (String.eqb_spec (d_username (e_data ev)) u) as [<-|Hne].
        + destruct (death_rendered _ _); simpl; rewrite ?String.eqb_refl, ?app_nil_r; auto.
        + apply String.eqb_neq in Hne.
          destruct (death_rendered _ _); simpl; rewrite ?Hne, ?app_nil_r; auto.
      - destruct H as (_ & _ & ->). rewrite andb_false_r, !app_nil_r. auto. }
    destruct (String.eqb_spec (e_type ev) "level_up") as [Ht2|Ht2].
    { rewrite Ht2. simpl.
      destruct (handle_level_up_event_effect (e_data ev) g) as (_ & _ & _ & ->).
      rewrite death_counts_of_app, character_nums_of_app.
      destruct (announces _ _); [destruct (format_time _)|]; simpl;
        rewrite ?app_nil_r; auto. }
    destruct (String.eqb (e_type ev) "character_created").
    { simpl.
      destruct (handle_spawn_event_effect now (e_data ev) g) as (_ & _ & _ & ->).
      rewrite death_counts_of_app, character_nums_of_app. unfold respawn_announced.
      destruct (String.eqb_spec (d_username (e_data ev)) u) as [<-|Hne].
      + destruct (respawn_rendered _); simpl; rewrite ?String.eqb_refl, ?app_nil_r; auto.
      + apply String.eqb_neq in Hne.
        destruct (respawn_rendered _); simpl; rewrite ?Hne, ?app_nil_r; auto. }
    destruct (String.eqb (e_type ev) "login").
    { simpl. destruct (handle_login_event_effect (e_data ev) g) as (_ & -> & _).
      rewrite ?app_nil_r. auto. }
    simpl in Hk. inversion Hk.
  - assert (E1 : String.eqb (e_type ev) "death" = false).
    { unfold is_subject_event in Hk. destruct (String.eqb (e_type ev) "death"); auto. }
    assert (E3 : String.eqb (e_type ev) "character_created" = false).
    { unfold is_subject_event in Hk.
      destruct (String.eqb (e_type ev) "character_created"); auto.
      rewrite !orb_true_r in Hk. simpl in Hk. inversion Hk. }
    rewrite E1, E3. simpl. rewrite !app_nil_r.
    unfold is_subject_event in Hk. unfold handle_discord_event.
    apply orb_false_elim in Hk as [Hk E4]. apply orb_false_elim in Hk as [Hk _].
    apply orb_false_elim in Hk as [_ E2]. rewrite E1, E2, E3, E4.
    destruct (String.eqb (e_type ev) "sunrise");
      [simpl; rewrite death_counts_of_app, character_nums_of_app; simpl;
       now rewrite !app_nil_r|].
    destruct (String.eqb (e_type ev) "sunset");
      [simpl; rewrite death_counts_of_app, character_nums_of_app; simpl;
       now rewrite !app_nil_r|].
    destruct (String.eqb (e_type ev) "daily_survivors").
    { unfold send_daily_survivor_report.
      repeat break_match; simpl; rewrite ?death_counts_of_app, ?character_nums_of_app;
        simpl; rewrite ?app_nil_r; auto. }
    destruct (String.eqb (e_type ev) "leaderboard_request"); [|auto].
    destruct (send_leaderboard_no_counts (d_type (e_data ev)) g u) as [H1 H2].
    auto.
Qed.

Lemma count_from_app a n : count_from a (S n) = count_from a n ++ [a + Z.of_nat (S n)].
Proof.
  revert a. induction n as [|n IH]; intros a.
  - simpl; f_equal; lia.
  - change (count_from a (S (S n))) with ((a + 1) :: count_from (a + 1) (S n)).
    rewrite IH.
    change (count_from a (S n)) with ((a + 1) :: count_from (a + 1) n).
    rewrite <- app_comm_cons. do 3 f_equal. rewrite !Nat2Z.inj_succ. lia.
Qed.

Lemma format_time_fmax a h :
  format_time a = None -> format_time h = None -> format_time (fmax a h) = None.
Proof. unfold fmax. now destruct (a <? h)%float. Qed.


(** X10. Deaths are counted and numbered: over any run of events from
    any state, the [total_deaths] of a subject grows by the number of its
    deaths in the run, whether their skills strings parse or not; the
    death messages posted for it carry death counts that follow the count
    before the run, in the order of the run, none of them twice and none
    out of order (a count is missing when the skills string did not parse
    or a rendering raised); and when the longest survival on record
    renders and every death of the subject in the run has a skills string
    that parses and hours that render, every count is there. *)
Theorem deaths_are_numbered (now : string) (evs : list event) (g : globals)
    (u : string) :
  let g' := run_events now evs g in
  let before := deaths_view (od_get u (player_stats g)) in
  let n := List.length (filter (is_death_of u) evs) in
  deaths_view (od_get u (player_stats g')) = before + Z.of_nat n /\
  exists posted,
    death_counts_of u (webhook g') = death_counts_of u (webhook g) ++ posted /\
    sublist posted (count_from before n) /\
    (format_time (longest_view (od_get u (player_stats g))) = None ->
     Forall (fun ev => is_death_of u ev = true ->
                       d_skills (e_data ev) <> None /\
                       format_time (d_hours_survived (e_data ev)) = None) evs ->
     posted = count_from before n).
Proof.
  revert g. induction evs as [|ev evs IH]; intros g; simpl.
  - split; [lia|]. exists []. rewrite app_nil_r.
    split; [reflexivity|]. split; [constructor | auto].
  - destruct (IH (fst (handle_discord_event now ev g)))
      as (Hr & posted1 & Hc & Hsub & Hex).
    clear IH. unfold run_events in *. simpl. rewrite Hr, Hc.
    rewrite handle_discord_event_deaths in *.
    destruct (handle_discord_event_posts now ev g u) as (-> & _).
    set (o := od_get u (player_stats g)) in *.
    set (o1 := od_get u (player_stats (fst (handle_discord_event now ev g)))) in *.
    destruct (is_death_of u ev) eqn:Ed; simpl.
    + split; [lia|].
      exists ((if death_announced o ev then [deaths_view o + 1] else []) ++ posted1).
      split; [now rewrite app_assoc|]. split.
      * destruct (death_announced o ev); simpl.
        -- now apply sublist_skip.
        -- now apply sublist_cons.
      * intros Hl Hall. apply Forall_cons_iff in Hall as [Hev Hall].
        destruct (Hev Ed) as [Hsk Hh].
        unfold is_death_of in Ed. apply andb_true_iff in Ed as [Et Eu].
        apply String.eqb_eq in Et, Eu.
        destruct (d_skills (e_data ev)) as [sk|] eqn:Esk; [|congruence].
        pose proof (handle_death_event_get_self (e_data ev) g sk Esk) as Hself.
        cbv zeta in Hself. rewrite Eu in Hself. fold o in Hself.
        assert (Ho1 : o1 = od_get u (player_stats (fst (handle_death_event (e_data ev) g)))).
        { subst o1. unfold handle_discord_event. now rewrite Et. }
        rewrite <- Ho1 in Hself. destruct Hself as (_ & _ & Hlongest & _).
        unfold death_announced, death_rendered. rewrite Esk, Hh.
        rewrite (format_time_fmax _ _ Hl Hh). simpl. f_equal.
        apply Hex; [|exact Hall]. rewrite Hlongest. now apply format_time_fmax.
    + rewrite Z.add_0_r in *. split; [lia|].
      exists posted1. rewrite app_nil_r. split; [reflexivity|]. split; [exact Hsub|].
      intros Hl Hall. apply Forall_cons_iff in Hall as [_ Hall].
      apply Hex; [|exact Hall].
      assert (Hsame : longest_view o1 = longest_view o).
      { subst o o1.
        destruct (String.eqb_spec (e_type ev) "death") as [Et|Et].
        - unfold is_death_of in Ed. rewrite Et in Ed. simpl in Ed.
          apply String.eqb_neq in Ed.
          rewrite handle_discord_event_get_other by congruence. reflexivity.
        - assert (Hacc : accepted_death ev) by (intros Habs; contradiction).
          pose proof (handle_discord_event_lifetime now ev g u Hacc) as Hstep.
          cbv zeta in Hstep. rewrite Ed in Hstep. now destruct Hstep as (_ & _ & ->). }
      now rewrite Hsame.
Qed.

Lemma handle_discord_event_alive now ev g u :
  alive_view (od_get u (player_stats (fst (handle_discord_event now ev g))))
  = life_step u (alive_view (od_get u (player_stats g))) ev.
Proof.
  unfold life_step.
  destruct (String.eqb_spec (d_username (e_data ev)) u) as [<-|Hne]; simpl.
  2: { now rewrite handle_discord_event_get_other by congruence. }
  destruct (is_subject_event ev) eqn:Hk.
  - unfold is_subject_event in Hk. unfold handle_discord_event.
    destruct (String.eqb_spec (e_type ev) "death") as [Ht|Ht].
    { unfold handle_death_event, send_death_notification. enter_handler.
      destruct (d_skills (e_data ev)); renders; reflexivity. }
    destruct (String.eqb_spec (e_type ev) "level_up") as [Ht2|Ht2].
    { rewrite Ht2. simpl. unfold handle_level_up_event, send_skill_notification.
      enter_handler.
      repeat break_match; simpl; rewrite od_get_set_eq;
        destruct (od_get (d_username (e_data ev)) (player_stats g)); reflexivity. }
    destruct (String.eqb (e_type ev) "character_created").
    { unfold handle_spawn_event, send_respawn_notification. enter_handler.
      renders; reflexivity. }
    destruct (String.eqb (e_type ev) "login").
    { unfold handle_login_event. enter_handler.
      destruct (d_skills (e_data ev)); simpl;
        rewrite ?od_get_set_eq, ?init_player_get_eq; auto.
      destruct (od_get (d_username (e_data ev)) (player_stats g)); reflexivity. }
    simpl in Hk. inversion Hk.
  - destruct (handle_discord_event_other_kinds now ev g Hk) as (-> & _).
    unfold is_subject_event in Hk.
    apply orb_false_elim in Hk as [Hk E4]. apply orb_false_elim in Hk as [Hk E3].
    apply orb_false_elim in Hk as [E1 E2]. now rewrite E1, E3, E4.
Qed.

(** X12. Life status over a run: after any run of events from any state,
    the [alive] flag of a subject is what its last death, character
    creation or parsed login in the run made it (dead after a death,
    alive after the other two), and what it was before the run when the
    run has none; level-ups, and logins whose skills string does not
    parse, do not change it. A subject first seen in a level-up has a
    record that is not alive. *)
Theorem life_status_follows_last_event (now : string) (evs : list event)
    (g : globals) (u : string) :
  alive_view (od_get u (player_stats (run_events now evs g)))
  = fold_left (life_step u) evs (alive_view (od_get u (player_stats g))) /\
  (forall data,
     od_get (d_username data) (player_stats g) = None ->
     alive_view (od_get (d_username data)
                   (player_stats (fst (handle_level_up_event data g)))) = false /\
     od_mem (d_username data) (player_stats (fst (handle_level_up_event data g))) = true).
Proof.
  split.
  - revert g. induction evs as [|ev evs IH]; intros g; simpl; auto.
    unfold run_events in *. simpl. rewrite IH.
    now rewrite handle_discord_event_alive.
  - intros data Hnone. split.
    + unfold handle_level_up_event, send_skill_notification. enter_handler.
      rewrite Hnone.
      repeat break_match; simpl; now rewrite od_get_set_eq.
    + apply od_mem_keys.
      destruct (handle_level_up_event_effect data g) as (-> & _).
      apply od_mem_keys, init_player_mem.
Qed.

(** X11. A level-up writes the level of the event into the live skill map
    of the subject's current character, whether it is higher or lower
    than the level that was there, sets the character's hours to those of
    the event, and leaves every other live skill as it was. It is to be
    announced exactly when the policy is "all", or the policy is
    "milestones" and the level is 5 or 10: then one message is posted if
    the hours of the event render, and if they do not (infinite or nan
    hours) the handler raises [ValueError] after its writes and nothing is
    posted. Under "none", or any other policy string, nothing is posted
    and nothing is raised. *)
Theorem level_up_sets_live_level (now : string) (ev : event) (g : globals) :
  e_type ev = "level_up" ->
  let data := e_data ev in
  let u := d_username data in
  let o := od_get u (player_stats g) in
  let g' := fst (handle_discord_event now ev g) in
  let o' := od_get u (player_stats g') in
  live_level (d_skill data) o' = Some (d_level data) /\
  (forall s, s <> d_skill data -> live_level s o' = live_level s o) /\
  (exists p', o' = Some p' /\
              hours_survived (current_character p') = d_hours_survived data) /\
  (if String.eqb (SKILL_NOTIFICATIONS g) "all"
      || (String.eqb (SKILL_NOTIFICATIONS g) "milestones"
          && ((d_level data =? 5) || (d_level data =? 10)))
   then match format_time (d_hours_survived data) with
        | None =>
            snd (handle_discord_event now ev g) = None /\
            webhook g' = webhook g
              ++ [SkillEmbed u (d_skill data) (d_level data) (d_hours_survived data)]
        | Some e =>
            snd (handle_discord_event now ev g) = Some ValueError /\
            webhook g' = webhook g
        end
   else snd (handle_discord_event now ev g) = None /\ webhook g' = webhook g).
Proof.
  intros Ht data u o g' o'. subst g' o'.
  unfold handle_discord_event. rewrite Ht. simpl.
  split; [|split; [|split]].
  - unfold handle_level_up_event, send_skill_notification. enter_handler.
    repeat break_match; simpl; rewrite od_get_set_eq; simpl; apply lookup_insert_eq.
  - intros s Hne.
    unfold handle_level_up_event, send_skill_notification. enter_handler. fold data u o.
    repeat break_match; simpl; rewrite od_get_set_eq; simpl;
      rewrite lookup_insert_ne by congruence; destruct o; reflexivity.
  - unfold handle_level_up_event, send_skill_notification. enter_handler.
    repeat break_match; simpl; rewrite od_get_set_eq; eexists; split; reflexivity.
  - destruct (handle_level_up_event_effect data g) as (_ & Hr & _ & H).
    cbv zeta in Hr, H. unfold announces in Hr, H.
    subst data u. rewrite Hr, H.
    destruct (String.eqb (SKILL_NOTIFICATIONS g) "all"
              || (String.eqb (SKILL_NOTIFICATIONS g) "milestones"
                  && ((d_level (e_data ev) =? 5) || (d_level (e_data ev) =? 10)))).
    + unfold format_time.
      destruct (is_nan (d_hours_survived (e_data ev))
                || is_infinity (d_hours_survived (e_data ev)));
        simpl; rewrite ?app_nil_r; auto.
    + now rewrite app_nil_r.
Qed.

(** ** The order of a ranking *)

Section SortedItems.

Context {A : Type} (lt : A -> A -> bool).

Lemma insert_desc_perm x l : Permutation (insert_desc lt x l) (x :: l).
Proof.
  induction l as [|y l IH]; simpl; auto.
  destruct (lt x y); auto.
  rewrite IH. apply perm_swap.
Qed.

Lemma sorted_desc_perm l : Permutation (sorted_desc lt l) l.
Proof.
  induction l as [|x l IH]; simpl; auto.
  now rewrite insert_desc_perm, IH.
Qed.

Lemma sorted_desc_length l : List.length (sorted_desc lt l) = List.length l.
Proof. apply Permutation_length, sorted_desc_perm. Qed.

End SortedItems.

Section SortedByKey.

Context {A : Type} (key : A -> Z).

Local Abbreviation ltk := (fun x y : A => key x <? key y).
Local Abbreviation above := (fun x y : A => key y <= key x).

Lemma insert_desc_sorted x l :
  StronglySorted above l -> StronglySorted above (insert_desc ltk x l).
Proof.
  induction 1 as [|y l Hs IH Hall]; simpl.
  - repeat constructor.
  - destruct (key x <? key y) eqn:E.
    + constructor; auto.
      apply Forall_forall. intros z Hz. apply insert_desc_In in Hz as [->|Hz].
      * apply Z.ltb_lt in E. lia.
      * rewrite Forall_forall in Hall. auto.
    + apply Z.ltb_ge in E. constructor.
      * now constructor.
      * constructor; [exact E|].
        apply Forall_forall. intros z Hz. rewrite Forall_forall in Hall.
        specialize (Hall z Hz). simpl in Hall. lia.
Qed.

Lemma sorted_desc_sorted l : StronglySorted above (sorted_desc ltk l).
Proof.
  induction l as [|x l IH]; simpl; [constructor|].
  now apply insert_desc_sorted.
Qed.

(** Stability: the items with a given key keep their order. *)
Lemma insert_desc_stable k x l :
  StronglySorted above l ->
  filter (fun y => key y =? k) (insert_desc ltk x l)
  = filter (fun y => key y =? k) (x :: l).
Proof.
  induction 1 as [|y l Hs IH Hall]; auto.
  simpl. destruct (key x <? key y) eqn:E; auto.
  simpl. rewrite IH. simpl.
  apply Z.ltb_lt in E.
  destruct (key x =? k) eqn:Ex; auto.
  apply Z.eqb_eq in Ex.
  destruct (key y =? k) eqn:Ey; auto.
  apply Z.eqb_eq in Ey. lia.
Qed.

Lemma sorted_desc_stable k l :
  filter (fun y => key y =? k) (sorted_desc ltk l) = filter (fun y => key y =? k) l.
Proof.
  induction l as [|x l IH]; auto.
  simpl. rewrite insert_desc_stable by apply sorted_desc_sorted.
  simpl. now rewrite IH.
Qed.

Lemma firstn_sorted n l : StronglySorted above l -> StronglySorted above (firstn n l).
Proof.
  intros Hs. revert n. induction Hs as [|y l Hs IH Hall]; intros [|n]; simpl;
    try constructor; auto.
  apply Forall_forall. intros z Hz. apply firstn_In in Hz.
  rewrite Forall_forall in Hall. auto.
Qed.

Lemma skipn_below_firstn n l x y :
  StronglySorted above l -> In x (firstn n l) -> In y (skipn n l) -> key y <= key x.
Proof.
  intros Hs. revert n. induction Hs as [|z l Hs IH Hall]; intros [|n]; simpl;
    try tauto.
  intros [<-|Hx] Hy.
  - rewrite Forall_forall in Hall. apply Hall.
    rewrite <- (firstn_skipn n l). apply in_or_app. now right.
  - eauto.
Qed.

End SortedByKey.

(** ** The boards *)

Lemma enumerate_fst {A : Type} (l : list A) :
  map fst (enumerate l) = seq 0 (List.length l).
Proof.
  unfold enumerate. generalize 0%nat as start.
  induction l as [|x l IH]; intros start; simpl; auto.
  now rewrite IH.
Qed.

Lemma enumerate_snd {A : Type} (l : list A) : map snd (enumerate l) = l.
Proof.
  unfold enumerate. generalize 0%nat as start.
  induction l as [|x l IH]; intros start; simpl; auto.
  now rewrite IH.
Qed.

Lemma enumerate_length {A : Type} (l : list A) :
  List.length (enumerate l) = List.length l.
Proof. rewrite <- (length_map fst), enumerate_fst. apply length_seq. Qed.

Lemma In_enumerate {A : Type} (l : list A) (x : A) :
  In x l -> exists i, In (i, x) (enumerate l).
Proof.
  unfold enumerate. generalize 0%nat as start.
  induction l as [|y l IH]; intros start; simpl; [tauto|].
  intros [->|H]; [eauto|].
  destruct (IH (S start) H) as [i Hi]. eauto.
Qed.

Lemma StronglySorted_map {A B : Type} (f : A -> B) (R : B -> B -> Prop) l :
  StronglySorted (fun x y => R (f x) (f y)) l -> StronglySorted R (map f l).
Proof.
  induction 1 as [|x l Hs IH Hall]; simpl; constructor; auto.
  apply Forall_forall. intros y Hy. apply in_map_iff in Hy as (z & <- & Hz).
  rewrite Forall_forall in Hall. auto.
Qed.

Lemma filter_firstn_prefix {A : Type} (f : A -> bool) n l :
  filter f l = filter f (firstn n l) ++ filter f (skipn n l).
Proof. now rewrite <- filter_app, firstn_skipn. Qed.

Lemma send_leaderboard_death g e :
  webhook (fst (send_leaderboard "death" g)) = webhook g ++ [e] ->
  e = DeathBoard (death_rows (player_stats g)).
Proof.
  unfold send_leaderboard, death_rows.
  change (String.eqb "death" "death") with true. cbv iota.
  destruct (player_stats g) as [|kv ps] eqn:Eps.
  { intros H. now apply not_appended in H. }
  rewrite <- Eps. clear Eps kv ps.
  destruct (death_ranking (player_stats g)) as [|r0 rs] eqn:Er.
  { intros H. now apply not_appended in H. }
  rewrite <- Er.
  destruct (death_averages (death_ranking (player_stats g))).
  { intros H. now apply not_appended in H. }
  intros H. now apply appended_inv in H.
Qed.

Lemma death_rows_counts ps :
  map snd (death_rows ps) = map (fun x => total_deaths (snd x)) (death_ranking ps).
Proof.
  unfold death_rows. rewrite <- (enumerate_snd (death_ranking ps)) at 2.
  rewrite !map_map. apply map_ext. now intros [i [name data]].
Qed.

Lemma death_rows_ranks ps :
  map (fun r => fst (fst r)) (death_rows ps) = seq 0 (List.length (death_rows ps)).
Proof.
  unfold death_rows. rewrite length_map, enumerate_length.
  rewrite <- enumerate_fst, map_map. apply map_ext. now intros [i [name data]].
Qed.

Lemma death_rows_names ps :
  map (fun r => snd (fst r)) (death_rows ps) = map fst (death_ranking ps).
Proof.
  unfold death_rows. rewrite <- (enumerate_snd (death_ranking ps)) at 2.
  rewrite !map_map. apply map_ext. now intros [i [name data]].
Qed.

(** X13. The "death" board is a top ten: what the request posts is a
    board of at most ten rows, numbered from 0 in order, with death
    counts that do not increase down the rows; and a subject with a
    positive death count either has a row with that count or has no more
    deaths than any subject on the board. *)
Theorem death_board_is_a_top_ten (g : globals) (e : embed) :
  webhook (fst (send_leaderboard "death" g)) = webhook g ++ [e] ->
  exists rows,
    e = DeathBoard rows /\
    (List.length rows <= 10)%nat /\
    map (fun r => fst (fst r)) rows = seq 0 (List.length rows) /\
    StronglySorted (fun v w => w <= v) (map snd rows) /\
    forall name p,
      od_get name (player_stats g) = Some p ->
      0 < total_deaths p ->
      (exists i, In (i, name, total_deaths p) rows) \/
      Forall (fun r => total_deaths p <= snd r) rows.
Proof.
  intros Hpost. apply send_leaderboard_death in Hpost.
  exists (death_rows (player_stats g)). split; [exact Hpost|].
  set (key := fun x : string * player => total_deaths (snd x)).
  set (positive := filter (fun x : string * player => 0 <? total_deaths (snd x))
                     (player_stats g)).
  set (sorted := sorted_desc (fun x y => total_deaths (snd x) <? total_deaths (snd y))
                   positive).
  assert (Hsorted : StronglySorted (fun x y => key y <= key x) sorted)
    by apply (sorted_desc_sorted key).
  split; [|split; [|split]].
  - unfold death_rows. rewrite length_map, enumerate_length.
    unfold death_ranking. apply firstn_le_length.
  - apply death_rows_ranks.
  - rewrite death_rows_counts. apply StronglySorted_map.
    unfold death_ranking. now apply (firstn_sorted key).
  - intros name p Hp Hpos.
    assert (Hin : In (name, p) sorted).
    { apply sorted_desc_In. apply filter_In. split.
      - now apply od_get_In.
      - now apply Z.ltb_lt. }
    rewrite <- (firstn_skipn 10 sorted) in Hin.
    apply in_app_or in Hin as [Hin|Hin].
    + left. change (firstn 10 sorted) with (death_ranking (player_stats g)) in Hin.
      apply In_enumerate in Hin as [i Hi].
      exists i. unfold death_rows.
      apply in_map_iff. now exists (i, (name, p)).
    + right. apply Forall_forall. intros [[i n] v] Hr.
      unfold death_rows in Hr.
      apply in_map_iff in Hr as ([i' [n' p']] & Heq & Hr).
      inversion Heq. subst. apply enumerate_In in Hr.
      apply (skipn_below_firstn key 10 sorted (n, p') (name, p) Hsorted Hr Hin).
Qed.

(** X14. Ties on the "death" board keep dict order: for any death count
    above zero, the names the board shows with that count are, in order,
    the first of the names with that count in the order of the dict
    (first recorded first); the cut to ten rows drops the later ones. *)
Theorem death_board_ties_in_dict_order (g : globals) (e : embed) (k : Z) :
  0 < k ->
  webhook (fst (send_leaderboard "death" g)) = webhook g ++ [e] ->
  exists rows rest,
    e = DeathBoard rows /\
    map fst (filter (fun x => total_deaths (snd x) =? k) (player_stats g))
    = map (fun r => snd (fst r)) (filter (fun r => snd r =? k) rows) ++ rest.
Proof.
  intros Hk Hpost. apply send_leaderboard_death in Hpost.
  set (key := fun x : string * player => total_deaths (snd x)).
  set (positive := filter (fun x : string * player => 0 <? total_deaths (snd x))
                     (player_stats g)).
  set (sorted := sorted_desc (fun x y => total_deaths (snd x) <? total_deaths (snd y))
                   positive).
  exists (death_rows (player_stats g)),
    (map fst (filter (fun x => key x =? k) (skipn 10 sorted))).
  split; [exact Hpost|].
  assert (Hrows : map (fun r : nat * string * Z => snd (fst r))
                    (filter (fun r => snd r =? k) (death_rows (player_stats g)))
                  = map fst (filter (fun x => key x =? k) (firstn 10 sorted))).
  { change (firstn 10 sorted) with (death_ranking (player_stats g)).
    unfold death_rows.
    rewrite <- (enumerate_snd (death_ranking (player_stats g))) at 2.
    induction (enumerate (death_ranking (player_stats g))) as [|[i [n p]] l IH];
      simpl; auto.
    unfold key at 1. simpl. destruct (total_deaths p =? k); simpl; now rewrite IH. }
  rewrite Hrows, <- map_app, <- filter_firstn_prefix.
  unfold sorted. rewrite (sorted_desc_stable key). unfold positive.
  f_equal. clear - Hk. induction (player_stats g) as [|x l IH]; simpl; auto.
  unfold key. destruct (0 <? total_deaths (snd x)) eqn:E0; simpl.
  - destruct (total_deaths (snd x) =? k); now rewrite IH.
  - destruct (total_deaths (snd x) =? k) eqn:Ek; auto.
    apply Z.eqb_eq in Ek. apply Z.ltb_ge in E0. lia.
Qed.

Lemma players_with_skill_names skill_name ps :
  exists keep : string * player -> bool,
    map fst (players_with_skill skill_name ps) = map fst (filter keep ps).
Proof.
  exists (fun x =>
    let c := current_character (snd x) in
    if alive c then 0 <? get0 (skills c) skill_name
    else 0 <? get0 (skill_milestones (lifetime_stats (snd x))) skill_name).
  unfold players_with_skill.
  induction ps as [|[name data] ps IH]; simpl; auto.
  rewrite map_app, IH.
  destruct (alive (current_character data)); simpl.
  - rewrite andb_false_r.
    destruct (0 <? get0 (skills (current_character data)) skill_name); reflexivity.
  - rewrite andb_true_r.
    destruct (0 <? get0 (skill_milestones (lifetime_stats data)) skill_name);
      reflexivity.
Qed.

Lemma NoDup_map_filter {A B : Type} (f : A -> B) (keep : A -> bool) l :
  List.NoDup (map f l) -> List.NoDup (map f (filter keep l)).
Proof.
  induction l as [|x l IH]; simpl; auto.
  intros H. apply List.NoDup_cons_iff in H as [Hx Hl].
  destruct (keep x); simpl; auto.
  constructor; auto.
  intros Hin. apply Hx. apply in_map_iff in Hin as (y & Hy & Hin).
  apply filter_In in Hin as [Hin _]. apply in_map_iff. eauto.
Qed.

Lemma NoDup_firstn_of {A : Type} n (l : list A) :
  List.NoDup l -> List.NoDup (firstn n l).
Proof.
  intros H. rewrite <- (firstn_skipn n l) in H.
  now apply List.NoDup_app_remove_r in H.
Qed.

Lemma skill_rows_split (rows : list (nat * (string * Z))) :
  map (fun r : nat * string * Z => snd (fst r))
    (map (fun '(i, (name, level)) => (i, name, level)) rows)
  = map fst (map snd rows) /\
  map snd (map (fun '(i, (name, level)) => (i, name, level)) rows)
  = map snd (map snd rows).
Proof. split; rewrite !map_map; apply map_ext; now intros [i [n v]]. Qed.

(** X15. A skill board has one row per subject: what a request of type
    "skill_..." posts has at most ten rows, numbered from 0, with levels
    that do not increase down the rows, and no name on two rows. *)
Theorem skill_board_one_row_per_subject
    (g : globals) (leaderboard_type : string) (e : embed) :
  od_wf (player_stats g) ->
  String.prefix "skill_" leaderboard_type = true ->
  webhook (fst (send_leaderboard leaderboard_type g)) = webhook g ++ [e] ->
  exists rows,
    e = SkillBoard (remove_all "skill_" leaderboard_type) rows /\
    (List.length rows <= 10)%nat /\
    map (fun r => fst (fst r)) rows = seq 0 (List.length rows) /\
    StronglySorted (fun v w => w <= v) (map snd rows) /\
    List.NoDup (map (fun r => snd (fst r)) rows).
Proof.
  intros Hwf Hpre. destruct (skill_type_dispatch _ Hpre) as (E1 & E2 & E3).
  unfold send_leaderboard. rewrite E1, E2, E3, Hpre.
  set (skill_name := remove_all "skill_" leaderboard_type).
  destruct (player_stats g) as [|kv ps] eqn:Eps.
  { intros H. now apply not_appended in H. }
  rewrite <- Eps in *. clear Eps kv ps.
  destruct (players_with_skill skill_name (player_stats g)) as [|row0 rows0] eqn:Ew.
  { intros H. now apply not_appended in H. }
  clear Ew row0 rows0.
  intros H. apply appended_inv in H. subst e.
  eexists. split; [reflexivity|].
  set (ranking := skill_ranking skill_name (player_stats g)).
  destruct (skill_rows_split (enumerate ranking)) as [Hnames Hlevels].
  rewrite enumerate_snd in Hnames, Hlevels.
  rewrite length_map, enumerate_length.
  split; [|split; [|split]].
  - unfold ranking, skill_ranking. apply firstn_le_length.
  - rewrite <- enumerate_fst, map_map. apply map_ext. now intros [i [n v]].
  - rewrite Hlevels. apply StronglySorted_map.
    unfold ranking, skill_ranking.
    apply (firstn_sorted (fun x : string * Z => snd x)).
    apply (sorted_desc_sorted (fun x : string * Z => snd x)).
  - rewrite Hnames. unfold ranking, skill_ranking.
    rewrite <- firstn_map. apply NoDup_firstn_of.
    eapply Permutation_NoDup.
    { apply Permutation_map. symmetry. apply sorted_desc_perm. }
    destruct (players_with_skill_names skill_name (player_stats g)) as [keep ->].
    apply NoDup_map_filter. exact Hwf.
Qed.

Lemma first_raised_none (l : list (option exn)) :
  Forall (fun r => r = None) l -> first_raised l = None.
Proof. induction 1 as [|r l Hr Hl IH]; simpl; auto. now rewrite Hr. Qed.

Lemma first_raised_format_time {A : Type} (hours : A -> float) (l : list A) :
  Exists (fun x => format_time (hours x) <> None) l ->
  first_raised (map (fun x => format_time (hours x)) l) = Some ValueError.
Proof.
  induction l as [|x l IH]; intros H; [inversion H|].
  simpl. unfold format_time at 1.
  destruct (is_nan (hours x) || is_infinity (hours x)) eqn:E; [reflexivity|].
  apply IH. inversion H as [? ? Hx|]; subst; auto.
  exfalso. apply Hx. unfold format_time. now rewrite E.
Qed.

(** X16. The dawn report counts everyone and lists at most fifteen: for a
    non-empty list of survivors whose hours all render, one embed is
    posted and nothing is raised; its total is the number of survivors
    received, its rows are numbered from 0 and are fifteen or all of them,
    whichever is fewer, and rows and the survivors left out are together a
    rearrangement of the list received. When the list has at most fifteen
    survivors and the hours of one of them do not render (infinite or
    nan), the call raises [ValueError] and posts nothing. *)
Theorem dawn_report_counts_everyone (data : event_data) (g : globals) :
  d_survivors data <> [] ->
  (Forall (fun s => format_time (s_hours s) = None) (d_survivors data) ->
   exists rows rest,
     send_daily_survivor_report data g
     = (send_discord_notification
          (DailyReportEmbed (d_game_day data) rows (List.length (d_survivors data))) g,
        None) /\
     List.length rows = Nat.min 15 (List.length (d_survivors data)) /\
     map fst rows = seq 0 (List.length rows) /\
     Permutation (map snd rows ++ rest) (d_survivors data)) /\
  ((List.length (d_survivors data) <= 15)%nat ->
   Exists (fun s => format_time (s_hours s) <> None) (d_survivors data) ->
   send_daily_survivor_report data g = (g, Some ValueError)).
Proof.
  intros Hne. unfold send_daily_survivor_report.
  destruct (d_survivors data) as [|s0 ss] eqn:Es; [congruence|].
  rewrite <- Es. clear Hne Es s0 ss.
  set (survivors := sorted_desc (fun x y => (s_hours x <? s_hours y)%float)
                      (d_survivors data)).
  assert (Hlen : List.length survivors = List.length (d_survivors data))
    by apply sorted_desc_length.
  split.
  - intros Hall.
    exists (enumerate (firstn 15 survivors)), (skipn 15 survivors).
    rewrite first_raised_none.
    + split; [|split; [|split]].
      * now rewrite Hlen.
      * now rewrite enumerate_length, length_firstn, Hlen.
      * rewrite enumerate_length. apply enumerate_fst.
      * rewrite enumerate_snd, firstn_skipn. apply sorted_desc_perm.
    + apply Forall_forall. intros r Hr.
      apply in_map_iff in Hr as (s & <- & Hs).
      apply firstn_In, sorted_desc_In in Hs.
      rewrite Forall_forall in Hall. now apply Hall.
  - intros Hfew Hex.
    rewrite firstn_all2 by lia.
    rewrite (first_raised_format_time s_hours); [reflexivity|].
    apply Exists_exists in Hex as (s & Hs & Hr).
    apply Exists_exists. exists s. split; [|exact Hr].
    apply (Permutation_in s (Permutation_sym (sorted_desc_perm _ (d_survivors data)))).
    exact Hs.
Qed.

(** ** Rendering of a death count *)

(** X17. The suffix of [get_death_ordinal] is the English one: "st",
    "nd", "rd" for a count that ends in 1, 2, 3 but not in 11, 12, 13,
    and "th" for every other count. *)
Theorem ordinal_suffix_english (count : Z) :
  get_death_ordinal count =
    String.append (str_of_int count)
      (if (count mod 10 =? 1) && negb (count mod 100 =? 11) then "st"
       else if (count mod 10 =? 2) && negb (count mod 100 =? 12) then "nd"
       else if (count mod 10 =? 3) && negb (count mod 100 =? 13) then "rd"
       else "th").
Proof.
  unfold get_death_ordinal. f_equal.
  unfold ordinal_suffix.
  assert (Hm : count mod 10 = (count mod 100) mod 10).
  { Z.div_mod_to_equations. lia. }
  assert (Hr : 0 <= count mod 100 < 100) by (apply Z.mod_pos_bound; lia).
  revert Hm Hr. generalize (count mod 100) as r. generalize (count mod 10) as d.
  intros d r -> Hr.
  assert (Hd : 0 <= r mod 10 < 10) by (apply Z.mod_pos_bound; lia).
  destruct (10 <=? r) eqn:E1; destruct (r <=? 20) eqn:E2; simpl;
    repeat match goal with
    | |- context [?a =? ?b] =>
        let E := fresh "E" in destruct (a =? b) eqn:E; simpl
    end;
    try reflexivity; exfalso;
    repeat match goal with
    | H : (_ <=? _) = true |- _ => apply Z.leb_le in H
    | H : (_ <=? _) = false |- _ => apply Z.leb_gt in H
    | H : (_ =? _) = true |- _ => apply Z.eqb_eq in H
    | H : (_ =? _) = false |- _ => apply Z.eqb_neq in H
    end;
    revert Hd; Z.div_mod_to_equations; lia.
Qed.

(** X18. The emoji of the title and the colour of the embed follow the
    same ladder of death counts: two counts get the same emoji exactly
    when they get the same colour. *)
Theorem emoji_and_colour_tiers_agree (a b : Z) :
  get_death_emoji a = get_death_emoji b <-> death_color a = death_color b.
Proof.
  unfold get_death_emoji, death_color.
  destruct (a =? 1), (a <=? 3), (a <=? 5), (a <=? 10),
           (b =? 1), (b <=? 3), (b <=? 5), (b <=? 10);
    split; intros H; try reflexivity; try discriminate H.
Qed.

(** ** [parse_skills_string] *)

Lemma contains_char_app c a b :
  contains_char c (a ++ b)%string = contains_char c a || contains_char c b.
Proof.
  induction a as [|x a IH]; simpl; auto.
  now rewrite IH, orb_assoc.
Qed.

Lemma split_on_no_sep sep s :
  contains_char sep s = false -> split_on sep s = [s].
Proof.
  induction s as [|c s IH]; simpl; auto.
  intros H. apply orb_false_iff in H as [Hc Hs].
  rewrite Hc, IH by exact Hs. reflexivity.
Qed.

Lemma split_on_sep sep a b :
  contains_char sep a = false ->
  split_on sep (a ++ String sep b)%string = a :: split_on sep b.
Proof.
  induction a as [|c a IH]; simpl.
  - intros _. now rewrite Ascii.eqb_refl.
  - intros H. apply orb_false_iff in H as [Hc Hs].
    rewrite Hc, IH by exact Hs. reflexivity.
Qed.

Lemma split_on_pieces sep c s :
  contains_char c s = false ->
  Forall (fun w => contains_char c w = false) (split_on sep s).
Proof.
  induction s as [|x s IH]; simpl.
  - intros _. repeat constructor.
  - intros H. apply orb_false_iff in H as [Hx Hs]. specialize (IH Hs).
    destruct (Ascii.eqb x sep).
    + constructor; auto.
    + destruct (split_on sep s) as [|w ws].
      * repeat constructor. simpl. now rewrite Hx.
      * inversion IH; subst. constructor; auto. simpl. now rewrite Hx.
Qed.

Lemma split_on_join sep l :
  l <> [] ->
  Forall (fun w => contains_char sep w = false) l ->
  split_on sep (join_with sep l) = l.
Proof.
  induction l as [|x l IH]; [congruence|].
  intros _ H. inversion H as [|? ? Hx Hl]; subst.
  destruct l as [|y l].
  - simpl. now apply split_on_no_sep.
  - change (join_with sep (x :: y :: l))
      with (x ++ String sep (join_with sep (y :: l)))%string.
    rewrite split_on_sep by exact Hx. f_equal. apply IH; [intros E; discriminate E | exact Hl].
Qed.

Section ParseSkillsFacts.

Variable py_strip : string -> string.
Variable py_int : string -> option Z.

Lemma parse_skill_pairs_raises skill_pairs skills :
  parse_skill_pairs py_strip py_int skill_pairs skills = None <->
  Exists (bad_pair py_strip py_int) skill_pairs.
Proof.
  revert skills. induction skill_pairs as [|p rest IH]; intros skills; simpl.
  - split; [intros H; discriminate H | intros H; inversion H].
  - destruct (contains_char "=" p) eqn:Ec.
    + destruct (split_on "=" p) as [|skill [|level [|x l]]] eqn:Es.
      * split; auto. intros _. left. split; auto. intros ? ? H. rewrite Es in H. discriminate H.
      * split; auto. intros _. left. split; auto. intros ? ? H. rewrite Es in H. discriminate H.
      * destruct (py_int (py_strip level)) as [n|] eqn:Ei.
        -- rewrite IH. split; [now right|].
           intros H. inversion H as [? ? [_ Hbad]|]; subst; auto.
           specialize (Hbad skill level Es). congruence.
        -- split; auto. intros _. left. split; auto.
           intros ? ? H. rewrite Es in H. inversion H; subst. exact Ei.
      * split; auto. intros _. left. split; auto. intros ? ? H. rewrite Es in H. discriminate H.
    + rewrite IH. split; [now right|].
      intros H. inversion H as [? ? [Hc _]|]; subst; auto. congruence.
Qed.

(** X19. What makes [parse_skills_string] raise: the call fails exactly
    when one of the comma-separated pairs of a non-empty text holds '='
    and is not of the form [skill=level] with [level] an int, that is, it
    has a second '=' or a level that [int] refuses; pairs without '='
    are passed over. *)
Theorem parse_skills_string_raises (skills_str : string) :
  parse_skills_string py_strip py_int skills_str = None <->
  skills_str <> EmptyString /\
  Exists (bad_pair py_strip py_int) (split_on "," skills_str).
Proof.
  unfold parse_skills_string. destruct skills_str as [|c s].
  - split; [intros H; discriminate H | intros [H _]; congruence].
  - rewrite parse_skill_pairs_raises. split; [|tauto].
    intros H. split; [intros E; discriminate E | exact H].
Qed.

Lemma parse_skill_pairs_no_equals skill_pairs skills :
  Forall (fun w => contains_char "=" w = false) skill_pairs ->
  parse_skill_pairs py_strip py_int skill_pairs skills = Some skills.
Proof.
  induction 1 as [|p rest Hp Hrest IH]; simpl; auto.
  now rewrite Hp.
Qed.

(** X20. A text without '=' holds no skills: whatever else it holds,
    commas included, [parse_skills_string] returns the empty dict and
    does not raise. *)
Theorem parse_skills_string_no_equals (skills_str : string) :
  contains_char "=" skills_str = false ->
  parse_skills_string py_strip py_int skills_str = Some ∅.
Proof.
  intros H. unfold parse_skills_string. destruct skills_str as [|c s]; auto.
  apply parse_skill_pairs_no_equals. now apply split_on_pieces.
Qed.

(** The dict of a list of pairs written in order: a later pair for a name
    replaces an earlier one. *)
Lemma parse_skill_pairs_well_formed (pairs : list (string * string)) skills :
  Forall (fun '(skill, level) =>
            contains_char "," skill = false /\ contains_char "=" skill = false /\
            contains_char "," level = false /\ contains_char "=" level = false /\
            py_int (py_strip level) <> None) pairs ->
  parse_skill_pairs py_strip py_int
    (map (fun '(skill, level) => (skill ++ String "=" level)%string) pairs) skills
  = Some (fold_left
            (fun m '(skill, level) =>
               <[py_strip skill := default 0 (py_int (py_strip level))]> m)
            pairs skills).
Proof.
  intros H. revert skills.
  induction H as [|[skill level] rest (_ & Hs & _ & Hl & Hi) Hrest IH];
    intros skills; simpl; auto.
  rewrite contains_char_app. simpl. rewrite orb_true_r.
  rewrite split_on_sep by exact Hs. rewrite split_on_no_sep by exact Hl.
  destruct (py_int (py_strip level)) as [n|]; [|congruence].
  simpl. apply IH.
Qed.

(** X21. The text the mod writes is read back: for pairs whose names and
    levels hold neither ',' nor '=' and whose levels are ints, the text
    [name=level,name=level,...] parses to the dict that holds, under each
    stripped name, the int of its level, a later pair for a name replacing
    an earlier one. *)
Theorem parse_skills_string_reads_skills_text (pairs : list (string * string)) :
  Forall (fun '(skill, level) =>
            contains_char "," skill = false /\ contains_char "=" skill = false /\
            contains_char "," level = false /\ contains_char "=" level = false /\
            py_int (py_strip level) <> None) pairs ->
  parse_skills_string py_strip py_int (skills_text pairs)
  = Some (fold_left
            (fun m '(skill, level) =>
               <[py_strip skill := default 0 (py_int (py_strip level))]> m)
            pairs ∅).
Proof.
  intros H. unfold parse_skills_string.
  destruct (skills_text pairs) as [|c s] eqn:Et.
  - destruct pairs as [|[skill level] rest]; auto.
    exfalso. unfold skills_text in Et. simpl in Et.
    destruct (map _ rest); destruct skill; discriminate Et.
  - rewrite <- Et. unfold skills_text.
    destruct pairs as [|p0 rest0] eqn:Ep; [discriminate Et|]. rewrite <- Ep in *.
    rewrite split_on_join.
    + now apply parse_skill_pairs_well_formed.
    + rewrite Ep. simpl. congruence.
    + apply Forall_forall. intros w Hw. apply in_map_iff in Hw as ([skill level] & <- & Hin).
      rewrite Forall_forall in H. specialize (H _ Hin). simpl in H.
      destruct H as (Hs & _ & Hl & _).
      rewrite contains_char_app. simpl. now rewrite Hs, Hl.
Qed.

End ParseSkillsFacts.

(** ** The snapshot across a restart *)

Section RestartFacts.

Variable json_dump : odict player -> gmap string Z -> string.
Variable json_load : string -> option (option (odict player) * option (gmap string Z)).

(** X22. A completed save is read back at the next start: when
    [json.load] reads the text of the snapshot of [g] back to the two dicts
    of [g], then after [save_player_stats] has completed, a
    [load_player_stats] from any state restores the player records and the
    cursors of [g], and touches neither the dedup set nor the unsaved
    flag. *)
Theorem saved_snapshot_is_loaded_back (g g0 : globals) (file : option string) :
  json_load (json_dump (player_stats g) (file_positions g))
    = Some (Some (player_stats g), Some (file_positions g)) ->
  let file' := snd (save_player_stats json_dump NoFault g file) in
  let g' := load_player_stats json_load false file' g0 in
  player_stats g' = player_stats g /\
  file_positions g' = file_positions g /\
  last_events g' = last_events g0 /\
  unsaved_changes g' = unsaved_changes g0.
Proof.
  intros Hload. simpl. rewrite Hload. simpl. auto.
Qed.

(** X23. A save that fails while writing loses the old snapshot too: when
    [json.load] refuses the prefix that reached the file, the next
    [load_player_stats] ends with no player records and no cursor,
    whatever the file held before the save and whatever the state at the
    start; so the next read of the log starts from offset 0. *)
Theorem torn_save_loses_the_snapshot (g g0 : globals) (file : option string) (n : nat) :
  json_load (substring 0 n (json_dump (player_stats g) (file_positions g))) = None ->
  let file' := snd (save_player_stats json_dump (WriteFailsAfter n) g file) in
  let g' := load_player_stats json_load false file' g0 in
  player_stats g' = [] /\
  file_positions g' = ∅ /\
  default 0 (file_positions g' !! DISCORD_LOG_PATH) = 0.
Proof.
  intros Hload. simpl. rewrite Hload. simpl. auto.
Qed.

End RestartFacts.

(** ** The scheduled boards *)

Lemma posts_up_to_refl n g : posts_up_to n g g.
Proof.
  unfold posts_up_to. do 5 (split; [reflexivity|]).
  exists []. split; [now rewrite app_nil_r | simpl; lia].
Qed.

Lemma posts_up_to_trans n m g g1 g2 :
  posts_up_to n g g1 -> posts_up_to m g1 g2 -> posts_up_to (n + m) g g2.
Proof.
  intros (A1 & A2 & A3 & A4 & A5 & p1 & A6 & A7) (B1 & B2 & B3 & B4 & B5 & p2 & B6 & B7).
  unfold posts_up_to. repeat split; try congruence.
  exists (p1 ++ p2). split.
  - now rewrite B6, A6, app_assoc.
  - rewrite length_app. lia.
Qed.

Lemma send_leaderboard_posts_up_to t g : posts_up_to 1 g (fst (send_leaderboard t g)).
Proof. exact (send_leaderboard_posts_only t g). Qed.

(** A skill board renders no time: the request never raises. *)
Lemma send_leaderboard_skill_returns t g :
  String.prefix "skill_" t = true -> snd (send_leaderboard t g) = None.
Proof.
  intros Hpre. destruct (skill_type_dispatch _ Hpre) as (E1 & E2 & E3).
  unfold send_leaderboard. rewrite E1, E2, E3, Hpre.
  destruct (player_stats g); [reflexivity|].
  now destruct (players_with_skill _ _).
Qed.

Lemma record_renders_inv p :
  record_renders p = true ->
  (if 0 <? total_deaths p
   then format_average (total_hours_survived (lifetime_stats p)) (total_deaths p)
   else None) = None /\
  format_time (longest_survival (lifetime_stats p)) = None /\
  format_time (total_hours_survived (lifetime_stats p)) = None.
Proof.
  unfold record_renders.
  destruct (if 0 <? total_deaths p then _ else None);
    destruct (format_time (longest_survival (lifetime_stats p)));
    destruct (format_time (total_hours_survived (lifetime_stats p)));
    intros H; try discriminate H; auto.
Qed.

(** With records whose figures render, the three daily boards return. *)
Lemma send_leaderboard_daily t g :
  Forall (fun kv => record_renders (snd kv) = true) (player_stats g) ->
  t = "death" \/ t = "survival" \/ t = "hours" ->
  snd (send_leaderboard t g) = None.
Proof.
  intros Hall Ht. rewrite Forall_forall in Hall.
  unfold send_leaderboard.
  destruct (player_stats g) as [|kv ps] eqn:Eps; [reflexivity|].
  rewrite <- Eps in *. clear Eps kv ps.
  destruct Ht as [-> | [-> | ->]].
  - change (String.eqb "death" "death") with true. cbv iota.
    destruct (death_ranking (player_stats g)) as [|r0 rs] eqn:Er; [reflexivity|].
    rewrite <- Er. clear Er r0 rs.
    assert (Hnone : death_averages (death_ranking (player_stats g)) = None).
    { apply first_raised_none, Forall_forall. intros r Hr.
      apply in_map_iff in Hr as ([name p] & <- & Hin).
      apply death_ranking_In in Hin as [Hin _].
      destruct (record_renders_inv p (Hall _ Hin)) as (Ha & _). exact Ha. }
    now rewrite Hnone.
  - change (String.eqb "survival" "death") with false.
    change (String.eqb "survival" "survival") with true. cbv iota.
    destruct (survival_ranking (player_stats g)) as [|r0 rs] eqn:Er; [reflexivity|].
    rewrite <- Er. clear Er r0 rs.
    assert (Hnone : survival_times (survival_ranking (player_stats g)) = None).
    { apply first_raised_none, Forall_forall. intros r Hr.
      apply in_map_iff in Hr as ([name p] & <- & Hin).
      apply survival_ranking_In in Hin.
      destruct (record_renders_inv p (Hall _ Hin)) as (_ & Hl & _). simpl.
      now destruct (longest_survival (lifetime_stats p) =? 0)%float. }
    rewrite Hnone. now destruct (survival_lines _).
  - change (String.eqb "hours" "death") with false.
    change (String.eqb "hours" "survival") with false.
    change (String.eqb "hours" "hours") with true. cbv iota.
    destruct (hours_ranking (player_stats g)) as [|r0 rs] eqn:Er; [reflexivity|].
    rewrite <- Er. clear Er r0 rs.
    assert (Hnone : hours_times (hours_ranking (player_stats g)) = None).
    { apply first_raised_none, Forall_forall. intros r Hr.
      apply in_map_iff in Hr as ([name p] & <- & Hin).
      apply hours_ranking_In in Hin as [Hin _].
      destruct (record_renders_inv p (Hall _ Hin)) as (_ & _ & Ht). exact Ht. }
    now rewrite Hnone.
Qed.

Lemma prefix_append (a b : string) : String.prefix a (a ++ b)%string = true.
Proof.
  induction a as [|c a IH]; [now destruct b|].
  simpl.
  destruct (ascii_dec c c); [exact IH | congruence].
Qed.

Lemma weekly_boards_run skills g :
  exists g',
    weekly_boards skills g = (g', repeat 2 (List.length skills), None) /\
    posts_up_to (List.length skills) g g'.
Proof.
  revert g. induction skills as [|skill rest IH]; intros g.
  - exists g. split; [reflexivity | apply posts_up_to_refl].
  - simpl.
    pose proof (send_leaderboard_posts_up_to ("skill_" ++ skill)%string g) as Hp.
    pose proof (send_leaderboard_skill_returns ("skill_" ++ skill)%string g
                  (prefix_append "skill_" skill)) as Hr.
    destruct (send_leaderboard _ g) as [g1 [e|]]; [discriminate Hr|].
    destruct (IH g1) as (g' & -> & Hp'). exists g'. split; [reflexivity|].
    exact (posts_up_to_trans 1 _ g g1 g' Hp Hp').
Qed.

(** The block of the daily boards does nothing, or the time has come and
    it requests the boards: all three, and the date is marked, or the
    boards up to one whose rendering raises, and the marker is left. *)
Lemma daily_leaderboards_cases now last g :
  daily_leaderboards now last g = (last, g, [], None) \/
  (c_minute now = 0 /\ (c_hour now = 0 \/ c_hour now = 12) /\
   last <> Some (c_date now) /\ player_stats g <> [] /\
   exists g1,
     posts_up_to 3 g g1 /\
     (daily_leaderboards now last g = (Some (c_date now), g1, [2; 2], None) \/
      exists slept e, daily_leaderboards now last g = (last, g1, slept, Some e))).
Proof.
  unfold daily_leaderboards.
  destruct (c_minute now =? 0) eqn:Em; [|now left].
  destruct (bool_decide (last = Some (c_date now))) eqn:El; [now left|].
  cbn [andb negb].
  destruct ((c_hour now =? 12) || (c_hour now =? 0)) eqn:Eh; [|now left].
  destruct (player_stats g) as [|kv ps] eqn:Eps; [now left|].
  right. apply Z.eqb_eq in Em. apply bool_decide_eq_false in El.
  apply orb_true_iff in Eh. rewrite !Z.eqb_eq in Eh.
  split; [exact Em|]. split; [tauto|]. split; [exact El|].
  split; [intros H; discriminate H|].
  pose proof (send_leaderboard_posts_up_to "death" g) as H1.
  destruct (send_leaderboard "death" g) as [g1 [e|]]; simpl in H1.
  { exists g1. split; [exact (posts_up_to_trans 1 2 g g1 g1 H1 (posts_up_to_refl 2 g1))|].
    right. eauto. }
  pose proof (send_leaderboard_posts_up_to "survival" g1) as H2.
  destruct (send_leaderboard "survival" g1) as [g2 [e|]]; simpl in H2.
  { exists g2. split; [exact (posts_up_to_trans 1 2 g g1 g2 H1
                                (posts_up_to_trans 1 1 g1 g2 g2 H2 (posts_up_to_refl 1 g2)))|].
    right. eauto. }
  pose proof (send_leaderboard_posts_up_to "hours" g2) as H3.
  destruct (send_leaderboard "hours" g2) as [g3 [e|]]; simpl in H3;
    (exists g3; split;
      [exact (posts_up_to_trans 2 1 g g2 g3 (posts_up_to_trans 1 1 g g1 g2 H1 H2) H3)|]).
  - right. eauto.
  - now left.
Qed.

(** With records whose figures render, the block marks the date. *)
Lemma daily_leaderboards_renders now last g :
  Forall (fun kv => record_renders (snd kv) = true) (player_stats g) ->
  b_raised (daily_leaderboards now last g) = None.
Proof.
  intros Hall. unfold daily_leaderboards.
  destruct ((c_minute now =? 0) && negb (bool_decide (last = Some (c_date now))));
    [|reflexivity].
  destruct ((c_hour now =? 12) || (c_hour now =? 0)); [|reflexivity].
  destruct (player_stats g) as [|kv ps] eqn:Eps; [reflexivity|].
  rewrite <- Eps in Hall. clear Eps kv ps.
  pose proof (send_leaderboard_daily "death" g Hall (or_introl eq_refl)) as R1.
  pose proof (send_leaderboard_player_stats "death" g) as P1.
  destruct (send_leaderboard "death" g) as [g1 [e|]]; [discriminate R1|].
  simpl in P1. rewrite <- P1 in Hall.
  pose proof (send_leaderboard_daily "survival" g1 Hall (or_intror (or_introl eq_refl))) as R2.
  pose proof (send_leaderboard_player_stats "survival" g1) as P2.
  destruct (send_leaderboard "survival" g1) as [g2 [e|]]; [discriminate R2|].
  simpl in P2. rewrite <- P2 in Hall.
  pose proof (send_leaderboard_daily "hours" g2 Hall (or_intror (or_intror eq_refl))) as R3.
  destruct (send_leaderboard "hours" g2) as [g3 [e|]]; [discriminate R3|].
  reflexivity.
Qed.

Lemma weekly_leaderboards_cases now last g :
  weekly_leaderboards now last g = (last, g, [], None) \/
  (weekday (c_date now) = 6 /\ c_hour now = 0 /\ c_minute now = 0 /\
   last <> Some (c_date now) /\ player_stats g <> [] /\
   exists g1,
     weekly_leaderboards now last g = (Some (c_date now), g1, [2; 2; 2; 2; 2], None) /\
     posts_up_to 5 g g1).
Proof.
  unfold weekly_leaderboards.
  destruct (weekday (c_date now) =? 6) eqn:Ew; [|now left].
  destruct (c_hour now =? 0) eqn:Eh; [|now left].
  destruct (c_minute now =? 0) eqn:Em; [|now left].
  cbn [andb].
  destruct (player_stats g) as [|kv ps] eqn:Eps; [now left|].
  destruct (bool_decide (last = Some (c_date now))) eqn:El; [now left|].
  right. apply Z.eqb_eq in Ew, Eh, Em. apply bool_decide_eq_false in El.
  repeat (split; [assumption|]). split; [intros H; discriminate H|].
  destruct (weekly_boards_run top_skills g) as (g1 & -> & H1).
  exists g1. split; [reflexivity | exact H1].
Qed.

(** X24. The daily boards go out once per date: at minute 0 of hour 0 or
    12, with a player on record, every record's figures rendering, and no
    boards sent yet on that date, the three boards are requested (at most
    three messages, two pauses of two seconds, no exception) and the date
    is marked; after that every pass of the same date requests nothing,
    at noon as well when the boards went out at midnight. *)
Theorem daily_boards_once_per_date (now later : clock) (last : option Z) (g : globals) :
  player_stats g <> [] ->
  Forall (fun kv => record_renders (snd kv) = true) (player_stats g) ->
  c_minute now = 0 ->
  c_hour now = 0 \/ c_hour now = 12 ->
  last <> Some (c_date now) ->
  c_date later = c_date now ->
  let r := daily_leaderboards now last g in
  b_marker r = Some (c_date now) /\
  b_raised r = None /\
  b_slept r = [2; 2] /\
  posts_up_to 3 g (b_globals r) /\
  daily_leaderboards later (b_marker r) (b_globals r)
  = (b_marker r, b_globals r, [], None).
Proof.
  intros Hps Hall Hm Hh Hl Hd r. subst r.
  pose proof (daily_leaderboards_renders now last g Hall) as Hret.
  destruct (daily_leaderboards_cases now last g)
    as [E|(_ & _ & _ & _ & g1 & Hp & [E|(slept & e & E)])].
  - exfalso. revert E. unfold daily_leaderboards.
    rewrite Hm. rewrite (bool_decide_eq_false_2 _ Hl).
    assert (Eh : (c_hour now =? 12) || (c_hour now =? 0) = true)
      by (destruct Hh as [-> | ->]; reflexivity).
    rewrite Eh. cbn [Z.eqb andb negb].
    destruct (player_stats g) as [|kv ps] eqn:Eps; [congruence|].
    destruct (send_leaderboard "death" g) as [g1 [e|]];
      [intros E; inversion E|].
    destruct (send_leaderboard "survival" g1) as [g2 [e|]];
      [intros E; inversion E|].
    destruct (send_leaderboard "hours" g2) as [g3 [e|]];
      intros E; inversion E.
  - rewrite E. unfold b_marker, b_raised, b_slept, b_globals. simpl.
    repeat (split; [auto; fail|]).
    unfold daily_leaderboards. rewrite Hd.
    rewrite (bool_decide_eq_true_2 _ eq_refl). now rewrite andb_false_r.
  - rewrite E in Hret. discriminate Hret.
Qed.

(** X25. The daily boards are requested at no other time: the block of
    the daily boards posts at most three messages and writes nothing
    else; unless it is minute 0 of hour 0 or 12, a player is on record and
    the date is not the marked one, it posts nothing, sleeps nothing and
    leaves the marker as it was. When it does request the boards, either
    all three return, two pauses of two seconds are made and the date is
    marked, or the rendering of a board raises and the marker is left as
    it was, so the boards are requested again on the next pass of that
    minute. It raises only with a record whose figures do not render. *)
Theorem daily_boards_only_at_noon_and_midnight
    (now : clock) (last : option Z) (g : globals) :
  let r := daily_leaderboards now last g in
  posts_up_to 3 g (b_globals r) /\
  (r = (last, g, [], None) \/
   c_minute now = 0 /\ (c_hour now = 0 \/ c_hour now = 12) /\
   last <> Some (c_date now) /\ player_stats g <> [] /\
   (b_raised r = None /\ b_marker r = Some (c_date now) /\ b_slept r = [2; 2] \/
    b_raised r <> None /\ b_marker r = last)) /\
  (Forall (fun kv => record_renders (snd kv) = true) (player_stats g) ->
   b_raised r = None).
Proof.
  intros r. subst r.
  split; [|split; [|apply daily_leaderboards_renders]].
  - destruct (daily_leaderboards_cases now last g)
      as [E|(_ & _ & _ & _ & g1 & Hp & [E|(slept & e & E)])]; rewrite E;
      [apply posts_up_to_refl | exact Hp | exact Hp].
  - destruct (daily_leaderboards_cases now last g)
      as [E|(Hm & Hh & Hl & Hps & g1 & Hp & [E|(slept & e & E)])]; rewrite E.
    + now left.
    + right. repeat (split; [assumption|]). left. repeat split.
    + right. repeat (split; [assumption|]). right. split; [|reflexivity].
      intros H. discriminate H.
Qed.

(** X26. The weekly skill boards: the block never raises and posts at
    most five messages; on a Sunday at 00:00, with a player on record and
    no weekly boards sent on that date, it requests the five skill boards
    with a pause of two seconds after each and marks the date; at any
    other time, and on a marked date, it does nothing. *)
Theorem weekly_boards_on_sunday_midnight
    (now : clock) (last : option Z) (g : globals) :
  let r := weekly_leaderboards now last g in
  b_raised r = None /\
  posts_up_to 5 g (b_globals r) /\
  (r = (last, g, [], None) /\
   ~ (weekday (c_date now) = 6 /\ c_hour now = 0 /\ c_minute now = 0 /\
      last <> Some (c_date now) /\ player_stats g <> [])
   \/
   weekday (c_date now) = 6 /\ c_hour now = 0 /\ c_minute now = 0 /\
   last <> Some (c_date now) /\ player_stats g <> [] /\
   b_marker r = Some (c_date now) /\ b_slept r = [2; 2; 2; 2; 2]).
Proof.
  intros r. subst r.
  destruct (weekly_leaderboards_cases now last g)
    as [E|(Hw & Hh & Hm & Hl & Hps & g1 & E & Hp)].
  - rewrite E. split; [reflexivity|]. split; [apply posts_up_to_refl|].
    left. split; [reflexivity|].
    intros (Hw & Hh & Hm & Hl & Hps).
    revert E. unfold weekly_leaderboards. rewrite Hw, Hh, Hm.
    cbn [Z.eqb Pos.eqb andb].
    destruct (player_stats g) as [|kv ps] eqn:Eps; [congruence|].
    rewrite (bool_decide_eq_false_2 _ Hl).
    destruct (weekly_boards_run top_skills g) as (g1 & -> & _).
    intros E. inversion E; congruence.
  - rewrite E. split; [reflexivity|]. split; [exact Hp|]. right.
    repeat (split; [assumption|]). split; reflexivity.
Qed.

Lemma daily_boards_frame now last g :
  posts_up_to 3 g (b_globals (daily_leaderboards now last g)).
Proof.
  destruct (daily_leaderboards_cases now last g)
    as [E|(_ & _ & _ & _ & g1 & Hp & [E|(slept & e & E)])]; rewrite E;
    [apply posts_up_to_refl | exact Hp | exact Hp].
Qed.

Lemma weekly_boards_frame now last g :
  b_raised (weekly_leaderboards now last g) = None /\
  posts_up_to 5 g (b_globals (weekly_leaderboards now last g)).
Proof.
  destruct (weekly_leaderboards_cases now last g)
    as [E|(_ & _ & _ & _ & _ & g1 & E & Hp)]; rewrite E.
  - split; [reflexivity | apply posts_up_to_refl].
  - split; [reflexivity | exact Hp].
Qed.

(** ** The main loop *)

Section LoopFacts.

Variable decode_line : string -> decoded.
Variable set_iter : gset string -> list string.
Variable json_dump : odict player -> gmap string Z -> string.
Variable CHECK_INTERVAL : Z.

Lemma loop_body_connect_fails it st g file :
  it_connect it <> None ->
  loop_body decode_line set_iter json_dump CHECK_INTERVAL it st g file
  = (fst (on_error CHECK_INTERVAL st), g, file, snd (on_error CHECK_INTERVAL st)).
Proof.
  intros H. unfold loop_body. destruct (it_connect it); [|congruence].
  now destruct (on_error CHECK_INTERVAL st).
Qed.

Lemma on_error_counts st :
  0 <= consecutive_errors st < 5 ->
  let n := consecutive_errors st + 1 in
  consecutive_errors (fst (on_error CHECK_INTERVAL st)) = n mod 5 /\
  check_count (fst (on_error CHECK_INTERVAL st)) = check_count st /\
  last_daily_leaderboard_date (fst (on_error CHECK_INTERVAL st))
    = last_daily_leaderboard_date st /\
  last_weekly_leaderboard_date (fst (on_error CHECK_INTERVAL st))
    = last_weekly_leaderboard_date st /\
  snd (on_error CHECK_INTERVAL st)
    = [if n mod 5 =? 0 then CHECK_INTERVAL * 3 else CHECK_INTERVAL].
Proof.
  intros Hc n. subst n. unfold on_error, max_errors.
  destruct (5 <=? consecutive_errors st + 1) eqn:E; simpl.
  - apply Z.leb_le in E.
    assert (Hn : consecutive_errors st + 1 = 5) by lia. rewrite Hn. auto.
  - apply Z.leb_gt in E.
    rewrite Z.mod_small by lia.
    destruct (consecutive_errors st + 1 =? 0) eqn:E0; [|auto].
    apply Z.eqb_eq in E0. lia.
Qed.

(** X27. The back-off after failed connections: while [ftp.connect] or
    [ftp.login] keeps failing, no state and no file is touched and no
    check is counted; the loop sleeps one interval after each failure,
    except that every fifth failure in a row is followed by three
    intervals, after which the count of failures starts again at 0. *)
Theorem backoff_on_every_fifth_failure
    (its : list iteration) (st : loop_state) (g : globals) (file : option string) :
  Forall (fun it => it_connect it <> None) its ->
  0 <= consecutive_errors st < 5 ->
  let r := run_loop decode_line set_iter json_dump CHECK_INTERVAL its st g file in
  r_globals r = g /\
  r_file r = file /\
  check_count (r_state r) = check_count st /\
  last_daily_leaderboard_date (r_state r) = last_daily_leaderboard_date st /\
  last_weekly_leaderboard_date (r_state r) = last_weekly_leaderboard_date st /\
  consecutive_errors (r_state r)
    = (consecutive_errors st + Z.of_nat (List.length its)) mod 5 /\
  r_slept r
    = map (fun i => if (consecutive_errors st + Z.of_nat i) mod 5 =? 0
                    then CHECK_INTERVAL * 3 else CHECK_INTERVAL)
        (seq 1 (List.length its)).
Proof.
  intros Hall. revert st. induction Hall as [|it its Hit Hall IH]; intros st Hc r.
  - subst r. simpl. unfold r_globals, r_file, r_state, r_slept. simpl.
    repeat (split; [reflexivity|]). split; [|reflexivity].
    rewrite Z.add_0_r, Z.mod_small; lia.
  - subst r. cbn [run_loop]. rewrite loop_body_connect_fails by exact Hit.
    destruct (on_error_counts st Hc) as (Hn & Hk & Hd & Hw & Hs).
    set (st1 := fst (on_error CHECK_INTERVAL st)) in *.
    assert (Hc1 : 0 <= consecutive_errors st1 < 5)
      by (rewrite Hn; apply Z.mod_pos_bound; lia).
    specialize (IH st1 Hc1). cbv zeta in IH.
    destruct (run_loop decode_line set_iter json_dump CHECK_INTERVAL its st1 g file)
      as [[[st' g'] file'] slept'].
    unfold r_globals, r_file, r_state, r_slept in *. simpl in IH |- *.
    destruct IH as (-> & -> & Hk' & Hd' & Hw' & Hn' & ->).
    repeat (split; [congruence|]).
    assert (Hshift : forall k,
               (consecutive_errors st1 + k) mod 5
               = (consecutive_errors st + (1 + k)) mod 5).
    { intros k. rewrite Hn, Zplus_mod_idemp_l. f_equal. lia. }
    split.
    + rewrite Hn', Hshift. f_equal. lia.
    + rewrite Hs. simpl. f_equal.
      rewrite <- (seq_shift (List.length its) 1), map_map. apply map_ext. intros i.
      rewrite Hshift. now replace (Z.of_nat (S i)) with (1 + Z.of_nat i) by lia.
Qed.

Lemma loop_body_frame it st g file :
  let r := loop_body decode_line set_iter json_dump CHECK_INTERVAL it st g file in
  player_stats (r_globals r) = player_stats g /\
  last_events (r_globals r) = last_events g /\
  (unsaved_changes g = false -> unsaved_changes (r_globals r) = false) /\
  (r_file r = file \/
   it_connect it = None /\ it_quit it = None /\
   check_count (r_state r) = check_count st + 1 /\
   check_count (r_state r) mod 20 = 0 /\
   unsaved_changes g = true /\
   r_file r = snd (save_player_stats json_dump (it_save it) (r_globals r) file)).
Proof.
  intros r. subst r. unfold loop_body.
  destruct (it_connect it) as [e|].
  { destruct (on_error CHECK_INTERVAL st). unfold r_globals, r_file. simpl. auto. }
  pose proof (monitor_discord_events_log_frame decode_line set_iter
                (it_stamp it) (it_ftp it) g) as Hmon.
  cbv zeta in Hmon.
  set (g0 := monitor_discord_events_log decode_line set_iter (it_stamp it) (it_ftp it) g)
    in *.
  destruct Hmon as (Hle & Hps & Hun & _).
  destruct (it_quit it) as [e|].
  { destruct (on_error CHECK_INTERVAL st). unfold r_globals, r_file. simpl.
    split; [congruence|]. split; [congruence|]. split; [intros; congruence|]. now left. }
  pose proof (daily_boards_frame (it_now it) (last_daily_leaderboard_date st) g0) as Hd.
  destruct (daily_leaderboards (it_now it) (last_daily_leaderboard_date st) g0)
    as [[[daily g1] slept1] e1].
  destruct Hd as (Dps & Dun & _ & Dle & _).
  unfold b_globals in Dps, Dun, Dle. cbn [fst snd] in Dps, Dun, Dle.
  destruct e1 as [e1|].
  { destruct (on_error CHECK_INTERVAL _). unfold r_globals, r_file. simpl.
    split; [congruence|]. split; [congruence|]. split; [intros; congruence|]. now left. }
  pose proof (weekly_boards_frame (it_now it) (last_weekly_leaderboard_date st) g1) as Hw.
  destruct (weekly_leaderboards (it_now it) (last_weekly_leaderboard_date st) g1)
    as [[[weekly g2] slept2] e2].
  destruct Hw as (He2 & Hw). simpl in He2. subst e2.
  destruct Hw as (Wps & Wun & _ & Wle & _).
  unfold b_globals in Wps, Wun, Wle.
  cbn [fst snd] in Wps, Wun, Wle.
  cbn [check_count].
  destruct (((check_count st + 1) mod 20 =? 0) && unsaved_changes g2) eqn:Esave.
  - apply andb_true_iff in Esave as [Emod Eun]. apply Z.eqb_eq in Emod.
    unfold save_player_stats.
    destruct (it_save it); unfold r_globals, r_file, r_state; simpl;
      (split; [congruence|]); (split; [congruence|]);
      (split; [intros; congruence|]); right; repeat split; auto; congruence.
  - unfold r_globals, r_file. simpl.
    split; [congruence|]. split; [congruence|]. split; [intros; congruence|]. now left.
Qed.

(** X28. The periodic save: a pass of the loop changes the snapshot file
    only when it went through without a failed connection or [quit], its
    check is counted, the count of checks has reached a multiple of 20 and
    the unsaved flag was set when the pass began. *)
Theorem snapshot_written_on_twentieth_check_only
    (it : iteration) (st : loop_state) (g : globals) (file : option string) :
  r_file (loop_body decode_line set_iter json_dump CHECK_INTERVAL it st g file) <> file ->
  let r := loop_body decode_line set_iter json_dump CHECK_INTERVAL it st g file in
  it_connect it = None /\
  it_quit it = None /\
  check_count (r_state r) = check_count st + 1 /\
  check_count (r_state r) mod 20 = 0 /\
  unsaved_changes g = true.
Proof.
  intros Hfile r. subst r.
  destruct (loop_body_frame it st g file) as (_ & _ & _ & [E|H]); [contradiction|].
  tauto.
Qed.

Lemma run_loop_frame its st g file :
  let r := run_loop decode_line set_iter json_dump CHECK_INTERVAL its st g file in
  player_stats (r_globals r) = player_stats g /\
  last_events (r_globals r) = last_events g /\
  (unsaved_changes g = false ->
   unsaved_changes (r_globals r) = false /\ r_file r = file).
Proof.
  revert st g file. induction its as [|it its IH]; intros st g file r; subst r.
  - unfold r_globals, r_file. simpl. auto.
  - cbn [run_loop].
    pose proof (loop_body_frame it st g file) as Hb. cbv zeta in Hb.
    destruct (loop_body decode_line set_iter json_dump CHECK_INTERVAL it st g file)
      as [[[st1 g1] file1] slept1].
    specialize (IH st1 g1 file1). cbv zeta in IH.
    destruct (run_loop decode_line set_iter json_dump CHECK_INTERVAL its st1 g1 file1)
      as [[[st2 g2] file2] slept2].
    unfold r_globals, r_file, r_state in *. cbn [fst snd] in *.
    destruct Hb as (Bps & Ble & Bun & Bfile). destruct IH as (Ips & Ile & Iun).
    split; [congruence|]. split; [congruence|].
    intros Hun. specialize (Bun Hun). destruct (Iun Bun) as [Hun2 Hfile2].
    split; [exact Hun2|].
    destruct Bfile as [E|(_ & _ & _ & _ & Habs & _)]; congruence.
Qed.

(** X29. The loop never changes a player record: however many passes
    [monitor_server] makes and whatever the log delivers, the player
    records at the end are the ones [load_player_stats] read at the start
    and the dedup set is the one at the start; and when the unsaved flag is
    not set at the start, as after import, it is never set and the
    snapshot file is never written. *)
Theorem loop_never_changes_player_records
    (json_load : string -> option (option (odict player) * option (gmap string Z)))
    (read_fails : bool) (its : list iteration) (g : globals) (file : option string) :
  let r := monitor_server decode_line set_iter json_dump CHECK_INTERVAL
             json_load read_fails its g file in
  player_stats (r_globals r)
  = player_stats (load_player_stats json_load read_fails file g) /\
  last_events (r_globals r) = last_events g /\
  (unsaved_changes g = false ->
   unsaved_changes (r_globals r) = false /\ r_file r = file).
Proof.
  intros r. subst r. unfold monitor_server.
  destruct (run_loop_frame its initial_loop_state
              (load_player_stats json_load read_fails file g) file)
    as (Hps & Hle & Hun).
  split; [exact Hps|]. split.
  - rewrite Hle. unfold load_player_stats.
    destruct file; [|reflexivity].
    now destruct (if read_fails then None else json_load s) as [[ps fp]|].
  - intros H. apply Hun. unfold load_player_stats.
    destruct file; [|exact H].
    now destruct (if read_fails then None else json_load s) as [[ps fp]|].
Qed.

End LoopFacts.

(** ** The properties at concrete inputs *)

Lemma nothing_new_to_read_witness :
  ftp_size rotated_server = Returns (Some 512) /\
  default 0 (file_positions caught_up !! DISCORD_LOG_PATH) = 512 /\
  download_log_tail rotated_server 512 = (Some "", 512, [SIZE]) /\
  monitor_discord_events_log tick_decoder elements "12:00" rotated_server caught_up
  = caught_up.
Proof.
  split; [reflexivity|]. split; [reflexivity|].
  apply (nothing_new_to_read tick_decoder elements "12:00" rotated_server caught_up).
  right. reflexivity.
Defined.

Lemma event_touches_its_subject_only_witness :
  "Ann" <> d_username (e_data bob_dies) /\
  od_get "Ann" (player_stats (fst (handle_discord_event "12:00" bob_dies two_players)))
  = Some ann.
Proof.
  assert (Hne : "Ann" <> d_username (e_data bob_dies))
    by (intros H; discriminate H).
  split; [exact Hne|].
  exact (event_touches_its_subject_only "12:00" bob_dies two_players "Ann" Hne).
Defined.

Lemma other_events_write_nothing_witness :
  is_subject_event dawn = false /\
  player_stats (fst (handle_discord_event "06:00" dawn two_players))
  = player_stats two_players /\
  webhook (fst (handle_discord_event "06:00" dawn two_players)) = [SunriseEmbed 0].
Proof.
  split; [reflexivity|].
  destruct (other_events_write_nothing "06:00" dawn two_players eq_refl)
    as (Hps & _).
  split; [exact Hps | reflexivity].
Defined.

Lemma records_are_never_deleted_witness :
  od_wf (player_stats two_players) /\
  od_wf (player_stats (run_events "12:00" two_lives two_players)) /\
  od_keys (player_stats (run_events "12:00" two_lives two_players))
  = ["Ann"; "Bob"; "TestPlayer"].
Proof.
  split; [exact two_players_wf|].
  destruct (records_are_never_deleted "12:00" two_lives two_players two_players_wf)
    as (Hwf & _).
  split; [exact Hwf | reflexivity].
Defined.


Lemma deaths_are_numbered_witness :
  format_time (longest_view (od_get "TestPlayer" (player_stats initial_globals))) = None /\
  Forall (fun ev => is_death_of "TestPlayer" ev = true ->
                    d_skills (e_data ev) <> None /\
                    format_time (d_hours_survived (e_data ev)) = None) two_deaths /\
  deaths_view (od_get "TestPlayer"
                 (player_stats (run_events "12:00" two_deaths initial_globals))) = 2 /\
  death_counts_of "TestPlayer" (webhook (run_events "12:00" two_deaths initial_globals))
  = [1; 2].
Proof.
  assert (Hl : format_time (longest_view (od_get "TestPlayer" (player_stats initial_globals)))
               = None) by reflexivity.
  assert (Hall : Forall (fun ev => is_death_of "TestPlayer" ev = true ->
                           d_skills (e_data ev) <> None /\
                           format_time (d_hours_survived (e_data ev)) = None) two_deaths).
  { unfold two_deaths.
    constructor; [|constructor; [|constructor]]; intros _;
      (split; [intros H; discriminate H | reflexivity]). }
  split; [exact Hl|]. split; [exact Hall|].
  destruct (deaths_are_numbered "12:00" two_deaths initial_globals "TestPlayer")
    as (Hd & posted & Hc & _ & Hex).
  split; [exact Hd|].
  rewrite Hc, (Hex Hl Hall). reflexivity.
Defined.

Lemma level_up_sets_live_level_witness :
  let ev := level_up_of "Ann" "Aiming" 2 "day 9" in
  e_type ev = "level_up" /\
  live_level "Aiming" (od_get "Ann" (player_stats two_players)) = Some 3 /\
  live_level "Aiming"
    (od_get "Ann" (player_stats (fst (handle_discord_event "12:00" ev two_players))))
  = Some 2.
Proof.
  intros ev. split; [reflexivity|]. split; [reflexivity|].
  destruct (level_up_sets_live_level "12:00" ev two_players eq_refl) as (H & _).
  exact H.
Defined.

Lemma death_board_is_a_top_ten_witness :
  webhook (fst (send_leaderboard "death" three_players))
  = webhook three_players ++ [DeathBoard [(0%nat, "Ann", 2); (1%nat, "Bob", 1)]] /\
  exists rows,
    DeathBoard [(0%nat, "Ann", 2); (1%nat, "Bob", 1)] = DeathBoard rows /\
    (List.length rows <= 10)%nat /\
    StronglySorted (fun v w => w <= v) (map snd rows).
Proof.
  split; [reflexivity|].
  destruct (death_board_is_a_top_ten three_players
              (DeathBoard [(0%nat, "Ann", 2); (1%nat, "Bob", 1)]) eq_refl)
    as (rows & He & Hlen & _ & Hsorted & _).
  exists rows. auto.
Defined.

Lemma death_board_ties_in_dict_order_witness :
  let g := with_player_stats [("Bob", bob); ("Cy", bob); ("Ann", ann)] initial_globals in
  let board := DeathBoard [(0%nat, "Ann", 2); (1%nat, "Bob", 1); (2%nat, "Cy", 1)] in
  0 < 1 /\
  webhook (fst (send_leaderboard "death" g)) = webhook g ++ [board] /\
  exists rows rest,
    board = DeathBoard rows /\
    ["Bob"; "Cy"] = map (fun r => snd (fst r)) (filter (fun r => snd r =? 1) rows) ++ rest.
Proof.
  intros g board. split; [lia|]. split; [reflexivity|].
  exact (death_board_ties_in_dict_order g board 1 eq_refl eq_refl).
Defined.

Lemma skill_board_one_row_per_subject_witness :
  od_wf (player_stats two_players) /\
  String.prefix "skill_" "skill_Aiming" = true /\
  webhook (fst (send_leaderboard "skill_Aiming" two_players))
  = webhook two_players ++ [SkillBoard "Aiming" [(0%nat, "Bob", 5); (1%nat, "Ann", 3)]] /\
  exists rows,
    SkillBoard "Aiming" [(0%nat, "Bob", 5); (1%nat, "Ann", 3)]
    = SkillBoard (remove_all "skill_" "skill_Aiming") rows /\
    List.NoDup (map (fun r => snd (fst r)) rows).
Proof.
  split; [exact two_players_wf|]. split; [reflexivity|]. split; [reflexivity|].
  destruct (skill_board_one_row_per_subject two_players "skill_Aiming"
              (SkillBoard "Aiming" [(0%nat, "Bob", 5); (1%nat, "Ann", 3)])
              two_players_wf eq_refl eq_refl)
    as (rows & He & _ & _ & _ & Hnd).
  exists rows. auto.
Defined.

Lemma dawn_report_counts_everyone_witness :
  d_survivors two_survivors <> [] /\
  Forall (fun s => format_time (s_hours s) = None) (d_survivors two_survivors) /\
  exists rows rest,
    send_daily_survivor_report two_survivors initial_globals
    = (send_discord_notification (DailyReportEmbed 2 rows 2) initial_globals, None) /\
    List.length rows = 2%nat /\
    map fst rows = [0%nat; 1%nat] /\
    Permutation (map snd rows ++ rest) (d_survivors two_survivors).
Proof.
  assert (Hne : d_survivors two_survivors <> []) by (intros H; discriminate H).
  assert (Hall : Forall (fun s => format_time (s_hours s) = None)
                   (d_survivors two_survivors))
    by (repeat constructor).
  split; [exact Hne|]. split; [exact Hall|].
  destruct (dawn_report_counts_everyone two_survivors initial_globals Hne)
    as (Hposts & _).
  destruct (Hposts Hall) as (rows & rest & Hsend & Hlen & Hnum & Hperm).
  exists rows, rest. split; [exact Hsend|]. split; [exact Hlen|].
  split; [|exact Hperm]. now rewrite Hnum, Hlen.
Defined.

Lemma parse_skills_string_no_equals_witness :
  contains_char "=" "Aiming 5, Fitness 3" = false /\
  parse_skills_string (fun s => s) read_int "Aiming 5, Fitness 3" = Some ∅.
Proof.
  split; [reflexivity|].
  exact (parse_skills_string_no_equals (fun s => s) read_int "Aiming 5, Fitness 3"
           eq_refl).
Defined.

Lemma parse_skills_string_reads_skills_text_witness :
  skills_text [("Aiming", "5"); ("Fitness", "3")] = "Aiming=5,Fitness=3" /\
  read_int "5" = Some 5 /\
  read_int "3" = Some 3 /\
  parse_skills_string (fun s => s) read_int "Aiming=5,Fitness=3"
  = Some (<["Fitness" := 3]> (<["Aiming" := 5]> ∅)).
Proof.
  split; [reflexivity|]. split; [reflexivity|]. split; [reflexivity|].
  apply (parse_skills_string_reads_skills_text (fun s => s) read_int
           [("Aiming", "5"); ("Fitness", "3")]).
  repeat constructor; intros H; discriminate H.
Defined.

Lemma saved_snapshot_is_loaded_back_witness :
  tiny_load (tiny_dump (player_stats two_players) (file_positions two_players))
  = Some (Some (player_stats two_players), Some (file_positions two_players)) /\
  player_stats
    (load_player_stats tiny_load false
       (snd (save_player_stats tiny_dump NoFault two_players None)) initial_globals)
  = player_stats two_players.
Proof.
  assert (H : tiny_load (tiny_dump (player_stats two_players) (file_positions two_players))
              = Some (Some (player_stats two_players), Some (file_positions two_players)))
    by reflexivity.
  split; [exact H|].
  destruct (saved_snapshot_is_loaded_back tiny_dump tiny_load two_players
              initial_globals None H) as (Hps & _).
  exact Hps.
Defined.

Lemma torn_save_loses_the_snapshot_witness :
  let old := Some (tiny_dump (player_stats two_players) (file_positions two_players)) in
  tiny_load (substring 0 12
               (tiny_dump (player_stats three_players) (file_positions three_players)))
  = None /\
  player_stats (load_player_stats tiny_load false old initial_globals)
  = player_stats two_players /\
  player_stats
    (load_player_stats tiny_load false
       (snd (save_player_stats tiny_dump (WriteFailsAfter 12) three_players old))
       initial_globals)
  = [].
Proof.
  intros old. split; [reflexivity|]. split; [reflexivity|].
  destruct (torn_save_loses_the_snapshot tiny_dump tiny_load three_players
              initial_globals old 12 eq_refl) as (Hps & _).
  exact Hps.
Defined.

Lemma daily_boards_once_per_date_witness :
  player_stats three_players <> [] /\
  Forall (fun kv => record_renders (snd kv) = true) (player_stats three_players) /\
  b_marker (daily_leaderboards midnight None three_players) = Some 739252 /\
  daily_leaderboards noon
    (b_marker (daily_leaderboards midnight None three_players))
    (b_globals (daily_leaderboards midnight None three_players))
  = (b_marker (daily_leaderboards midnight None three_players),
     b_globals (daily_leaderboards midnight None three_players), [], None).
Proof.
  assert (Hps : player_stats three_players <> []) by (intros H; discriminate H).
  assert (Hl : None <> Some (c_date midnight)) by (intros H; discriminate H).
  assert (Hall : Forall (fun kv => record_renders (snd kv) = true)
                   (player_stats three_players))
    by (repeat constructor).
  split; [exact Hps|]. split; [exact Hall|].
  destruct (daily_boards_once_per_date midnight noon None three_players
              Hps Hall eq_refl (or_introl eq_refl) Hl eq_refl)
    as (Hm & _ & _ & _ & Hlater).
  split; [exact Hm | exact Hlater].
Defined.

Lemma backoff_on_every_fifth_failure_witness :
  let r := run_loop tick_decoder elements tiny_dump 10
             [offline; offline; offline; offline; offline; offline]
             initial_loop_state two_players None in
  Forall (fun it => it_connect it <> None)
    [offline; offline; offline; offline; offline; offline] /\
  0 <= consecutive_errors initial_loop_state < 5 /\
  r_globals r = two_players /\
  consecutive_errors (r_state r) = 1 /\
  r_slept r = [10; 10; 10; 10; 30; 10].
Proof.
  intros r.
  assert (Hall : Forall (fun it => it_connect it <> None)
                   [offline; offline; offline; offline; offline; offline])
    by (repeat constructor; intros H; discriminate H).
  assert (Hc : 0 <= consecutive_errors initial_loop_state < 5) by (simpl; lia).
  split; [exact Hall|]. split; [exact Hc|].
  destruct (backoff_on_every_fifth_failure tick_decoder elements tiny_dump 10 _
              initial_loop_state two_players None Hall Hc)
    as (Hg & _ & _ & _ & _ & Hn & Hs).
  split; [exact Hg|]. split; [exact Hn | exact Hs].
Defined.

Lemma snapshot_written_on_twentieth_check_only_witness :
  let g := with_unsaved_changes true two_players in
  let r := loop_body tick_decoder elements tiny_dump 10 quiet_pass nineteen_checks g None in
  r_file r <> None /\
  check_count (r_state r) = 20 /\
  check_count (r_state r) mod 20 = 0 /\
  unsaved_changes g = true.
Proof.
  intros g r.
  assert (Hfile : r_file r <> None) by (intros H; discriminate H).
  split; [exact Hfile|].
  destruct (snapshot_written_on_twentieth_check_only tick_decoder elements tiny_dump 10
              quiet_pass nineteen_checks g None Hfile)
    as (_ & _ & Hn & Hmod & Hun).
  split; [exact Hn|]. split; [exact Hmod | exact Hun].
Defined.
